(** * Data Dashboard: the federated query and aggregation layer

    A shallow embedding of [Data Dashboard/app.py], [mysql_utils.py],
    [mongodb_utils.py] and [neo4j_utils.py].

    - Python values are the inductive [pyval]; [None] is [VNone].
    - A call that can raise returns an [outcome]; code that also touches the
      process-wide connection objects runs in the state-and-exception monad
      [M], whose state survives a raised exception (as Python's does).
    - The three servers are an oracle [Env]: every driver call asks it for
      the answer at the current time (the number of events so far) and
      records an event, so that calls can be counted afterwards.
    - A [str] is held as its UTF-8 bytes: [len] and [strip] work on its
      characters; [lower] is Python's on ASCII text. *)

From Stdlib Require Import ZArith QArith List String Ascii Bool Lia.
From Stdlib Require Import DecimalString.
From Stdlib Require Import Permutation Sorted.
From Stdlib Require OrderedTypeEx.
Import ListNotations.
Close Scope Q_scope.
Local Open Scope string_scope.
Local Open Scope list_scope.
Local Open Scope nat_scope.
#[local] Set Warnings "-register-all".

(* ===================================================================== *)
(** * Part I. Definitions                                                  *)
(* ===================================================================== *)

(** ** Python values *)

Inductive pyval : Type :=
| VNone
| VInt (z : Z)
| VNum (q : Q)                 (* float or Decimal *)
| VStr (s : string)
| VDate (ordinal : Z)          (* datetime.date, by its toordinal() *)
| VList (items : list pyval)
| VDict (entries : list (string * pyval))
| VObj (repr : string).        (* any other object, e.g. an ObjectId *)

(** [bool(v)] *)
Definition truthy (v : pyval) : bool :=
  match v with
  | VNone => false
  | VInt z => negb (z =? 0)%Z
  | VNum q => negb (Qeq_bool q 0)
  | VStr s => negb (s =? "")%string
  | VDate _ => true
  | VList l => match l with [] => false | _ => true end
  | VDict d => match d with [] => false | _ => true end
  | VObj _ => true
  end.

(** [v or d] *)
Definition py_or (v d : pyval) : pyval := if truthy v then v else d.

(** [==] on the values that serve as dictionary keys. *)
Definition key_eqb (a b : pyval) : bool :=
  match a, b with
  | VNone, VNone => true
  | VInt x, VInt y => (x =? y)%Z
  | VInt x, VNum q | VNum q, VInt x => Qeq_bool (inject_Z x) q
  | VNum p, VNum q => Qeq_bool p q
  | VStr s, VStr t => (s =? t)%string
  | VDate x, VDate y => (x =? y)%Z
  | VObj r, VObj t => (r =? t)%string
  | _, _ => false
  end.

(** ** Exceptions *)

Inductive exn_class : Type :=
| MySQLError                    (* mysql.connector.Error *)
| PyMongoError
| ConnectionFailure
| ServerSelectionTimeoutError
| ServiceUnavailable
| AuthError
| AttributeError
| KeyError
| IndexError
| TypeError
| ValueError
| NotImplementedError
| OtherException                (* any other subclass of Exception *)
| Exception.

Record exn : Type := Exn { exn_cls : exn_class; exn_msg : string }.

Definition exn_class_eqb (a b : exn_class) : bool :=
  match a, b with
  | MySQLError, MySQLError | PyMongoError, PyMongoError
  | ConnectionFailure, ConnectionFailure
  | ServerSelectionTimeoutError, ServerSelectionTimeoutError
  | ServiceUnavailable, ServiceUnavailable | AuthError, AuthError
  | AttributeError, AttributeError | KeyError, KeyError
  | IndexError, IndexError | TypeError, TypeError | ValueError, ValueError
  | NotImplementedError, NotImplementedError
  | OtherException, OtherException | Exception, Exception => true
  | _, _ => false
  end.

(** [issubclass]: every class derives from [Exception]; pymongo's connection
    errors derive from [PyMongoError]. *)
Definition subclass (c parent : exn_class) : bool :=
  exn_class_eqb c parent ||
  match c, parent with
  | _, Exception
  | ConnectionFailure, PyMongoError
  | ServerSelectionTimeoutError, PyMongoError
  | ServerSelectionTimeoutError, ConnectionFailure => true
  | _, _ => false
  end.

Definition isinstance (e : exn) (classes : list exn_class) : bool :=
  existsb (subclass (exn_cls e)) classes.
Arguments isinstance : simpl never.

Inductive outcome (A : Type) : Type :=
| Ok (a : A)
| Raise (e : exn).
Arguments Ok {A} a.
Arguments Raise {A} e.

Definition obind {A B} (o : outcome A) (f : A -> outcome B) : outcome B :=
  match o with Ok a => f a | Raise e => Raise e end.

Fixpoint omap {A B} (f : A -> outcome B) (l : list A) : outcome (list B) :=
  match l with
  | [] => Ok []
  | x :: xs => obind (f x) (fun y => obind (omap f xs) (fun ys => Ok (y :: ys)))
  end.

(** ** Formatted text

    An f-string is kept as its parts: the literal pieces and the values whose
    [str()] is spliced in. *)

Inductive fpart : Type :=
| Lit (s : string)
| Val (v : pyval)
| Exc (e : exn).

Definition text : Type := list fpart.

(** ** Strings: [len], [strip], [lower], [split]

    A [str] is held as its UTF-8 bytes.  A character is the byte that begins
    it together with the continuation bytes (10xxxxxx) that follow. *)

Definition is_continuation (c : ascii) : bool :=
  let n := nat_of_ascii c in
  (128 <=? n) && (n <? 192).

(** The characters of a string, each as its bytes. *)
Fixpoint characters (s : string) : list string :=
  match s with
  | EmptyString => []
  | String c s' =>
      match characters s' with
      | String d r :: rest =>
          if is_continuation d then String c (String d r) :: rest
          else String c EmptyString :: String d r :: rest
      | rest => String c EmptyString :: rest
      end
  end.

(** [len(s)]: the number of characters. *)
Definition len (s : string) : nat := List.length (characters s).

Definition code_units (ch : string) : list nat :=
  map nat_of_ascii (list_ascii_of_string ch).

(** [ch.isspace()] on one character, which is what [strip()] removes:
    U+0009-000D, U+001C-001F, U+0020, U+0085, U+00A0, U+1680, U+2000-200A,
    U+2028, U+2029, U+202F, U+205F and U+3000, here by their UTF-8 bytes. *)
Definition is_space (ch : string) : bool :=
  match code_units ch with
  | [n] => (n =? 32) || ((9 <=? n) && (n <=? 13)) || ((28 <=? n) && (n <=? 31))
  | [a; b] => (a =? 194) && ((b =? 133) || (b =? 160))
  | [a; b; c] =>
      ((a =? 225) && (b =? 154) && (c =? 128))
      || ((a =? 226) && (b =? 128)
          && (((128 <=? c) && (c <=? 138)) || (c =? 168) || (c =? 169)
              || (c =? 175)))
      || ((a =? 226) && (b =? 129) && (c =? 159))
      || ((a =? 227) && (b =? 128) && (c =? 128))
  | _ => false
  end.

(** White space taken off the front, and off the end, of the characters. *)
Fixpoint lstrip (l : list string) : list string :=
  match l with
  | [] => []
  | ch :: l' => if is_space ch then lstrip l' else l
  end.

Fixpoint rstrip (l : list string) : list string :=
  match l with
  | [] => []
  | ch :: l' =>
      match rstrip l' with
      | [] => if is_space ch then [] else [ch]
      | r => ch :: r
      end
  end.

(** [s.strip()] *)
Definition strip (s : string) : string :=
  String.concat "" (rstrip (lstrip (characters s))).

(** [s.lower()] on ASCII text.  A byte that is not an ASCII capital is left
    as it is, which is Python's result as long as the text holds no other
    cased character; what is proved of lowered text of any kind is stated
    for ASCII text. *)
Definition lower_ascii (c : ascii) : ascii :=
  let n := nat_of_ascii c in
  if (65 <=? n) && (n <=? 90) then ascii_of_nat (n + 32) else c.

Fixpoint lower (s : string) : string :=
  match s with
  | EmptyString => EmptyString
  | String c s' => String (lower_ascii c) (lower s')
  end.

(** Every byte is below 128. *)
Fixpoint ascii_text (s : string) : bool :=
  match s with
  | EmptyString => true
  | String c s' => (nat_of_ascii c <? 128) && ascii_text s'
  end.

(** U+00A0, the no-break space. *)
Definition nbsp : string :=
  String (ascii_of_nat 194) (String (ascii_of_nat 160) EmptyString).

(** [s.split(sep)] for a one-character separator. *)
Fixpoint split (sep : ascii) (s : string) : list string :=
  match s with
  | EmptyString => [EmptyString]
  | String c s' =>
      if Ascii.eqb c sep then EmptyString :: split sep s'
      else match split sep s' with
           | [] => [String c EmptyString]
           | w :: ws => String c w :: ws
           end
  end.

(** ** A stable sort, largest weight first

    Insertion sort: an element goes in front of the first one that is not
    heavier, so equal weights keep the order they came in. *)

Section StableSort.
Variable A : Type.
Variable weight : A -> Z.

Fixpoint insert_desc (x : A) (l : list A) : list A :=
  match l with
  | [] => [x]
  | y :: l' => if (weight x <? weight y)%Z then y :: insert_desc x l' else x :: l
  end.

Definition stable_sort_desc (l : list A) : list A :=
  fold_right insert_desc [] l.

Definition descending (l : list A) : Prop :=
  StronglySorted (fun a b => (weight b <= weight a)%Z) l.

(** The elements of weight [c], in the order of the list. *)
Definition tied (c : Z) (l : list A) : list A :=
  filter (fun x => (weight x =? c)%Z) l.
End StableSort.

Arguments insert_desc {A} weight x l.
Arguments stable_sort_desc {A} weight l.
Arguments descending {A} weight l.
Arguments tied {A} weight c l.

(** ** Aggregation over one column

    A column is a list of cells; [None] is a missing value (SQL NULL, which
    pandas holds as NaN/None). *)

Section GroupCount.
Variable K : Type.
Variable cmp : K -> K -> comparison.

(** Count [k] into the groups, which are kept in ascending key order. *)
Fixpoint bump (k : K) (groups : list (K * nat)) : list (K * nat) :=
  match groups with
  | [] => [(k, 1)]
  | (k', n) :: rest =>
      match cmp k k' with
      | Eq => (k', S n) :: rest
      | Lt => (k, 1) :: groups
      | Gt => (k', n) :: bump k rest
      end
  end.

(** [df.groupby(col).size().reset_index(name='count')]: one row per
    distinct key with the number of records holding it.  pandas' defaults
    are [sort=True] (keys ascending) and [dropna=True] (records whose key
    is missing belong to no group). *)
Definition groupby_size (col : list (option K)) : list (K * nat) :=
  fold_left (fun groups cell =>
               match cell with
               | Some k => bump k groups
               | None => groups
               end) col [].

Fixpoint insert_by_key (x : K * nat) (l : list (K * nat)) : list (K * nat) :=
  match l with
  | [] => [x]
  | y :: l' =>
      match cmp (fst y) (fst x) with
      | Gt => x :: l
      | _ => y :: insert_by_key x l'
      end
  end.

(** [frame.sort_values(col)]: ascending by key. *)
Definition sort_values_key (l : list (K * nat)) : list (K * nat) :=
  fold_right insert_by_key [] l.

(** app.py 547-549 and 1376-1378:
    [year_counts = df.groupby('year').size().reset_index(name='count')]
    [year_counts = year_counts.sort_values('year')] *)
Definition year_counts (year : list (option K)) : list (K * nat) :=
  sort_values_key (groupby_size year).

(** [frame.sort_values('count', ascending=False)].  pandas passes the
    counts to numpy's sort (kind quicksort), which on at most 16 entries
    is an insertion sort that leaves equal counts in frame order; this is
    that insertion sort.  It is exact up to 16 partitions; beyond that the
    order among equal counts is numpy's and only the facts that the result
    is a permutation in descending order are to be relied on. *)
Definition sort_values_count_desc (l : list (K * nat)) : list (K * nat) :=
  stable_sort_desc (fun x => Z.of_nat (snd x)) l.

(** [frame.head(n)] *)
Definition head (n : nat) (l : list (K * nat)) : list (K * nat) := firstn n l.

(** The ranking of app.py 1391-1393 with the bound left open. *)
Definition top_by_count (n : nat) (col : list (option K)) : list (K * nat) :=
  head n (sort_values_count_desc (groupby_size col)).

(** app.py 1391-1393:
    [venue_counts = df.groupby('venue').size().reset_index(name='count')]
    [venue_counts = venue_counts.sort_values('count', ascending=False).head(10)] *)
Definition venue_counts (venue : list (option K)) : list (K * nat) :=
  top_by_count 10 venue.

(** Keys in the order in which the column first shows them. *)
Fixpoint first_seen (eqb : K -> K -> bool) (col : list (option K)) : list K :=
  match col with
  | [] => []
  | None :: rest => first_seen eqb rest
  | Some k :: rest =>
      k :: filter (fun k' => negb (eqb k k')) (first_seen eqb rest)
  end.
End GroupCount.

Arguments bump {K} cmp k groups.
Arguments groupby_size {K} cmp col.
Arguments insert_by_key {K} cmp x l.
Arguments sort_values_key {K} cmp l.
Arguments year_counts {K} cmp year.
Arguments sort_values_count_desc {K} l.
Arguments head {K} n l.
Arguments top_by_count {K} cmp n col.
Arguments venue_counts {K} cmp venue.
Arguments first_seen {K} eqb col.

(** ** Keyword explosion and ranking: [get_university_keywords], 849-865 *)

(** A result row of the keyword query: [row[0]] is [p.keywords] (text or
    NULL), [row[1]] is [COUNT( * )]. *)
Definition kw_row : Type := (option string * Z)%type.

(** A [dict] from [str] to [int]; the list keeps insertion order, which is
    the order [items()] yields. *)
Definition counts_dict : Type := list (string * Z).

Fixpoint dict_get (d : counts_dict) (k : string) : option Z :=
  match d with
  | [] => None
  | (k', v) :: d' => if (k' =? k)%string then Some v else dict_get d' k
  end.

(** [d[k] += c] on a key that is present. *)
Fixpoint dict_add (d : counts_dict) (k : string) (c : Z) : counts_dict :=
  match d with
  | [] => []
  | (k', v) :: d' =>
      if (k' =? k)%string then (k', (v + c)%Z) :: d' else (k', v) :: dict_add d' k c
  end.

(** The body of the inner loop, 857-862. *)
Definition count_keyword (count : Z) (keyword_counts : counts_dict)
    (keyword : string) : counts_dict :=
  let keyword := lower (strip keyword) in
  if negb (keyword =? "")%string && (2 <? len keyword) then
    match dict_get keyword_counts keyword with
    | Some _ => dict_add keyword_counts keyword count
    | None => keyword_counts ++ [(keyword, count)]
    end
  else keyword_counts.

(** The body of the outer loop, 853-862. *)
Definition count_row (keyword_counts : counts_dict) (row : kw_row)
  : counts_dict :=
  let keywords :=
    match fst row with
    | Some s => if negb (s =? "")%string then split "," s else []
    | None => []
    end in
  let count := snd row in
  fold_left (count_keyword count) keywords keyword_counts.

(** 850-862: [keyword_counts] after the loop over [results]. *)
Definition keyword_counts (results : list kw_row) : counts_dict :=
  fold_left count_row results [].

(** [sorted(items, key=lambda x: x[1], reverse=True)]: Python's sort is
    stable, also under [reverse=True]. *)
Definition sorted_desc (items : list (string * Z)) : list (string * Z) :=
  stable_sort_desc snd items.

(** The ranking of line 865 with the bound left open: [sorted(...)[:n]]. *)
Definition top_n (n : nat) (items : list (string * Z)) : list (string * Z) :=
  firstn n (sorted_desc items).

(** 865: [sorted_keywords = sorted(keyword_counts.items(), ...)[:10]] *)
Definition sorted_keywords (keyword_counts : counts_dict)
  : list (string * Z) :=
  top_n 10 keyword_counts.

(** ** Scalar statistics *)

(** A pandas float: [NaN] or a number. *)
Inductive pyfloat : Type :=
| NaN
| Fin (q : Q).

Definition present {A} (col : list (option A)) : list A :=
  flat_map (fun c => match c with Some a => [a] | None => [] end) col.

Definition zsum (l : list Z) : Z := fold_right Z.add 0%Z l.

(** [Series.mean()]: missing cells are skipped; no cell left gives NaN.
    The number is kept as the exact quotient, of which pandas returns the
    nearest float; what is proved of a mean is whether it is NaN. *)
Definition mean (col : list (option Z)) : pyfloat :=
  match present col with
  | [] => NaN
  | x :: xs => Fin (Qmake (zsum (x :: xs)) (Pos.of_nat (List.length (x :: xs))))
  end.

(** [Series.max()]: missing cells are skipped; no cell left gives NaN.
    The number is the cell itself, which is what pandas returns as long as a
    float holds the cell exactly. *)
Definition series_max (col : list (option Z)) : option Z :=
  match present col with
  | [] => None
  | x :: xs => Some (fold_left Z.max xs x)
  end.

Definition count_occ_str (s : string) (l : list string) : nat :=
  List.length (filter (String.eqb s) l).

(** [Series.mode()] on a text column: the most frequent values among the
    cells present, in ascending order. *)
Definition is_mode (vals : list string) (v : string) : bool :=
  forallb (fun w => count_occ_str w vals <=? count_occ_str v vals) vals.

Definition str_leb (a b : string) : bool :=
  match String.compare a b with Gt => false | _ => true end.

Fixpoint least (v : string) (l : list string) : string :=
  match l with
  | [] => v
  | w :: l' => least (if str_leb v w then v else w) l'
  end.

(** [col.mode().iloc[0]]: the least of the modes; [IndexError] when every
    cell is missing. *)
Definition mode_iloc0 (col : list (option string)) : outcome string :=
  match filter (is_mode (present col)) (present col) with
  | [] => Raise (Exn IndexError "single positional indexer is out-of-bounds")
  | v :: l => Ok (least v l)
  end.

(** ** The state-and-exception monad *)

Definition M (S A : Type) : Type := S -> outcome A * S.

Definition ret {S A} (a : A) : M S A := fun s => (Ok a, s).

Definition bind {S A B} (m : M S A) (f : A -> M S B) : M S B :=
  fun s =>
    match m s with
    | (Ok a, s') => f a s'
    | (Raise e, s') => (Raise e, s')
    end.

Definition raise {S A} (e : exn) : M S A := fun s => (Raise e, s).

Definition lift_outcome {S A} (o : outcome A) : M S A := fun s => (o, s).

Declare Scope monad_scope.
Delimit Scope monad_scope with monad.
Notation "x <- m ;; k" := (bind m (fun x => k))
  (at level 61, m at next level, right associativity) : monad_scope.
Notation "m ;; k" := (bind m (fun _ => k))
  (at level 61, right associativity) : monad_scope.
Local Open Scope monad_scope.

(** The first [except] clause whose classes match the exception. *)
Fixpoint select_clause {S A} (e : exn)
    (clauses : list (list exn_class * (exn -> M S A))) : option (M S A) :=
  match clauses with
  | [] => None
  | (classes, handler) :: rest =>
      if isinstance e classes then Some (handler e) else select_clause e rest
  end.

(** [try: body  except C1 as e: h1  except C2 as e: h2 ...] *)
Definition try_except {S A} (body : M S A)
    (clauses : list (list exn_class * (exn -> M S A))) : M S A :=
  fun s =>
    match body s with
    | (Ok a, s') => (Ok a, s')
    | (Raise e, s') =>
        match select_clause e clauses with
        | Some handler => handler s'
        | None => (Raise e, s')
        end
    end.

(** [for x in l: body x] *)
Fixpoint for_each {S A} (l : list A) (body : A -> M S unit) : M S unit :=
  match l with
  | [] => ret tt
  | x :: xs => body x ;; for_each xs body
  end.

(** Local variables of a function: the state is extended for its body. *)
Definition with_local {S L A} (init : L) (body : M (S * L) A) : M S A :=
  fun s => let '(r, (s', _)) := body (s, init) in (r, s').

Definition lift_state {S L A} (m : M S A) : M (S * L) A :=
  fun sl => let '(r, s') := m (fst sl) in (r, (s', snd sl)).

Definition get_local {S L} : M (S * L) L := fun sl => (Ok (snd sl), sl).

(** [lst.append(x)] on a local list. *)
Definition append_local {S A} (x : A) : M (S * list A) unit :=
  fun sl => (Ok tt, (fst sl, snd sl ++ [x])).

(** ** The outside world *)

Definition row : Type := list pyval.              (* a result tuple *)
Definition document : Type := list (string * pyval).  (* a dict keyed by str *)

Inductive loglevel : Type := INFO | WARNING | ERROR.
Inductive logger : Type := app_log | mysql_log | mongodb_log | neo4j_log.

Inductive event : Type :=
| MySQLConnect
| MySQLIsConnected (h : nat)
| MySQLExecute (h : nat) (query : string) (params : list pyval)
| MongoClientNew
| MongoPing (h : nat)
| MongoFind (h : nat) (db collection : string) (filter : document) (limit : Z)
| MongoCall (attribute : string)
| Neo4jDriverNew
| Neo4jRun (h : nat) (query : string) (parameters : document)
| ClockNow
| RandInt (a b : Z)
| Log (lg : logger) (level : loglevel) (msg : text).

(** What the servers and the libraries answer.  The first argument of an
    answer is the time of the call: the number of events before it. *)
Record Env : Type := {
  (* mysql.connector.connect(...): a connection, or an exception *)
  mysql_connect_result : nat -> outcome unit;
  (* connection.is_connected() *)
  mysql_is_connected : nat -> nat -> bool;
  (* cursor(); execute(query, params); fetchall(); close() *)
  mysql_execute_result : nat -> nat -> string -> list pyval -> outcome (list row);
  (* MongoClient(...) *)
  mongo_client_result : nat -> outcome unit;
  (* client.admin.command('ping') *)
  mongo_ping_result : nat -> nat -> outcome unit;
  (* bool() of a pymongo Database or Collection: True before pymongo 4,
     NotImplementedError since *)
  pymongo_bool : outcome bool;
  (* collection.find(filter, projection), .limit(n), list(cursor) *)
  mongo_find_result :
    nat -> nat -> string -> string -> document -> Z -> outcome (list document);
  (* calling a bound method of the connection object that is not modelled *)
  mongo_call_result : nat -> string -> outcome (option (list document));
  (* GraphDatabase.driver(...) *)
  neo4j_driver_result : nat -> outcome unit;
  (* session.run(query, parameters), [dict(record) for record in result] *)
  neo4j_run_result : nat -> nat -> string -> document -> outcome (list document);
  (* datetime.now(), as a day ordinal *)
  clock_now : nat -> Z;
  (* the random generator behind random.randint *)
  random_source : nat -> Z;
  (* pd.to_datetime on a value that is neither a date nor missing *)
  pd_to_datetime : pyval -> outcome (option Z)
}.

(** ** The connection objects and the module globals *)

Record MySQLConnection : Type := {
  my_database : pyval;
  connection : option nat          (* self.connection: None or a handle *)
}.

Record MongoDBConnection : Type := {
  mo_host : pyval;
  mo_port : pyval;
  database_name : option string;
  client : option nat;             (* self.client *)
  database : option (nat * string) (* self.database: a client's database *)
}.

Record Neo4jConnection : Type := {
  uri : pyval;
  driver : option nat              (* self.driver *)
}.

Record State : Type := {
  mysql_conn : option MySQLConnection;
  mongodb_conn : option MongoDBConnection;
  neo4j_conn : option Neo4jConnection;
  trace : list event
}.

Definition record_event (e : event) (s : State) : State :=
  {| mysql_conn := mysql_conn s; mongodb_conn := mongodb_conn s;
     neo4j_conn := neo4j_conn s; trace := trace s ++ [e] |}.

Definition time (s : State) : nat := List.length (trace s).

(** A call to the outside: the answer at the current time, and its event. *)
Definition call {A} (e : event) (answer : nat -> outcome A) : M State A :=
  fun s => (answer (time s), record_event e s).

Definition log (lg : logger) (level : loglevel) (msg : text) : M State unit :=
  fun s => (Ok tt, record_event (Log lg level msg) s).

Definition no_attribute (cls attr : string) : exn :=
  Exn AttributeError ("'" ++ cls ++ "' object has no attribute '" ++ attr ++ "'").

Definition read {S A} (f : S -> A) : M S A := fun s => (Ok (f s), s).

(** A new driver object; its handle is the time of its creation. *)
Definition new_handle (e : event) (answer : nat -> outcome unit) : M State nat :=
  fun s =>
    match answer (time s) with
    | Ok _ => (Ok (time s), record_event e s)
    | Raise x => (Raise x, record_event e s)
    end.

(** ** mysql_utils.py: [MySQLConnection] *)

Module MySQL.
Section Methods.
Variable env : Env.

(** The object the method is called on: the module global [mysql_conn]. *)
Definition self (method : string) : M State MySQLConnection :=
  fun s =>
    match mysql_conn s with
    | Some c => (Ok c, s)
    | None => (Raise (no_attribute "NoneType" method), s)
    end.

Definition set_connection (h : option nat) : M State unit :=
  fun s =>
    (Ok tt,
     {| mysql_conn :=
          match mysql_conn s with
          | Some c => Some {| my_database := my_database c; connection := h |}
          | None => None
          end;
        mongodb_conn := mongodb_conn s; neo4j_conn := neo4j_conn s;
        trace := trace s |}).

Definition is_connected (h : nat) : M State bool :=
  call (MySQLIsConnected h) (fun t => Ok (mysql_is_connected env t h)).

(** [connect], 34-59 *)
Definition connect : M State bool :=
  try_except
    (c <- self "connect" ;;
     h <- new_handle MySQLConnect (mysql_connect_result env) ;;
     set_connection (Some h) ;;
     live <- is_connected h ;;
     if live then
       log mysql_log INFO
         [Lit "Successfully connected to MySQL database: "; Val (my_database c)] ;;
       ret true
     else ret false)
    [([MySQLError],
      fun e =>
        log mysql_log ERROR [Lit "Error connecting to MySQL database: "; Exc e] ;;
        ret false)].

(** [not self.connection or not self.connection.is_connected()] *)
Definition stale : M State bool :=
  c <- self "connection" ;;
  match connection c with
  | None => ret true
  | Some h => live <- is_connected h ;; ret (negb live)
  end.

(** [execute_query], 67-91.  The four cursor calls of the [try] body are
    one exchange with the server. *)
Definition execute_query (query : string) (params : list pyval)
  : M State (option (list row)) :=
  is_stale <- stale ;;
  connected <- (if is_stale then connect else ret true) ;;
  if negb connected then ret None
  else
    try_except
      (c <- self "connection" ;;
       match connection c with
       | None => raise (no_attribute "NoneType" "cursor")
       | Some h =>
           results <- call (MySQLExecute h query params)
                        (fun t => mysql_execute_result env t h query params) ;;
           ret (Some results)
       end)
      [([MySQLError],
        fun e =>
          log mysql_log ERROR [Lit "Error executing query: "; Exc e] ;;
          ret None)].
End Methods.
End MySQL.

Arguments MySQL.execute_query : simpl never.

(** ** neo4j_utils.py: [Neo4jConnection] *)

Module Neo4j.
Section Methods.
Variable env : Env.

Definition self (method : string) : M State Neo4jConnection :=
  fun s =>
    match neo4j_conn s with
    | Some c => (Ok c, s)
    | None => (Raise (no_attribute "NoneType" method), s)
    end.

Definition set_driver (h : option nat) : M State unit :=
  fun s =>
    (Ok tt,
     {| mysql_conn := mysql_conn s; mongodb_conn := mongodb_conn s;
        neo4j_conn :=
          match neo4j_conn s with
          | Some c => Some {| uri := uri c; driver := h |}
          | None => None
          end;
        trace := trace s |}).

(** [session.run(query, parameters)] and the reading of its records. *)
Definition run (h : nat) (query : string) (parameters : document)
  : M State (list document) :=
  call (Neo4jRun h query parameters)
       (fun t => neo4j_run_result env t h query parameters).

(** [connect], 35-61.  The driver is stored before the probe runs, so it
    stays stored when the probe fails. *)
Definition connect : M State bool :=
  try_except
    (c <- self "connect" ;;
     h <- new_handle Neo4jDriverNew (neo4j_driver_result env) ;;
     set_driver (Some h) ;;
     run h "RETURN 1 as test" [] ;;
     log neo4j_log INFO [Lit "Successfully connected to Neo4j at "; Val (uri c)] ;;
     ret true)
    [([ServiceUnavailable; AuthError],
      fun e =>
        log neo4j_log ERROR [Lit "Error connecting to Neo4j: "; Exc e] ;;
        ret false);
     ([Exception],
      fun e =>
        log neo4j_log ERROR [Lit "Unexpected error connecting to Neo4j: "; Exc e] ;;
        ret false)].

(** [execute_query], 69-92 *)
Definition execute_query (query : string) (parameters : document)
  : M State (option (list document)) :=
  c <- self "driver" ;;
  connected <- (match driver c with None => connect | Some _ => ret true end) ;;
  if negb connected then ret None
  else
    try_except
      (c <- self "driver" ;;
       match driver c with
       | None => raise (no_attribute "NoneType" "session")
       | Some h =>
           records <- run h query parameters ;;
           log neo4j_log INFO
             [Lit "Query executed successfully, returned ";
              Val (VInt (Z.of_nat (List.length records))); Lit " records"] ;;
           ret (Some records)
       end)
      [([Exception],
        fun e =>
          log neo4j_log ERROR [Lit "Error executing query: "; Exc e] ;;
          ret None)].
End Methods.
End Neo4j.

Arguments Neo4j.execute_query : simpl never.

(** ** mongodb_utils.py: [MongoDBConnection] *)

Module MongoDB.
(** The names defined on an instance: the methods of the class (16-418)
    and the attributes set by [__init__]. *)
Definition attributes : list string :=
  [ "__init__"; "connect"; "disconnect"; "get_database"; "get_collection";
    "insert_document"; "insert_many_documents"; "find_documents";
    "find_one_document"; "update_document"; "update_many_documents";
    "delete_document"; "delete_many_documents"; "get_collections";
    "get_databases"; "collection_exists"; "get_document_count";
    "host"; "port"; "database_name"; "username"; "password"; "auth_source";
    "auth_mechanism"; "client"; "database" ].

(** Attribute lookup on an instance, by name. *)
Definition getattr (name : string) : outcome string :=
  if existsb (String.eqb name) attributes then Ok name
  else Raise (no_attribute "MongoDBConnection" name).

Section Methods.
Variable env : Env.

Definition self (method : string) : M State MongoDBConnection :=
  fun s =>
    match mongodb_conn s with
    | Some c => (Ok c, s)
    | None => (Raise (no_attribute "NoneType" method), s)
    end.

Definition update (f : MongoDBConnection -> MongoDBConnection) : M State unit :=
  fun s =>
    (Ok tt,
     {| mysql_conn := mysql_conn s;
        mongodb_conn := option_map f (mongodb_conn s);
        neo4j_conn := neo4j_conn s; trace := trace s |}).

Definition set_client (h : option nat) : M State unit :=
  update (fun c => {| mo_host := mo_host c; mo_port := mo_port c;
                      database_name := database_name c; client := h;
                      database := database c |}).

Definition set_database (d : option (nat * string)) : M State unit :=
  update (fun c => {| mo_host := mo_host c; mo_port := mo_port c;
                      database_name := database_name c; client := client c;
                      database := d |}).

(** A [str] or [None] taken as a condition. *)
Definition nonempty (name : option string) : bool :=
  match name with
  | Some n => negb (n =? "")%string
  | None => false
  end.

(** [connect], 44-74.  The client is stored before the ping, so it stays
    stored when the ping fails. *)
Definition connect : M State bool :=
  try_except
    (c <- self "connect" ;;
     h <- new_handle MongoClientNew (mongo_client_result env) ;;
     set_client (Some h) ;;
     call (MongoPing h) (fun t => mongo_ping_result env t h) ;;
     (match database_name c with
      | Some n => if nonempty (Some n) then set_database (Some (h, n)) else ret tt
      | None => ret tt
      end) ;;
     log mongodb_log INFO
       [Lit "Successfully connected to MongoDB at "; Val (mo_host c); Lit ":";
        Val (mo_port c)] ;;
     ret true)
    [([ConnectionFailure; ServerSelectionTimeoutError],
      fun e =>
        log mongodb_log ERROR [Lit "Error connecting to MongoDB: "; Exc e] ;;
        ret false);
     ([Exception],
      fun e =>
        log mongodb_log ERROR [Lit "Unexpected error connecting to MongoDB: "; Exc e] ;;
        ret false)].

(** [get_database], 82-101 *)
Definition get_database (name : option string)
  : M State (option (nat * string)) :=
  c <- self "client" ;;
  connected <- (match client c with None => connect | Some _ => ret true end) ;;
  if negb connected then ret None
  else
    c <- self "client" ;;
    let db_name := if nonempty name then name else database_name c in
    match db_name with
    | Some n =>
        if nonempty db_name then
          match client c with
          | Some h => ret (Some (h, n))
          | None => raise (Exn TypeError "'NoneType' object is not subscriptable")
          end
        else log mongodb_log ERROR [Lit "No database name specified"] ;; ret None
    | None => log mongodb_log ERROR [Lit "No database name specified"] ;; ret None
    end.

(** [bool(obj)] of a pymongo Database or Collection object. *)
Definition truth : M State bool := lift_outcome (pymongo_bool env).

(** [get_collection], 103-118 *)
Definition get_collection (collection_name : string) (name : option string)
  : M State (option (nat * string * string)) :=
  db <- get_database name ;;
  match db with
  | None => ret None
  | Some (h, n) =>
      b <- truth ;;
      if negb b then ret None else ret (Some (h, n, collection_name))
  end.

(** [find_documents], 170-200, with [projection] and [database_name] at
    their defaults, as every caller leaves them. *)
Definition find_documents (collection_name : string) (filter_dict : document)
    (limit : Z) : M State (option (list document)) :=
  collection <- get_collection collection_name None ;;
  match collection with
  | None => ret None
  | Some (h, n, coll) =>
      b <- truth ;;
      if negb b then ret None
      else
        try_except
          (documents <- call (MongoFind h n coll filter_dict limit)
                          (fun t => mongo_find_result env t h n coll filter_dict limit) ;;
           log mongodb_log INFO
             [Lit "Found "; Val (VInt (Z.of_nat (List.length documents)));
              Lit " documents"] ;;
           ret (Some documents))
          [([PyMongoError],
            fun e =>
              log mongodb_log ERROR [Lit "Error finding documents: "; Exc e] ;;
              ret None)]
  end.
End Methods.
End MongoDB.

Arguments MongoDB.find_documents : simpl never.

(** ** app.py: rendering *)

Notation "'let!' x ':=' o 'in' k" := (obind o (fun x => k))
  (at level 10, x name, o at level 100, k at level 200).

(** A Dash component: a tag, its children and its [style] dictionary. *)
Inductive html : Type :=
| Str (t : text)
| Br
| El (tag : string) (children : list html) (style : list (string * pyval)).

Definition H4 (t : text) (style : list (string * pyval)) := El "H4" [Str t] style.
Definition H5 (t : text) (style : list (string * pyval)) := El "H5" [Str t] style.
Definition P (t : text) (style : list (string * pyval)) := El "P" [Str t] style.
Definition Strong (t : text) := El "Strong" [Str t] [].
Definition Span (t : text) := El "Span" [Str t] [].
Definition Div (children : list html) (style : list (string * pyval)) :=
  El "Div" children style.

(** [t[i]] on a tuple. *)
Definition getitem (t : row) (i : nat) : outcome pyval :=
  match nth_error t i with
  | Some v => Ok v
  | None => Raise (Exn IndexError "tuple index out of range")
  end.

Fixpoint lookup (d : document) (k : pyval) : option pyval :=
  match d with
  | [] => None
  | (k', v) :: d' => if key_eqb (VStr k') k then Some v else lookup d' k
  end.

Definition key_error : exn := Exn KeyError "key not found".

(** [d[k]] on a dict whose keys are strings. *)
Definition dict_getitem (d : document) (k : pyval) : outcome pyval :=
  match lookup d k with
  | Some v => Ok v
  | None => Raise key_error
  end.

(** [d.get(k, default)] *)
Definition get (d : document) (k : string) (default : pyval) : pyval :=
  match lookup d (VStr k) with
  | Some v => v
  | None => default
  end.

Fixpoint strings_of (l : list pyval) : outcome (list string) :=
  match l with
  | [] => Ok []
  | VStr s :: l' => let! ss := strings_of l' in Ok (s :: ss)
  | _ :: _ => Raise (Exn TypeError "sequence item: expected str instance")
  end.

(** [sep.join(v)] *)
Definition join (sep : string) (v : pyval) : outcome pyval :=
  match v with
  | VList l => let! ss := strings_of l in Ok (VStr (String.concat sep ss))
  | VStr s => Ok (VStr (String.concat sep (characters s)))
  | VDict d => Ok (VStr (String.concat sep (map fst d)))
  | _ => Raise (Exn TypeError "can only join an iterable")
  end.

Definition card_style (background border : string) : list (string * pyval) :=
  [("backgroundColor", VStr background); ("padding", VInt 10); ("margin", VInt 5);
   ("borderRadius", VInt 5); ("border", VStr border)].

Definition NA : pyval := VStr "N/A".

(** 995-1009 *)
Definition mysql_faculty_info (faculty : row) : outcome html :=
  let! f1 := getitem faculty 1 in
  let! f2 := getitem faculty 2 in
  let! f4 := getitem faculty 4 in
  let! f7 := getitem faculty 7 in
  let! f8 := getitem faculty 8 in
  let! f5 := getitem faculty 5 in
  let! f6 := getitem faculty 6 in
  Ok (Div [ Strong [Lit "Name: "; Val f1]; Br;
            Span [Lit "Email: "; Val (py_or f2 NA)]; Br;
            Span [Lit "Position: "; Val (py_or f4 NA)]; Br;
            Span [Lit "Department: "; Val (py_or f7 NA)]; Br;
            Span [Lit "University: "; Val (py_or f8 NA)]; Br;
            Span [Lit "Research: "; Val (py_or f5 NA)]; Br;
            Span [Lit "Interests: "; Val (py_or f6 NA)] ]
           (card_style "#f8f9fa" "1px solid #dee2e6")).

(** 1027-1035 *)
Definition mysql_pub_info (pub : row) : outcome html :=
  let! p0 := getitem pub 0 in
  let! p1 := getitem pub 1 in
  let! p2 := getitem pub 2 in
  let! p3 := getitem pub 3 in
  Ok (Div [ Strong [Lit "Title: "; Val p0]; Br;
            Span [Lit "Year: "; Val (py_or p1 NA)]; Br;
            Span [Lit "Venue: "; Val (py_or p2 NA)]; Br;
            Span [Lit "Citations: "; Val (py_or p3 (VInt 0))] ]
           (card_style "#e8f5e8" "1px solid #c3e6c3")).

(** [', '.join(d.get(k, [])) if d.get(k) else 'N/A'] *)
Definition joined_or_NA (d : document) (k : string) : outcome pyval :=
  if truthy (get d k VNone) then join ", " (get d k (VList [])) else Ok NA.

(** 1051-1061 *)
Definition mongodb_faculty_info (faculty : document) : outcome html :=
  let! areas := joined_or_NA faculty "research_areas" in
  Ok (Div [ Strong [Lit "Name: "; Val (get faculty "name" NA)]; Br;
            Span [Lit "Email: "; Val (get faculty "email" NA)]; Br;
            Span [Lit "Position: "; Val (get faculty "position" NA)]; Br;
            Span [Lit "Department: "; Val (get faculty "department" NA)]; Br;
            Span [Lit "Research Areas: "; Val areas] ]
           (card_style "#f0f8f0" "1px solid #a8e6a8")).

(** 1071-1079 *)
Definition mongodb_pub_info (pub : document) : outcome html :=
  let! authors := joined_or_NA pub "authors" in
  Ok (Div [ Strong [Lit "Title: "; Val (get pub "title" NA)]; Br;
            Span [Lit "Year: "; Val (get pub "year" NA)]; Br;
            Span [Lit "Authors: "; Val authors]; Br;
            Span [Lit "Citations: "; Val (get pub "citations" (VInt 0))] ]
           (card_style "#e8f5e8" "1px solid #c3e6c3")).

(** 1100-1108: the record is a dict keyed by column name, and is indexed
    here by position. *)
Definition neo4j_person_info (person : document) : outcome html :=
  let! p0 := dict_getitem person (VInt 0) in
  let! p1 := dict_getitem person (VInt 1) in
  let! p2 := dict_getitem person (VInt 2) in
  let! p3 := dict_getitem person (VInt 3) in
  Ok (Div [ Strong [Lit "Name: "; Val (py_or p0 NA)]; Br;
            Span [Lit "Email: "; Val (py_or p1 NA)]; Br;
            Span [Lit "Position: "; Val (py_or p2 NA)]; Br;
            Span [Lit "Department: "; Val (py_or p3 NA)] ]
           (card_style "#fff8e1" "1px solid #ffcc80")).

(** 1124-1132 *)
Definition neo4j_pub_info (pub : document) : outcome html :=
  let! p0 := dict_getitem pub (VInt 0) in
  let! p1 := dict_getitem pub (VInt 1) in
  let! p2 := dict_getitem pub (VInt 2) in
  let! p3 := dict_getitem pub (VInt 3) in
  Ok (Div [ Strong [Lit "Title: "; Val (py_or p0 NA)]; Br;
            Span [Lit "Year: "; Val (py_or p1 NA)]; Br;
            Span [Lit "Venue: "; Val (py_or p2 NA)]; Br;
            Span [Lit "Citations: "; Val (py_or p3 (VInt 0))] ]
           (card_style "#e8f5e8" "1px solid #c3e6c3")).

(** 1148-1152 *)
Definition neo4j_collab_info (collab : document) : outcome html :=
  let! c0 := dict_getitem collab (VInt 0) in
  let! c1 := dict_getitem collab (VInt 1) in
  Ok (Div [ Strong [Lit "Collaborator: "; Val (py_or c0 NA)]; Br;
            Span [Lit "Joint Publications: "; Val (py_or c1 (VInt 0))] ]
           (card_style "#f3e5f5" "1px solid #ce93d8")).

Inductive backend : Type := Relational | DocumentStore | Graph.

Definition backend_eqb (a b : backend) : bool :=
  match a, b with
  | Relational, Relational | DocumentStore, DocumentStore | Graph, Graph => true
  | _, _ => false
  end.

Definition heading_style (color : string) : list (string * pyval) :=
  [("color", VStr color); ("marginTop", VInt 20)].

(** The section headings of the person report: 993, 1025, 1049, 1069, 1098,
    1122, 1146. *)
Definition mysql_titles : list string :=
  ["📊 MySQL - Faculty Information"; "📚 MySQL - Publications"].
Definition mongodb_titles : list string :=
  ["🍃 MongoDB - Faculty Information"; "🍃 MongoDB - Publications"].
Definition neo4j_titles : list string :=
  ["🕸️ Neo4j - Person Information"; "🕸️ Neo4j - Publications";
   "🕸️ Neo4j - Top Collaborators"].

Definition mysql_faculty_heading :=
  H5 [Lit (nth 0 mysql_titles "")] (heading_style "#2980b9").
Definition mysql_pub_heading :=
  H5 [Lit (nth 1 mysql_titles "")] (heading_style "#2980b9").
Definition mongodb_faculty_heading :=
  H5 [Lit (nth 0 mongodb_titles "")] (heading_style "#27ae60").
Definition mongodb_pub_heading :=
  H5 [Lit (nth 1 mongodb_titles "")] (heading_style "#27ae60").
Definition neo4j_person_heading :=
  H5 [Lit (nth 0 neo4j_titles "")] (heading_style "#e67e22").
Definition neo4j_pub_heading :=
  H5 [Lit (nth 1 neo4j_titles "")] (heading_style "#e67e22").
Definition neo4j_collab_heading :=
  H5 [Lit (nth 2 neo4j_titles "")] (heading_style "#e67e22").

(** The SQL and Cypher texts, with runs of white space written as one
    space. *)
Definition person_faculty_query : string :=
  "SELECT id, name, email, phone, position, research, interests, department, university FROM faculty WHERE name LIKE %s".
Definition person_pub_query : string :=
  "SELECT p.title, p.year, p.venue, p.citations FROM publication p JOIN publication_author pa ON p.id = pa.publication_id JOIN faculty f ON pa.faculty_id = f.id WHERE f.name LIKE %s ORDER BY p.year DESC LIMIT 10".
Definition neo4j_person_query : string :=
  "MATCH (p:Person) WHERE p.name CONTAINS $name RETURN p.name as name, p.email as email, p.position as position, p.department as department LIMIT 5".
Definition neo4j_pub_query : string :=
  "MATCH (p:Person)-[:AUTHORED]->(pub:Publication) WHERE p.name CONTAINS $name RETURN pub.title as title, pub.year as year, pub.venue as venue, pub.citations as citations ORDER BY pub.year DESC LIMIT 10".
Definition neo4j_collab_query : string :=
  "MATCH (p1:Person)-[:AUTHORED]->(pub:Publication)<-[:AUTHORED]-(p2:Person) WHERE p1.name CONTAINS $name AND p1 <> p2 RETURN p2.name as collaborator, count(pub) as collaboration_count ORDER BY collaboration_count DESC LIMIT 5".

(** [{"<field>": {"$regex": person_name, "$options": "i"}}] *)
Definition regex_filter (field person_name : string) : document :=
  [(field, VDict [("$regex", VStr person_name); ("$options", VStr "i")])].

(** [mysql_conn and mysql_conn.connection] and its two siblings. *)
Definition mysql_available (s : State) : bool :=
  match mysql_conn s with
  | Some c => match connection c with Some _ => true | None => false end
  | None => false
  end.

Definition mongodb_available (s : State) : bool :=
  match mongodb_conn s with
  | Some c => match client c with Some _ => true | None => false end
  | None => false
  end.

Definition neo4j_available (s : State) : bool :=
  match neo4j_conn s with
  | Some c => match driver c with Some _ => true | None => false end
  | None => false
  end.

(** [if results:] on what a query returned: [None] and [[]] are false. *)
Definition some_rows {A} (results : option (list A)) : list A :=
  match results with
  | Some l => l
  | None => []
  end.

Definition not_found_report (person_name : string) : html :=
  Div [ H5 [Lit "🔍 Search Results"] [("color", VStr "#e74c3c")];
        P [Lit "No information found for '"; Val (VStr person_name);
           Lit "' in any database."]
          [("color", VStr "#7f8c8d"); ("fontStyle", VStr "italic")] ] [].

Definition found_report (person_name : string) (all_results : list html) : html :=
  Div [ H4 [Lit "🔍 Search Results for '"; Val (VStr person_name); Lit "'"]
           [("color", VStr "#2c3e50"); ("marginBottom", VInt 20)];
        Div all_results [] ] [].

Section App.
Variable env : Env.

(** A global read inside a function that has local variables. *)
Definition global {L A} (f : State -> A) : M (State * L) A :=
  lift_state (read f).

(** [if results: append(heading); for r in results: append(info(r))] *)
Definition report_section {R} (results : option (list R)) (heading : html)
    (info : R -> outcome html) : M (State * list html) unit :=
  match some_rows results with
  | [] => ret tt
  | rows =>
      append_local heading ;;
      for_each rows (fun r => card <- lift_outcome (info r) ;; append_local card)
  end.

(** 981-1039 *)
Definition mysql_person_search (person_name : string)
  : M (State * list html) unit :=
  available <- global mysql_available ;;
  if available then
    try_except
      (faculty_results <-
         lift_state (MySQL.execute_query env person_faculty_query
                       [VStr ("%" ++ person_name ++ "%")]) ;;
       report_section faculty_results mysql_faculty_heading mysql_faculty_info ;;
       pub_results <-
         lift_state (MySQL.execute_query env person_pub_query
                       [VStr ("%" ++ person_name ++ "%")]) ;;
       report_section pub_results mysql_pub_heading mysql_pub_info)
      [([Exception],
        fun e =>
          lift_state (log app_log WARNING
                        [Lit "MySQL person search failed: "; Exc e]))]
  else ret tt.

(** 1041-1083 *)
Definition mongodb_person_search (person_name : string)
  : M (State * list html) unit :=
  available <- global mongodb_available ;;
  if available then
    try_except
      (faculty_docs <-
         lift_state (MongoDB.find_documents env "faculty"
                       (regex_filter "name" person_name) 5%Z) ;;
       report_section faculty_docs mongodb_faculty_heading mongodb_faculty_info ;;
       pub_docs <-
         lift_state (MongoDB.find_documents env "publications"
                       (regex_filter "authors" person_name) 5%Z) ;;
       report_section pub_docs mongodb_pub_heading mongodb_pub_info)
      [([Exception],
        fun e =>
          lift_state (log app_log WARNING
                        [Lit "MongoDB person search failed: "; Exc e]))]
  else ret tt.

(** 1085-1156 *)
Definition neo4j_person_search (person_name : string)
  : M (State * list html) unit :=
  available <- global neo4j_available ;;
  if available then
    try_except
      (person_results <-
         lift_state (Neo4j.execute_query env neo4j_person_query
                       [("name", VStr person_name)]) ;;
       report_section person_results neo4j_person_heading neo4j_person_info ;;
       pub_results <-
         lift_state (Neo4j.execute_query env neo4j_pub_query
                       [("name", VStr person_name)]) ;;
       report_section pub_results neo4j_pub_heading neo4j_pub_info ;;
       collab_results <-
         lift_state (Neo4j.execute_query env neo4j_collab_query
                       [("name", VStr person_name)]) ;;
       report_section collab_results neo4j_collab_heading neo4j_collab_info)
      [([Exception],
        fun e =>
          lift_state (log app_log WARNING
                        [Lit "Neo4j person search failed: "; Exc e]))]
  else ret tt.

(** [get_person_information], 977-1170 *)
Definition get_person_information (person_name : string) : M State html :=
  with_local []
    (mysql_person_search person_name ;;
     mongodb_person_search person_name ;;
     neo4j_person_search person_name ;;
     all_results <- get_local ;;
     match all_results with
     | [] => ret (not_found_report person_name)
     | _ => ret (found_report person_name all_results)
     end).
End App.

(** ** app.py: frames, figures and summaries *)

Record DataFrame : Type := { columns : list string; records : list row }.

Fixpoint pad (n : nat) (r : row) : row :=
  match n with
  | O => []
  | S n' => match r with
            | [] => VNone :: pad n' []
            | v :: r' => v :: pad n' r'
            end
  end.

(** The width of the widest tuple. *)
Definition max_width (results : list row) : nat :=
  fold_right Nat.max 0 (map (@List.length pyval) results).

(** [str(n)] of a count. *)
Definition str_of_nat (n : nat) : string :=
  NilEmpty.string_of_uint (Nat.to_uint n).

(** The message pandas gives when the columns do not fit the data. *)
Definition columns_mismatch (passed had : nat) : string :=
  str_of_nat passed ++ " columns passed, passed data had "
  ++ str_of_nat had ++ " columns".

(** [pd.DataFrame(results, columns=cols)] on a list of tuples: the widest
    tuple must have as many fields as there are columns; shorter ones are
    filled with missing values. *)
Definition make_frame (results : list row) (cols : list string)
  : outcome DataFrame :=
  match results with
  | [] => Ok {| columns := cols; records := [] |}
  | _ =>
      if max_width results =? List.length cols
      then Ok {| columns := cols; records := map (pad (List.length cols)) results |}
      else Raise (Exn ValueError
                    (columns_mismatch (List.length cols) (max_width results)))
  end.

Fixpoint index_of (name : string) (cols : list string) : option nat :=
  match cols with
  | [] => None
  | c :: cols' =>
      if (c =? name)%string then Some 0
      else option_map S (index_of name cols')
  end.

(** [name in df.columns] *)
Definition has_column (df : DataFrame) (name : string) : bool :=
  match index_of name (columns df) with Some _ => true | None => false end.

(** [df[name]] *)
Definition column (df : DataFrame) (name : string) : outcome (list pyval) :=
  match index_of name (columns df) with
  | Some i => Ok (map (fun r => nth i r VNone) (records df))
  | None => Raise (Exn KeyError name)
  end.

(** An integer column as pandas holds it; NULL is a missing cell.  The SQL
    columns read this way ([year], [citations], [COUNT( * )]) hold nothing
    else. *)
Definition int_cells (col : list pyval) : list (option Z) :=
  map (fun v => match v with VInt z => Some z | _ => None end) col.

(** A text column; NULL is a missing cell. *)
Definition str_cells (col : list pyval) : list (option string) :=
  map (fun v => match v with VStr s => Some s | _ => None end) col.

(** One row of [keyword_data], 711-729. *)
Record keyword_entry : Type := {
  ke_keyword : string;
  ke_publication_count : pyval;
  ke_avg_citations : pyval;
  ke_max_citations : pyval;
  ke_earliest_year : pyval;
  ke_latest_year : pyval;
  ke_unique_venues : pyval
}.

(** One entry of [publication_data], 1191-1195. *)
Record publication_entry : Type := {
  pe_date : pyval;
  pe_count : pyval;
  pe_source : string
}.

(** What is handed to the chart library.  The library's own checks of what
    it is handed are not modelled (plotly refuses a marker size that is
    missing or negative): a figure stands for the call. *)
Inductive figure : Type :=
| Annotation (t : text)                             (* add_annotation(text=t) *)
| YearBars (title : text) (bars : list (Z * nat))   (* px.bar over year_counts *)
| CitationScatter (points : list row)               (* px.scatter over df *)
| KeywordComparison (keyword_data : list keyword_entry)
| PublicationsOverTime (points : list (option Z * pyval)).

(** The second component of a widget result.  [Message] is a finished line
    of text; the others hold the numbers their f-string prints: 580, 653,
    783 and 1312. *)
Inductive summary : Type :=
| Message (t : text)
| KeywordSearchSummary (total_pubs : nat) (avg_citations : pyfloat)
    (top_venue : string)
| AllPublicationsSummary (total_pubs : nat) (avg_citations : pyfloat)
    (max_citations : pyfloat)
| ComparisonSummary (keyword_data : list keyword_entry)
| TimeSeriesSummary (total_pubs : Z) (avg_daily : pyfloat) (source : string).

Definition to_float (z : option Z) : pyfloat :=
  match z with
  | Some x => Fin (inject_Z x)
  | None => NaN
  end.

Definition keyword_search_columns : list string :=
  ["title"; "year"; "venue"; "citations"; "abstract"; "authors"].
Definition all_publications_columns : list string :=
  ["title"; "year"; "venue"; "citations"; "authors"].

(** 575-578: the statistics of the keyword search. *)
Definition keyword_search_stats (df : DataFrame)
  : outcome (nat * pyfloat * string) :=
  let total_pubs := List.length (records df) in
  let! avg_citations :=
    (if has_column df "citations"
     then let! c := column df "citations" in Ok (mean (int_cells c))
     else Ok (Fin 0)) in
  let! top_venue :=
    (if 0 <? List.length (records df)
     then let! v := column df "venue" in mode_iloc0 (str_cells v)
     else Ok "N/A") in
  Ok (total_pubs, avg_citations, top_venue).

(** 648-651: the statistics of the full listing. *)
Definition all_publications_stats (df : DataFrame)
  : outcome (nat * pyfloat * pyfloat) :=
  let total_pubs := List.length (records df) in
  let! avg_citations :=
    (if has_column df "citations"
     then let! c := column df "citations" in Ok (mean (int_cells c))
     else Ok (Fin 0)) in
  let! max_citations :=
    (if has_column df "citations"
     then let! c := column df "citations" in Ok (to_float (series_max (int_cells c)))
     else Ok (Fin 0)) in
  Ok (total_pubs, avg_citations, max_citations).

Definition keyword_search_query : string :=
  "SELECT p.title, p.year, p.venue, p.citations, p.abstract, GROUP_CONCAT(DISTINCT f.name SEPARATOR ', ') as authors FROM publication p LEFT JOIN publication_author pa ON p.id = pa.publication_id LEFT JOIN faculty f ON pa.faculty_id = f.id WHERE p.title LIKE %s OR p.abstract LIKE %s OR p.keywords LIKE %s OR p.venue LIKE %s GROUP BY p.id, p.title, p.year, p.venue, p.citations, p.abstract ORDER BY p.citations DESC, p.year DESC LIMIT 20".
Definition all_publications_query : string :=
  "SELECT p.title, p.year, p.venue, p.citations, GROUP_CONCAT(DISTINCT f.name SEPARATOR ', ') as authors FROM publication p LEFT JOIN publication_author pa ON p.id = pa.publication_id LEFT JOIN faculty f ON pa.faculty_id = f.id GROUP BY p.id, p.title, p.year, p.venue, p.citations ORDER BY p.citations DESC, p.year DESC LIMIT 50".
Definition keyword_comparison_query : string :=
  "SELECT COUNT(*) as publication_count, AVG(citations) as avg_citations, MAX(citations) as max_citations, MIN(year) as earliest_year, MAX(year) as latest_year, COUNT(DISTINCT venue) as unique_venues FROM publications WHERE LOWER(title) LIKE LOWER(%s) OR LOWER(abstract) LIKE LOWER(%s) OR LOWER(keywords) LIKE LOWER(%s) OR LOWER(venue) LIKE LOWER(%s)".
Definition timeseries_mysql_query : string :=
  "SELECT DATE(publication_date) as date, COUNT(*) as count FROM publications WHERE publication_date IS NOT NULL GROUP BY DATE(publication_date) ORDER BY date".
Definition timeseries_neo4j_query : string :=
  "MATCH (p:Publication) WHERE p.publication_date IS NOT NULL RETURN date(p.publication_date) as date, count(p) as count ORDER BY date".

(** [float(v)] on what [AVG] returns: a number. *)
Definition py_float (v : pyval) : outcome pyval :=
  match v with
  | VInt z => Ok (VNum (inject_Z z))
  | VNum q => Ok (VNum q)
  | VStr _ => Raise (Exn ValueError "could not convert string to float")
  | _ => Raise (Exn TypeError "float() argument must be a string or a real number")
  end.

(** [[kw.strip() for kw in [...] if kw and kw.strip()]], 433 *)
Definition collect_keywords (inputs : list (option string)) : list string :=
  flat_map (fun kw =>
              match kw with
              | Some s =>
                  if negb (s =? "")%string && negb (strip s =? "")%string
                  then [strip s] else []
              | None => []
              end) inputs.

Definition zero_entry (keyword : string) : keyword_entry :=
  {| ke_keyword := keyword; ke_publication_count := VInt 0;
     ke_avg_citations := VInt 0; ke_max_citations := VInt 0;
     ke_earliest_year := VInt 0; ke_latest_year := VInt 0;
     ke_unique_venues := VInt 0 |}.

(** 710-719 *)
Definition entry_of_row (keyword : string) (r : row) : outcome keyword_entry :=
  let! r0 := getitem r 0 in
  let! r1 := getitem r 1 in
  let! avg := (if truthy r1 then py_float r1 else Ok (VInt 0)) in
  let! r2 := getitem r 2 in
  let! r3 := getitem r 3 in
  let! r4 := getitem r 4 in
  let! r5 := getitem r 5 in
  Ok {| ke_keyword := keyword; ke_publication_count := py_or r0 (VInt 0);
        ke_avg_citations := avg; ke_max_citations := py_or r2 (VInt 0);
        ke_earliest_year := py_or r3 (VInt 0); ke_latest_year := py_or r4 (VInt 0);
        ke_unique_venues := py_or r5 (VInt 0) |}.

Fixpoint mapM {S A B} (f : A -> M S B) (l : list A) : M S (list B) :=
  match l with
  | [] => ret []
  | x :: xs => y <- f x ;; ys <- mapM f xs ;; ret (y :: ys)
  end.

Section Widgets.
Variable env : Env.

(** [get_publications_by_keyword], 514-601 *)
Definition get_publications_by_keyword (keyword : string)
  : M State (figure * summary) :=
  try_except
    (available <- read mysql_available ;;
     if available then
       let search_term := VStr ("%" ++ keyword ++ "%") in
       results <- MySQL.execute_query env keyword_search_query
                    [search_term; search_term; search_term; search_term] ;;
       match some_rows results with
       | [] =>
           ret (Annotation [Lit "No publications found containing '";
                            Val (VStr keyword); Lit "'"],
                Message [Lit "No publications found for keyword: ";
                         Val (VStr keyword)])
       | rows =>
           df <- lift_outcome (make_frame rows keyword_search_columns) ;;
           year <- lift_outcome (column df "year") ;;
           let fig :=
             YearBars [Lit "Publications containing '"; Val (VStr keyword);
                       Lit "' by Year"]
                      (year_counts Z.compare (int_cells year)) in
           stats <- lift_outcome (keyword_search_stats df) ;;
           let '(total_pubs, avg_citations, top_venue) := stats in
           ret (fig, KeywordSearchSummary total_pubs avg_citations top_venue)
       end
     else
       ret (Annotation [Lit "MySQL not connected"],
            Message [Lit "MySQL connection not available"]))
    [([Exception],
      fun e =>
        ret (Annotation [Lit "Error: "; Exc e],
             Message [Lit "Error searching publications: "; Exc e]))].

(** [get_all_publications], 603-674 *)
Definition get_all_publications : M State (figure * summary) :=
  try_except
    (available <- read mysql_available ;;
     if available then
       results <- MySQL.execute_query env all_publications_query [] ;;
       match some_rows results with
       | [] =>
           ret (Annotation [Lit "No publications found in database"],
                Message [Lit "No publications found in database"])
       | rows =>
           df <- lift_outcome (make_frame rows all_publications_columns) ;;
           stats <- lift_outcome (all_publications_stats df) ;;
           let '(total_pubs, avg_citations, max_citations) := stats in
           ret (CitationScatter (records df),
                AllPublicationsSummary total_pubs avg_citations max_citations)
       end
     else
       ret (Annotation [Lit "MySQL not connected"],
            Message [Lit "MySQL connection not available"]))
    [([Exception],
      fun e =>
        ret (Annotation [Lit "Error: "; Exc e],
             Message [Lit "Error retrieving publications: "; Exc e]))].

(** The body of the loop of 689-729. *)
Definition keyword_statistics (keyword : string) : M State keyword_entry :=
  let search_term := VStr ("%" ++ keyword ++ "%") in
  results <- MySQL.execute_query env keyword_comparison_query
               [search_term; search_term; search_term; search_term] ;;
  match some_rows results with
  | [] => ret (zero_entry keyword)
  | r :: _ => lift_outcome (entry_of_row keyword r)
  end.

(** [get_keyword_comparison], 676-792 *)
Definition get_keyword_comparison (keywords : list string)
  : M State (figure * summary) :=
  try_except
    (available <- read mysql_available ;;
     if negb available then
       ret (Annotation [Lit "MySQL not connected"],
            Message [Lit "MySQL connection not available"])
     else
       keyword_data <- mapM keyword_statistics keywords ;;
       match keyword_data with
       | [] =>
           ret (Annotation [Lit "No data found for any keywords"],
                Message [Lit "No data found for any keywords"])
       | _ => ret (KeywordComparison keyword_data, ComparisonSummary keyword_data)
       end)
    [([Exception],
      fun e =>
        ret (Annotation [Lit "Error: "; Exc e],
             Message [Lit "Error comparing keywords: "; Exc e]))].

(** [compare_keywords], 421-447 *)
Definition compare_keywords (n_clicks : pyval)
    (keyword1 keyword2 keyword3 keyword4 keyword5 : option string)
  : M State (figure * summary) :=
  if negb (truthy n_clicks) then
    ret (Annotation
           [Lit "Enter 5 keywords and click 'Compare Keywords' to see comparison"],
         Message [Lit "Enter 5 keywords to compare their publication statistics"])
  else
    let keywords :=
      collect_keywords [keyword1; keyword2; keyword3; keyword4; keyword5] in
    if List.length keywords <? 2 then
      ret (Annotation [Lit "Please enter at least 2 keywords to compare"],
           Message [Lit "Please enter at least 2 keywords to compare"])
    else
      try_except (get_keyword_comparison keywords)
        [([Exception],
          fun e =>
            ret (Annotation [Lit "Error: "; Exc e],
                 Message [Lit "Error comparing keywords: "; Exc e]))].
End Widgets.

(** ** app.py: publications over time, [get_timeseries_widget_data] *)

(** [date.weekday()]: Monday is 0. *)
Definition weekday (ordinal : Z) : Z := ((ordinal + 6) mod 7)%Z.

(** 1191-1195 *)
Definition mysql_entry (r : row) : outcome publication_entry :=
  let! d := getitem r 0 in
  let! c := getitem r 1 in
  Ok {| pe_date := d; pe_count := c; pe_source := "MySQL" |}.

(** 1214-1218 *)
Definition mongodb_entry (doc : document) : outcome publication_entry :=
  let! d := dict_getitem doc (VStr "_id") in
  let! c := dict_getitem doc (VStr "count") in
  Ok {| pe_date := d; pe_count := c; pe_source := "MongoDB" |}.

(** 1234-1238: the record is a dict keyed by column name, and is indexed
    here by position. *)
Definition neo4j_entry (r : document) : outcome publication_entry :=
  let! d := dict_getitem r (VInt 0) in
  let! c := dict_getitem r (VInt 1) in
  Ok {| pe_date := d; pe_count := c; pe_source := "Neo4j" |}.

Definition is_empty {A} (l : list A) : bool :=
  match l with [] => true | _ => false end.

(** Dates ascending, missing dates last, equal dates in frame order. *)
Fixpoint insert_by_date (x : option Z * publication_entry)
    (l : list (option Z * publication_entry))
  : list (option Z * publication_entry) :=
  match l with
  | [] => [x]
  | y :: l' =>
      match fst x, fst y with
      | Some a, Some b => if (a <? b)%Z then x :: l else y :: insert_by_date x l'
      | Some _, None => x :: l
      | None, _ => y :: insert_by_date x l'
      end
  end.

(** [df.sort_values('date')] *)
Definition sort_by_date (l : list (option Z * publication_entry))
  : list (option Z * publication_entry) :=
  fold_right (fun x acc => insert_by_date x acc) [] l.

Section TimeSeries.
Variable env : Env.

(** 1179-1197 *)
Definition mysql_publications : M (State * list publication_entry) unit :=
  available <- global mysql_available ;;
  if available then
    try_except
      (results <- lift_state (MySQL.execute_query env timeseries_mysql_query []) ;;
       for_each (some_rows results)
         (fun r => e <- lift_outcome (mysql_entry r) ;; append_local e))
      [([Exception],
        fun e =>
          lift_state (log app_log WARNING
                        [Lit "MySQL publications query failed: "; Exc e]))]
  else ret tt.

(** 1200-1220.  The call is [mongodb_conn.execute_aggregation(
    "publications", pipeline)]: the attribute is looked up on the
    connection object before anything is sent. *)
Definition mongodb_publications : M (State * list publication_entry) unit :=
  available <- global mongodb_available ;;
  publication_data <- get_local ;;
  if available && is_empty publication_data then
    try_except
      (method <- lift_outcome (MongoDB.getattr "execute_aggregation") ;;
       documents <- lift_state (call (MongoCall method)
                                  (fun t => mongo_call_result env t method)) ;;
       for_each (some_rows documents)
         (fun doc => e <- lift_outcome (mongodb_entry doc) ;; append_local e))
      [([Exception],
        fun e =>
          lift_state (log app_log WARNING
                        [Lit "MongoDB publications query failed: "; Exc e]))]
  else ret tt.

(** 1223-1240 *)
Definition neo4j_publications : M (State * list publication_entry) unit :=
  available <- global neo4j_available ;;
  publication_data <- get_local ;;
  if available && is_empty publication_data then
    try_except
      (results <- lift_state (Neo4j.execute_query env timeseries_neo4j_query []) ;;
       for_each (some_rows results)
         (fun r => e <- lift_outcome (neo4j_entry r) ;; append_local e))
      [([Exception],
        fun e =>
          lift_state (log app_log WARNING
                        [Lit "Neo4j publications query failed: "; Exc e]))]
  else ret tt.

(** [random.randint(-2, 3)] *)
Definition randint_m2_3 : M State Z :=
  call (RandInt (-2) 3) (fun t => Ok (-2 + (random_source env t) mod 6)%Z).

(** The body of the loop of 1252-1263.  The date is kept as the day; the
    source formats it with [strftime('%Y-%m-%d')] and reads it back with
    [pd.to_datetime]. *)
Definition sample_entry (current_date : Z) : M State publication_entry :=
  let base_count := if (weekday current_date <? 5)%Z then 5%Z else 2%Z in
  r <- randint_m2_3 ;;
  let count := Z.max 0 (base_count + r) in
  ret {| pe_date := VDate current_date; pe_count := VInt count;
         pe_source := "Sample Data" |}.

(** 1243-1263: one entry for each of the 366 days from a year ago to
    today. *)
Definition sample_data : M (State * list publication_entry) unit :=
  publication_data <- get_local ;;
  if is_empty publication_data then
    end_date <- lift_state (call ClockNow (fun t => Ok (clock_now env t))) ;;
    let start_date := (end_date - 365)%Z in
    for_each (map (fun i => (start_date + Z.of_nat i)%Z) (seq 0 366))
      (fun current_date =>
         e <- lift_state (sample_entry current_date) ;; append_local e)
  else ret tt.

(** 1176-1263: [publication_data] as the chart receives it. *)
Definition collect_publication_data : M State (list publication_entry) :=
  with_local []
    (mysql_publications ;;
     mongodb_publications ;;
     neo4j_publications ;;
     sample_data ;;
     get_local).

(** [pd.to_datetime] on one cell. *)
Definition to_datetime (v : pyval) : outcome (option Z) :=
  match v with
  | VDate d => Ok (Some d)
  | VNone => Ok None
  | _ => pd_to_datetime env v
  end.

(** 1266-1318 *)
Definition chart (publication_data : list publication_entry)
  : outcome (figure * summary) :=
  match publication_data with
  | [] =>
      Ok (Annotation [Lit "No publication data available"],
          Message [Lit "No publication data found in any database"])
  | _ =>
      let! dates := omap to_datetime (map pe_date publication_data) in
      let df := sort_by_date (combine dates publication_data) in
      let counts := int_cells (map (fun r => pe_count (snd r)) df) in
      match df with
      | [] => Raise (Exn IndexError "single positional indexer is out-of-bounds")
      | first :: _ =>
          Ok (PublicationsOverTime (map (fun r => (fst r, pe_count (snd r))) df),
              TimeSeriesSummary (zsum (present counts)) (mean counts)
                                (pe_source (snd first)))
      end
  end.

(** [get_timeseries_widget_data], 1172-1324 *)
Definition get_timeseries_widget_data : M State (figure * summary) :=
  try_except
    (publication_data <- collect_publication_data ;;
     lift_outcome (chart publication_data))
    [([Exception],
      fun e =>
        ret (Annotation [Lit "Error: "; Exc e],
             Message [Lit "Error in publications widget: "; Exc e]))].
End TimeSeries.

(** ** Reading a trace and a report *)

Definition is_mysql_connect (e : event) : bool :=
  match e with MySQLConnect => true | _ => false end.
Definition is_mysql_execute (e : event) : bool :=
  match e with MySQLExecute _ _ _ => true | _ => false end.
Definition is_neo4j_connect (e : event) : bool :=
  match e with Neo4jDriverNew => true | _ => false end.

(** A call that reaches a server: anything but a log line, the clock and
    the random generator. *)
Definition is_backend_call (e : event) : bool :=
  match e with
  | Log _ _ _ | ClockNow | RandInt _ _ => false
  | _ => true
  end.

Definition count_events (p : event -> bool) (l : list event) : nat :=
  List.length (filter p l).

(** The events of [s'] that came after those of [s]. *)
Definition since (s s' : State) : list event := skipn (time s) (trace s').

(** The handle of the relational adapter is stale: absent, or no longer
    connected when asked now. *)
Definition mysql_stale (env : Env) (s : State) : bool :=
  match mysql_conn s with
  | Some c =>
      match connection c with
      | None => true
      | Some h => negb (mysql_is_connected env (time s) h)
      end
  | None => false
  end.

(** The backend a report item announces, when the item is a section
    heading. *)
Definition heading_backend (item : html) : option backend :=
  match item with
  | El tag [Str [Lit title]] _ =>
      if negb (tag =? "H5")%string then None
      else if existsb (String.eqb title) mysql_titles then Some Relational
      else if existsb (String.eqb title) mongodb_titles then Some DocumentStore
      else if existsb (String.eqb title) neo4j_titles then Some Graph
      else None
  | _ => None
  end.

(** The items that stand under a heading of backend [b]; [current] is the
    backend of the last heading passed. *)
Fixpoint cards_under (b : backend) (current : option backend)
    (items : list html) : list html :=
  match items with
  | [] => []
  | item :: rest =>
      match heading_backend item with
      | Some b' => cards_under b (Some b') rest
      | None =>
          match current with
          | Some b' =>
              if backend_eqb b b' then item :: cards_under b current rest
              else cards_under b current rest
          | None => cards_under b current rest
          end
      end
  end.

Definition section_of (b : backend) (all_results : list html) : list html :=
  cards_under b None all_results.

Definition has_section (b : backend) (all_results : list html) : bool :=
  existsb (fun item =>
             match heading_backend item with
             | Some b' => backend_eqb b b'
             | None => false
             end) all_results.

(** The texts of a component, in the order of the document. *)
Fixpoint lines_of (item : html) : list text :=
  match item with
  | Str t => [t]
  | Br => []
  | El _ children _ => flat_map lines_of children
  end.

(** The rows a lookup contributes: none when it returned [None] or
    raised. *)
Definition rows_of {A} (o : outcome (option (list A))) : list A :=
  match o with
  | Ok results => some_rows results
  | Raise _ => []
  end.

(** What the report says of a faculty row (select list of 985-986: id,
    name, email, phone, position, research, interests, department,
    university), 997-1009: the name, then the e-mail, position, department,
    university, research and interests, ['N/A'] standing for a missing
    one. *)
Definition faculty_lines (r : row) : list text :=
  [ [Lit "Name: "; Val (nth 1 r VNone)];
    [Lit "Email: "; Val (py_or (nth 2 r VNone) NA)];
    [Lit "Position: "; Val (py_or (nth 4 r VNone) NA)];
    [Lit "Department: "; Val (py_or (nth 7 r VNone) NA)];
    [Lit "University: "; Val (py_or (nth 8 r VNone) NA)];
    [Lit "Research: "; Val (py_or (nth 5 r VNone) NA)];
    [Lit "Interests: "; Val (py_or (nth 6 r VNone) NA)] ].

(** What the report says of a publication row (title, year, venue,
    citations), 1028-1034. *)
Definition publication_lines (r : row) : list text :=
  [ [Lit "Title: "; Val (nth 0 r VNone)];
    [Lit "Year: "; Val (py_or (nth 1 r VNone) NA)];
    [Lit "Venue: "; Val (py_or (nth 2 r VNone) NA)];
    [Lit "Citations: "; Val (py_or (nth 3 r VNone) (VInt 0))] ].

(** The card shows the row: it says of the row what the report says of
    such a row, and is no heading. *)
Definition shows_faculty (r : row) (card : html) : Prop :=
  lines_of card = faculty_lines r /\ heading_backend card = None.

Definition shows_publication (r : row) (card : html) : Prop :=
  lines_of card = publication_lines r /\ heading_backend card = None.

(** A section of the report: its heading and cards, or nothing. *)
Definition titled (heading : html) (cards : list html) : list html :=
  match cards with
  | [] => []
  | _ => heading :: cards
  end.

(** What a loop [for x in l: acc.append(f(x))] has appended when it stops,
    and how it stops. *)
Fixpoint collect_until {R A} (f : R -> outcome A) (l : list R)
  : list A * outcome unit :=
  match l with
  | [] => ([], Ok tt)
  | x :: xs =>
      match f x with
      | Ok a => let '(acc, o) := collect_until f xs in (a :: acc, o)
      | Raise e => ([], Raise e)
      end
  end.

(** No lookup of the person search finds a record on the backend. *)
Definition mysql_no_records (env : Env) : Prop :=
  forall t h q p rows,
    In q [person_faculty_query; person_pub_query] ->
    mysql_execute_result env t h q p = Ok rows -> rows = [].

Definition mongodb_no_records (env : Env) : Prop :=
  forall t h db coll filter limit docs,
    In coll ["faculty"; "publications"] ->
    mongo_find_result env t h db coll filter limit = Ok docs -> docs = [].

Definition neo4j_no_records (env : Env) : Prop :=
  forall t h q p records,
    In q [neo4j_person_query; neo4j_pub_query; neo4j_collab_query] ->
    neo4j_run_result env t h q p = Ok records -> records = [].

(** No backend holds a dated publication record. *)
Definition mysql_no_dated (env : Env) : Prop :=
  forall t h q p rows,
    In q [timeseries_mysql_query] ->
    mysql_execute_result env t h q p = Ok rows -> rows = [].

Definition neo4j_no_dated (env : Env) : Prop :=
  forall t h q p records,
    In q [timeseries_neo4j_query] ->
    neo4j_run_result env t h q p = Ok records -> records = [].

Definition mongodb_no_dated (env : Env) : Prop :=
  forall t method docs,
    mongo_call_result env t method = Ok (Some docs) -> docs = [].

Definition no_dated_records (env : Env) : Prop :=
  mysql_no_dated env /\ mongodb_no_dated env /\ neo4j_no_dated env.

(** The entry is made up: the tag of the sample series and a day. *)
Definition is_sample (e : publication_entry) : Prop :=
  pe_source e = "Sample Data" /\ exists d, pe_date e = VDate d.

(** The warning of line 1220 for the missing method. *)
Definition aggregation_warning : event :=
  Log app_log WARNING
    [Lit "MongoDB publications query failed: ";
     Exc (no_attribute "MongoDBConnection" "execute_aggregation")].

(** After a failed query the adapter reconnected once and ran the query a
    second time. *)
Definition retried_once (env : Env) (q : string) (p : list pyval) (s : State)
  : Prop :=
  let s' := snd (MySQL.execute_query env q p s) in
  count_events is_mysql_connect (since s s') = 1
  /\ count_events is_mysql_execute (since s s') = 2.

(** ** Sample worlds *)

(** No server answers. *)
Definition unreachable : Env :=
  {| mysql_connect_result := fun _ => Raise (Exn MySQLError "Can't connect to MySQL server");
     mysql_is_connected := fun _ _ => false;
     mysql_execute_result := fun _ _ _ _ => Raise (Exn MySQLError "MySQL Connection not available");
     mongo_client_result := fun _ => Ok tt;
     mongo_ping_result := fun _ _ => Raise (Exn ServerSelectionTimeoutError "timed out");
     pymongo_bool := Raise (Exn NotImplementedError "Database objects do not implement truth value testing");
     mongo_find_result := fun _ _ _ _ _ _ => Raise (Exn ServerSelectionTimeoutError "timed out");
     mongo_call_result := fun _ _ => Raise (Exn ServerSelectionTimeoutError "timed out");
     neo4j_driver_result := fun _ => Ok tt;
     neo4j_run_result := fun _ _ _ _ => Raise (Exn ServiceUnavailable "connection refused");
     clock_now := fun _ => 740000%Z;
     random_source := fun t => Z.of_nat t;
     pd_to_datetime := fun _ => Raise (Exn ValueError "unknown datetime string format") |}.

Definition table_missing : exn :=
  Exn MySQLError "Table 'academicworld.publications' doesn't exist".

(** Only the relational server answers: it is connected and returns
    [rows q] for the query [q]. *)
Definition relational_only (rows : string -> outcome (list row)) : Env :=
  {| mysql_connect_result := fun _ => Ok tt;
     mysql_is_connected := fun _ _ => true;
     mysql_execute_result := fun _ _ q _ => rows q;
     mongo_client_result := mongo_client_result unreachable;
     mongo_ping_result := mongo_ping_result unreachable;
     pymongo_bool := pymongo_bool unreachable;
     mongo_find_result := mongo_find_result unreachable;
     mongo_call_result := mongo_call_result unreachable;
     neo4j_driver_result := neo4j_driver_result unreachable;
     neo4j_run_result := neo4j_run_result unreachable;
     clock_now := clock_now unreachable;
     random_source := random_source unreachable;
     pd_to_datetime := pd_to_datetime unreachable |}.

Definition sample_faculty : list row :=
  [ [VInt 1; VStr "Ada Lovelace"; VStr "ada@example.edu"; VNone; VStr "Professor";
     VStr "Computing"; VNone; VStr "Mathematics"; VStr "Analytical University"];
    [VInt 2; VStr "Ada Byron"; VNone; VNone; VNone; VNone; VNone; VNone; VNone];
    [VInt 3; VStr "Adam Ada"; VStr ""; VStr "555"; VStr "Lecturer"; VStr "Logic";
     VStr "Proofs"; VStr "Philosophy"; VStr "Example College"] ].

(** The relational server holds two matching faculty rows and one
    publication of theirs. *)
Definition sample_publications : list row :=
  [ [VStr "Notes on the Analytical Engine"; VInt 1843; VNone; VInt 0] ].

Definition faculty_and_publication (q : string) : outcome (list row) :=
  if (q =? person_faculty_query)%string then Ok (firstn 2 sample_faculty)
  else if (q =? person_pub_query)%string then Ok sample_publications
  else Ok [].

(** An empty state: no connection object, no event yet. *)
Definition fresh : State :=
  {| mysql_conn := None; mongodb_conn := None; neo4j_conn := None; trace := [] |}.

(** The three connection objects exist; [my] is the relational handle,
    [mo] the document client and [ne] the graph driver. *)
Definition started (my mo ne : option nat) : State :=
  {| mysql_conn := Some {| my_database := VStr "academicworld"; connection := my |};
     mongodb_conn := Some {| mo_host := VStr "localhost"; mo_port := VInt 27017;
                             database_name := Some "admin"; client := mo;
                             database := None |};
     neo4j_conn := Some {| uri := VStr "bolt://localhost:7687"; driver := ne |};
     trace := [] |}.

(** ** Properties of a grouping *)

Definition key_lt {K} (cmp : K -> K -> comparison) (x y : K) : Prop :=
  cmp x y = Lt.

Definition keys {K} (groups : list (K * nat)) : list K := map fst groups.

Definition total_count {K} (groups : list (K * nat)) : nat :=
  list_sum (map snd groups).

(** [l1] is the beginning of [l2]. *)
Definition prefix {A} (l1 l2 : list A) : Prop := exists rest, l2 = l1 ++ rest.


(** ** Further readings of a grouping and of a ranking *)

Definition is_Eq (c : comparison) : bool :=
  match c with Eq => true | _ => false end.

(** The number of cells of the column that hold the key [k]. *)
Definition occurrences {K} (cmp : K -> K -> comparison) (k : K)
    (col : list (option K)) : nat :=
  List.length
    (filter (fun cell => match cell with
                         | Some k' => is_Eq (cmp k k')
                         | None => false
                         end) col).

(** The count a grouping holds for [k]; 0 when [k] has no partition. *)
Definition count_of {K} (cmp : K -> K -> comparison) (k : K)
    (groups : list (K * nat)) : nat :=
  list_sum (map snd (filter (fun g => is_Eq (cmp k (fst g))) groups)).

(** What a ranking with bound [n] leaves out. *)
Definition left_out {A} (weight : A -> Z) (n : nat) (l : list A) : list A :=
  skipn n (stable_sort_desc weight l).

(** Every number of the column is one that a float holds exactly. *)
Definition exact_cells (col : list (option Z)) : bool :=
  forallb (fun cell => match cell with
                       | Some x => (Z.abs x <=? 2 ^ 53)%Z
                       | None => true
                       end) col.

(** ** Readings of a string *)

Fixpoint count_char (c : ascii) (s : string) : nat :=
  match s with
  | EmptyString => 0
  | String a s' => (if Ascii.eqb a c then 1 else 0) + count_char c s'
  end.

(** No white space at either end of a list of characters, and of a
    string. *)
Definition trimmed_chars (l : list string) : bool :=
  match l with
  | [] => true
  | ch :: rest => negb (is_space ch) && negb (is_space (List.last rest ch))
  end.

Definition trimmed (s : string) : bool := trimmed_chars (characters s).

(** A character as [characters] yields it: a first byte, then continuation
    bytes only. *)
Fixpoint all_continuation (s : string) : bool :=
  match s with
  | EmptyString => true
  | String c s' => is_continuation c && all_continuation s'
  end.

Definition is_character (ch : string) : bool :=
  match ch with
  | EmptyString => false
  | String _ r => all_continuation r
  end.

(** The character starts with a byte that begins a character. *)
Definition starts_fresh (ch : string) : bool :=
  match ch with
  | EmptyString => false
  | String c _ => negb (is_continuation c)
  end.

(** Text that is empty or starts a character. *)
Definition fresh_text (X : string) : Prop :=
  X = EmptyString \/ starts_fresh X = true.

(** Characters, each of which starts afresh. *)
Definition fresh_chars (l : list string) : Prop :=
  Forall (fun d => is_character d = true /\ starts_fresh d = true) l.

(** A list of characters that is the splitting of its own
    concatenation. *)
Definition chunked (l : list string) : Prop :=
  match l with
  | [] => True
  | ch :: rest => is_character ch = true /\ fresh_chars rest
  end.

(** The list does not begin with white space. *)
Definition no_lead (l : list string) : Prop :=
  match l with
  | [] => True
  | ch :: _ => is_space ch = false
  end.

(** ** Readings of the keyword count *)

(** The test of line 858 on a stripped and lowered token. *)
Definition counted (keyword : string) : bool :=
  negb (keyword =? "")%string && (2 <? len keyword).

(** A row whose keyword text, if there is any, is ASCII text: on such rows
    [lower] is Python's. *)
Definition ascii_row (row : kw_row) : bool :=
  match fst row with
  | Some s => ascii_text s
  | None => true
  end.

Definition ascii_rows (results : list kw_row) : bool :=
  forallb ascii_row results.

(** Three rows of the query of 845-850. *)
Definition sample_kw_rows : list kw_row :=
  [(Some "AI, Data Mining ,data mining", 3%Z); (None, 5%Z);
   (Some "Databases,ML, data mining", 2%Z)].

(** [row[0].split(',') if row[0] else []], 853 *)
Definition pieces (row : kw_row) : list string :=
  match fst row with
  | Some s => if negb (s =? "")%string then split "," s else []
  | None => []
  end.

(** The tokens of a result row that the loop of 853-862 counts. *)
Definition tokens (row : kw_row) : list string :=
  filter counted (map (fun w => lower (strip w)) (pieces row)).

(** [d.get(k, 0)] *)
Definition tally (d : counts_dict) (k : string) : Z :=
  match dict_get d k with
  | Some v => v
  | None => 0%Z
  end.

(** The count of each row, once for each time the row holds [k]. *)
Definition mentions (k : string) (results : list kw_row) : Z :=
  zsum (map (fun row => (snd row * Z.of_nat (count_occ_str k (tokens row)))%Z)
            results).

(** The distinct values of a list, each at its first place. *)
Fixpoint distinct (l : list string) : list string :=
  match l with
  | [] => []
  | x :: l' => x :: filter (fun y => negb (x =? y)%string) (distinct l')
  end.

(** The two loops of 852-862 as one: each piece with the count of its
    row. *)
Definition keyword_pairs (results : list kw_row) : list (Z * string) :=
  flat_map (fun row => map (fun w => (snd row, w)) (pieces row)) results.

Definition count_pair (d : counts_dict) (p : Z * string) : counts_dict :=
  count_keyword (fst p) d (snd p).

Definition pair_token (p : Z * string) : string := lower (strip (snd p)).

Definition pair_tokens (ps : list (Z * string)) : list string :=
  filter counted (map pair_token ps).

Definition pair_mentions (k : string) (ps : list (Z * string)) : Z :=
  zsum (map fst
          (filter (fun p => counted (pair_token p) && (pair_token p =? k)%string)
                  ps)).

Definition known (keys : list string) (k : string) : bool :=
  existsb (String.eqb k) keys.

(** ** app.py: the keyword chart of a university, [get_university_keywords] *)

(** What lines 845-914 make of the rows of the query: the pie with its
    labels and values and the three numbers of the summary line (896-900), or
    one of the two messages. *)
Inductive keywords_report : Type :=
| KeywordPie (labels : list string) (values : list Z)
    (total_keywords : Z) (most_common : string) (unique_keywords : nat)
| NoKeywordsFound
| NoDataFound.

Definition university_keywords_report (results : list kw_row)
  : keywords_report :=
  match results with
  | [] => NoDataFound
  | _ =>
      let keyword_counts := keyword_counts results in
      let sorted_keywords := sorted_keywords keyword_counts in
      match sorted_keywords with
      | [] => NoKeywordsFound
      | (most_common, _) :: _ =>
          KeywordPie (map fst sorted_keywords) (map snd sorted_keywords)
            (zsum (map snd sorted_keywords)) most_common
            (List.length keyword_counts)
      end
  end.

(** ** Readings of a frame and of a series *)

(** Dates ascending, missing dates after all others. *)
Definition date_le (a b : option Z) : Prop :=
  match a, b with
  | Some x, Some y => (x <= y)%Z
  | None, Some _ => False
  | _, None => True
  end.

Definition date_ordered (dates : list (option Z)) : Prop :=
  StronglySorted date_le dates.

(** The rows of the sorted frame of [chart]: a date and its entry. *)
Definition dated_ordered (df : list (option Z * publication_entry)) : Prop :=
  StronglySorted (fun a b => date_le (fst a) (fst b)) df.

(** Two entries with their dates out of order. *)
Definition two_days : list publication_entry :=
  [ {| pe_date := VDate 739002; pe_count := VInt 4; pe_source := "MySQL" |};
    {| pe_date := VDate 739001; pe_count := VInt 7; pe_source := "MySQL" |} ].

(** What one day of the made-up series looks like: the day itself, the
    tag, and a count within the range of its kind of day. *)
Definition sample_day (day : Z) (e : publication_entry) : Prop :=
  pe_date e = VDate day
  /\ pe_source e = "Sample Data"
  /\ exists c, pe_count e = VInt c
               /\ if (weekday day <? 5)%Z then (3 <= c <= 8)%Z
                  else (0 <= c <= 5)%Z.

(** The days from a year before [today] to [today]. *)
Definition last_year (today : Z) : list Z :=
  map (fun i => (today - 365 + Z.of_nat i)%Z) (seq 0 366).

(** ** app.py: the callback of the person search *)

Definition search_placeholder : html :=
  Div [Str [Lit "Enter a person's name and click Search to find information."]]
      [("color", VStr "#7f8c8d"); ("fontStyle", VStr "italic")].

Definition search_error (e : exn) : html :=
  Div [Str [Lit "Error searching for person: "; Exc e]]
      [("color", VStr "red"); ("fontWeight", VStr "bold")].

(** [search_person], 351-363.  The value of the input box is a [str] or
    [None]. *)
Definition search_person (env : Env) (n_clicks : pyval)
    (person_name : option string) : M State html :=
  match person_name with
  | None => ret search_placeholder
  | Some name =>
      if negb (truthy n_clicks) || negb (truthy (VStr name))
      then ret search_placeholder
      else
        try_except (get_person_information env name)
          [([Exception], fun e => ret (search_error e))]
  end.

(** A piece of the search only appends to [all_results], and only items
    that satisfy [P]; this holds also when it raises. *)
Definition appends {A} (P : html -> Prop) (m : M (State * list html) A) : Prop :=
  forall s l, exists r s' rest,
    m (s, l) = (r, (s', l ++ rest)) /\ Forall P rest.

(** The item is not a heading of the graph backend. *)
Definition not_graph_heading (item : html) : Prop :=
  heading_backend item <> Some Graph.

(** The graph backend answers every query with [records]; the other two
    servers do not answer. *)
Definition graph_only (records : list document) : Env :=
  {| mysql_connect_result := mysql_connect_result unreachable;
     mysql_is_connected := mysql_is_connected unreachable;
     mysql_execute_result := mysql_execute_result unreachable;
     mongo_client_result := mongo_client_result unreachable;
     mongo_ping_result := mongo_ping_result unreachable;
     pymongo_bool := pymongo_bool unreachable;
     mongo_find_result := mongo_find_result unreachable;
     mongo_call_result := mongo_call_result unreachable;
     neo4j_driver_result := fun _ => Ok tt;
     neo4j_run_result := fun _ _ _ _ => Ok records;
     clock_now := clock_now unreachable;
     random_source := random_source unreachable;
     pd_to_datetime := pd_to_datetime unreachable |}.

Definition ada_record : document :=
  [("name", VStr "Ada Lovelace"); ("email", VNone); ("position", VStr "Professor");
   ("department", VStr "Mathematics")].

(** ** Readings of a trace *)

(** The event is not a query, or it is the query [q] with the parameters
    [p]. *)
Definition sends_only (q : string) (p : list pyval) (ev : event) : Prop :=
  match ev with
  | MySQLExecute _ q' p' => q' = q /\ p' = p
  | _ => True
  end.

(** What the relational widgets answer when they do not query. *)
Definition mysql_not_connected : figure * summary :=
  (Annotation [Lit "MySQL not connected"],
   Message [Lit "MySQL connection not available"]).

(** ** app.py: the list of universities *)

Definition universities_query : string :=
  "SELECT DISTINCT university FROM faculty WHERE university IS NOT NULL AND university != '' ORDER BY university".

(** One entry of the dropdown: [{'label': row[0], 'value': row[0]}]. *)
Record dropdown_option : Type := { label : pyval; value : pyval }.

Definition option_of_row (r : row) : outcome dropdown_option :=
  let! l := getitem r 0 in
  let! v := getitem r 0 in
  Ok {| label := l; value := v |}.

Section Universities.
Variable env : Env.

(** [get_available_universities], 794-818 *)
Definition get_available_universities : M State (list dropdown_option) :=
  try_except
    (available <- read mysql_available ;;
     if available then
       results <- MySQL.execute_query env universities_query [] ;;
       match some_rows results with
       | [] => ret []
       | rows => lift_outcome (omap option_of_row rows)
       end
     else
       log app_log WARNING [Lit "MySQL not connected for university list"] ;;
       ret [])
    [([Exception],
      fun e =>
        log app_log ERROR [Lit "Error getting universities: "; Exc e] ;;
        ret [])].

(** [populate_university_dropdown], 454-461 *)
Definition populate_university_dropdown (n_clicks : pyval)
  : M State (list dropdown_option) :=
  try_except get_available_universities
    [([Exception],
      fun e =>
        log app_log ERROR [Lit "Error populating university dropdown: "; Exc e] ;;
        ret [])].
End Universities.

(** The first field of a row, when it has one. *)
Definition first_field (r : row) : option pyval := nth_error r 0.

(** ** Start-up: the three [create_connection_from_env] and
    [initialize_database_connections] *)

Definition set_mysql_conn (c : option MySQLConnection) : M State unit :=
  fun s =>
    (Ok tt, {| mysql_conn := c; mongodb_conn := mongodb_conn s;
               neo4j_conn := neo4j_conn s; trace := trace s |}).

Definition set_mongodb_conn (c : option MongoDBConnection) : M State unit :=
  fun s =>
    (Ok tt, {| mysql_conn := mysql_conn s; mongodb_conn := c;
               neo4j_conn := neo4j_conn s; trace := trace s |}).

Definition set_neo4j_conn (c : option Neo4jConnection) : M State unit :=
  fun s =>
    (Ok tt, {| mysql_conn := mysql_conn s; mongodb_conn := mongodb_conn s;
               neo4j_conn := c; trace := trace s |}).

(** A [str] or [None] as a value. *)
Definition text_of (o : option string) : pyval :=
  match o with
  | Some s => VStr s
  | None => VNone
  end.

(** The connection objects of the fallback branches, app.py 43-49, 65-71
    and 87-92. *)
Definition mysql_fallback : MySQLConnection :=
  {| my_database := VStr "academicworld"; connection := None |}.

Definition mongodb_fallback : MongoDBConnection :=
  {| mo_host := VStr "localhost"; mo_port := VInt 27017;
     database_name := Some "admin"; client := None; database := None |}.

Definition neo4j_fallback : Neo4jConnection :=
  {| uri := VStr "bolt://localhost:7687"; driver := None |}.

Section Startup.
Variable env : Env.
(** [os.getenv(name)] *)
Variable getenv : string -> option string.
(** [int(text)] *)
Variable py_int : string -> outcome Z.

(** [os.getenv(name, default)] *)
Definition getenv_default (name default : string) : string :=
  match getenv name with
  | Some v => v
  | None => default
  end.

(** mysql_utils.py 227-251.  The port is read, and converted, before the
    required variables are looked at. *)
Definition create_mysql_connection : M State (option MySQLConnection) :=
  let host := getenv_default "MYSQL_HOST" "localhost" in
  port <- lift_outcome (py_int (getenv_default "MYSQL_PORT" "3306")) ;;
  let database := getenv "MYSQL_DATABASE" in
  let user := getenv "MYSQL_USER" in
  let password := getenv "MYSQL_PASSWORD" in
  if negb (forallb MongoDB.nonempty [database; user; password]) then
    log mysql_log ERROR
      [Lit "Missing required environment variables for MySQL connection"] ;;
    ret None
  else ret (Some {| my_database := text_of database; connection := None |}).

(** mongodb_utils.py 421-447 *)
Definition create_mongodb_connection : M State (option MongoDBConnection) :=
  let host := getenv_default "MONGODB_HOST" "localhost" in
  port <- lift_outcome (py_int (getenv_default "MONGODB_PORT" "27017")) ;;
  let database := getenv "MONGODB_DATABASE" in
  if negb (MongoDB.nonempty database) then
    log mongodb_log ERROR
      [Lit "Missing required environment variable MONGODB_DATABASE"] ;;
    ret None
  else ret (Some {| mo_host := VStr host; mo_port := VInt port;
                    database_name := database; client := None;
                    database := None |}).

(** neo4j_utils.py 438-460 *)
Definition create_neo4j_connection : M State (option Neo4jConnection) :=
  let uri := getenv_default "NEO4J_URI" "bolt://localhost:7687" in
  let username := getenv "NEO4J_USERNAME" in
  let password := getenv "NEO4J_PASSWORD" in
  if negb (MongoDB.nonempty username) || negb (MongoDB.nonempty password) then
    log neo4j_log ERROR
      [Lit "Missing required environment variables for Neo4j connection"] ;;
    ret None
  else ret (Some {| uri := VStr uri; driver := None |}).

(** app.py 39-54 *)
Definition connect_mysql : M State unit :=
  try_except
    (conn <- create_mysql_connection ;;
     set_mysql_conn conn ;;
     (match conn with
      | None => set_mysql_conn (Some mysql_fallback)
      | Some _ => ret tt
      end) ;;
     connected <- MySQL.connect env ;;
     if connected then log app_log INFO [Lit "MySQL connection established"]
     else log app_log ERROR [Lit "Failed to connect to MySQL"])
    [([Exception],
      fun e => log app_log ERROR [Lit "MySQL connection error: "; Exc e])].

(** app.py 59-76 *)
Definition connect_mongodb : M State unit :=
  try_except
    (conn <- create_mongodb_connection ;;
     set_mongodb_conn conn ;;
     (match conn with
      | None => set_mongodb_conn (Some mongodb_fallback)
      | Some _ => ret tt
      end) ;;
     connected <- MongoDB.connect env ;;
     if connected then log app_log INFO [Lit "MongoDB connection established"]
     else log app_log ERROR [Lit "Failed to connect to MongoDB"])
    [([Exception],
      fun e => log app_log ERROR [Lit "MongoDB connection error: "; Exc e])].

(** app.py 81-97 *)
Definition connect_neo4j : M State unit :=
  try_except
    (conn <- create_neo4j_connection ;;
     set_neo4j_conn conn ;;
     (match conn with
      | None => set_neo4j_conn (Some neo4j_fallback)
      | Some _ => ret tt
      end) ;;
     connected <- Neo4j.connect env ;;
     if connected then log app_log INFO [Lit "Neo4j connection established"]
     else log app_log ERROR [Lit "Failed to connect to Neo4j"])
    [([Exception],
      fun e => log app_log ERROR [Lit "Neo4j connection error: "; Exc e])].

(** [initialize_database_connections], 28-97 *)
Definition initialize_database_connections : M State unit :=
  connect_mysql ;; connect_mongodb ;; connect_neo4j.
End Startup.

(** An environment that sets a port that is no number, and nothing
    else. *)
Definition bad_port (name : string) : option string :=
  if (name =? "MYSQL_PORT")%string then Some "33o6" else None.

(** [int] on the texts of the sample environments. *)
Definition sample_int (t : string) : outcome Z :=
  if (t =? "3306")%string then Ok 3306%Z
  else if (t =? "27017")%string then Ok 27017%Z
  else Raise (Exn ValueError "invalid literal for int() with base 10").

(** ** app.py: the H-index of [get_faculty_publications], 1442 *)

(** Twice the rank [Series.rank(ascending=False)] gives a value of the
    column: the largest value has rank 1, and equal values share the
    average of their places (pandas' default [method='average']), which is
    a whole or a half number. *)
Definition rank2 (vals : list Z) (c : Z) : Z :=
  (2 * Z.of_nat (List.length (filter (fun x => c <? x) vals))
   + Z.of_nat (List.length (filter (fun x => x =? c) vals)) + 1)%Z.

(** [len(df[df['citations'] >= df['citations'].rank(ascending=False)])].
    A missing cell has no rank and compares false. *)
Definition h_index (citations : list (option Z)) : nat :=
  let vals := present citations in
  List.length (filter (fun c => (rank2 vals c <=? 2 * c)%Z) vals).

(** The number of publications with at least [n] citations. *)
Definition at_least (n : nat) (citations : list (option Z)) : nat :=
  List.length (filter (fun c => (Z.of_nat n <=? c)%Z) (present citations)).

(** [h] is the h-index: [h] publications have at least [h] citations
    each, and there are no [h + 1] with at least [h + 1] each. *)
Definition is_h_index (citations : list (option Z)) (h : nat) : Prop :=
  h <= at_least h citations /\ at_least (S h) citations <= h.

(** The relational server is down: no handle is connected and every
    connect attempt is refused. *)
Definition mysql_down (env : Env) : Prop :=
  (forall t h, mysql_is_connected env t h = false)
  /\ (forall t, exists e,
        mysql_connect_result env t = Raise e /\ exn_cls e = MySQLError).

(** The number of values above [c], whether [c] is at least its rank, and
    the number of values that are. *)
Definition above_count (vals : list Z) (c : Z) : nat :=
  List.length (filter (fun x => (c <? x)%Z) vals).

Definition is_ranked (vals : list Z) (c : Z) : bool :=
  (rank2 vals c <=? 2 * c)%Z.

Definition ranked_count (vals : list Z) : nat :=
  List.length (filter (is_ranked vals) vals).
(* ===================================================================== *)
(** * Part II. Theorems                                                    *)
(* ===================================================================== *)

(** ** Lists *)

Lemma firstn_In {A} (n : nat) (l : list A) (x : A) :
  In x (firstn n l) -> In x l.
Proof.
  intros H. rewrite <- (firstn_skipn n l). apply in_or_app. left. exact H.
Qed.

(** ** Stable sorting *)

Section StableSortFacts.
Variable A : Type.
Variable weight : A -> Z.

Lemma insert_desc_perm (x : A) (l : list A) :
  Permutation (insert_desc weight x l) (x :: l).
Proof.
  induction l as [|y l IH]; simpl.
  - apply Permutation_refl.
  - destruct (weight x <? weight y)%Z.
    + eapply perm_trans; [apply perm_skip, IH | apply perm_swap].
    + apply Permutation_refl.
Qed.

Lemma stable_sort_desc_perm (l : list A) :
  Permutation (stable_sort_desc weight l) l.
Proof.
  induction l as [|x l IH]; simpl.
  - apply perm_nil.
  - eapply perm_trans; [apply insert_desc_perm | apply perm_skip, IH].
Qed.

Lemma insert_desc_descending (x : A) (l : list A) :
  descending weight l -> descending weight (insert_desc weight x l).
Proof.
  unfold descending.
  induction l as [|y l IH]; simpl; intros Hs.
  - constructor; [constructor | constructor].
  - inversion Hs as [|? ? Hl Hy]; subst.
    destruct (weight x <? weight y)%Z eqn:E.
    + apply Z.ltb_lt in E.
      constructor; [apply IH; assumption |].
      apply Forall_forall. intros z Hz.
      apply (Permutation_in _ (insert_desc_perm x l)) in Hz.
      destruct Hz as [<- | Hz]; [lia |].
      rewrite Forall_forall in Hy. apply Hy; assumption.
    + apply Z.ltb_ge in E.
      constructor; [assumption |].
      constructor; [assumption |].
      rewrite Forall_forall in Hy |- *. intros z Hz.
      specialize (Hy z Hz). lia.
Qed.

Lemma stable_sort_desc_descending (l : list A) :
  descending weight (stable_sort_desc weight l).
Proof.
  induction l as [|x l IH]; simpl.
  - constructor.
  - apply insert_desc_descending, IH.
Qed.

Lemma insert_desc_tied (c : Z) (x : A) (l : list A) :
  tied weight c (insert_desc weight x l) = tied weight c (x :: l).
Proof.
  unfold tied.
  induction l as [|y l IH]; simpl; [reflexivity |].
  destruct (weight x <? weight y)%Z eqn:E; [| reflexivity].
  apply Z.ltb_lt in E. simpl. rewrite IH. simpl.
  destruct (weight y =? c)%Z eqn:Ey, (weight x =? c)%Z eqn:Ex;
    try reflexivity.
  apply Z.eqb_eq in Ey, Ex. lia.
Qed.

(** Equal weights leave the sort in the order they entered it. *)
Lemma stable_sort_desc_tied (c : Z) (l : list A) :
  tied weight c (stable_sort_desc weight l) = tied weight c l.
Proof.
  induction l as [|x l IH]; simpl; [reflexivity |].
  rewrite insert_desc_tied. unfold tied in *. simpl. rewrite IH. reflexivity.
Qed.

Lemma tied_firstn_prefix (c : Z) (n : nat) (l : list A) :
  prefix (tied weight c (firstn n l)) (tied weight c l).
Proof.
  exists (tied weight c (skipn n l)). unfold tied.
  rewrite <- filter_app, firstn_skipn. reflexivity.
Qed.

Lemma descending_firstn (n : nat) (l : list A) :
  descending weight l -> descending weight (firstn n l).
Proof.
  unfold descending. revert n.
  induction l as [|x l IH]; intros [|n] Hs; simpl; try constructor.
  - inversion Hs; subst. apply IH; assumption.
  - inversion Hs as [|? ? _ Hx]; subst.
    rewrite Forall_forall in Hx |- *. intros z Hz.
    apply Hx. apply (firstn_In n l). exact Hz.
Qed.

Lemma firstn_incl_sorted (n : nat) (l : list A) :
  incl (firstn n (stable_sort_desc weight l)) l.
Proof.
  intros z Hz. apply firstn_In in Hz.
  apply (Permutation_in _ (stable_sort_desc_perm l)). assumption.
Qed.
End StableSortFacts.

(** ** Grouping *)

Section GroupCountFacts.
Variable K : Type.
Variable cmp : K -> K -> comparison.
Hypothesis cmp_eq : forall x y, cmp x y = Eq <-> x = y.
Hypothesis cmp_antisym : forall x y, cmp y x = CompOpp (cmp x y).
Hypothesis cmp_trans : forall x y z, cmp x y = Lt -> cmp y z = Lt -> cmp x z = Lt.

Let ascending (groups : list (K * nat)) : Prop :=
  StronglySorted (key_lt cmp) (keys groups).

Lemma bump_total (k : K) (groups : list (K * nat)) :
  total_count (bump cmp k groups) = S (total_count groups).
Proof.
  unfold total_count.
  induction groups as [|[k' n] rest IH]; simpl; [reflexivity |].
  destruct (cmp k k'); simpl.
  - reflexivity.
  - reflexivity.
  - rewrite IH. lia.
Qed.

Lemma bump_keys (k x : K) (groups : list (K * nat)) :
  In x (keys (bump cmp k groups)) <-> x = k \/ In x (keys groups).
Proof.
  unfold keys.
  induction groups as [|[k' n] rest IH]; simpl.
  - intuition.
  - destruct (cmp k k') eqn:E; simpl.
    + apply cmp_eq in E. subst k'. intuition.
    + intuition.
    + rewrite IH. intuition.
Qed.

Lemma bump_ascending (k : K) (groups : list (K * nat)) :
  ascending groups -> ascending (bump cmp k groups).
Proof.
  unfold ascending, keys.
  induction groups as [|[k' n] rest IH]; simpl; intros Hs.
  - constructor; constructor.
  - inversion Hs as [|? ? Hrest Hk']; subst.
    destruct (cmp k k') eqn:E; simpl.
    + exact Hs.
    + constructor; [exact Hs |].
      constructor; [exact E |].
      rewrite Forall_forall in Hk' |- *. intros z Hz.
      apply (cmp_trans _ _ _ E). apply Hk'; exact Hz.
    + constructor; [apply IH; exact Hrest |].
      rewrite Forall_forall in Hk' |- *. intros z Hz.
      apply (bump_keys k z rest) in Hz. destruct Hz as [-> | Hz].
      * unfold key_lt. rewrite cmp_antisym, E. reflexivity.
      * apply Hk'; exact Hz.
Qed.

Let step (groups : list (K * nat)) (cell : option K) : list (K * nat) :=
  match cell with
  | Some k => bump cmp k groups
  | None => groups
  end.

Lemma fold_total (col : list (option K)) (acc : list (K * nat)) :
  total_count (fold_left step col acc)
  = total_count acc + List.length (present col).
Proof.
  revert acc. induction col as [|[k|] col IH]; intros acc; simpl.
  - lia.
  - rewrite IH, bump_total. unfold present. simpl. lia.
  - rewrite IH. unfold present. simpl. reflexivity.
Qed.

Lemma fold_keys (x : K) (col : list (option K)) (acc : list (K * nat)) :
  In x (keys (fold_left step col acc)) <-> In x (keys acc) \/ In (Some x) col.
Proof.
  revert acc. induction col as [|[k|] col IH]; intros acc; simpl.
  - intuition.
  - rewrite IH, bump_keys. split.
    + intros [[-> | H] | H]; auto.
    + intros [H | [H | H]]; auto. inversion H; subst. auto.
  - rewrite IH. split.
    + intros [H | H]; auto.
    + intros [H | [H | H]]; auto. discriminate H.
Qed.

Lemma fold_ascending (col : list (option K)) (acc : list (K * nat)) :
  ascending acc -> ascending (fold_left step col acc).
Proof.
  revert acc. induction col as [|[k|] col IH]; intros acc Hs; simpl.
  - exact Hs.
  - apply IH, bump_ascending, Hs.
  - apply IH, Hs.
Qed.

Lemma key_lt_irrefl (x : K) : ~ key_lt cmp x x.
Proof.
  unfold key_lt. intros H.
  assert (E : cmp x x = Eq) by (apply cmp_eq; reflexivity).
  rewrite E in H. discriminate H.
Qed.

Lemma ascending_NoDup (l : list K) :
  StronglySorted (key_lt cmp) l -> NoDup l.
Proof.
  induction 1 as [|x l Hs IH Hx]; constructor; [| exact IH].
  intros Hin. rewrite Forall_forall in Hx.
  exact (key_lt_irrefl x (Hx x Hin)).
Qed.

Lemma sort_values_key_ascending (groups : list (K * nat)) :
  ascending groups -> sort_values_key cmp groups = groups.
Proof.
  unfold ascending, keys, sort_values_key.
  induction groups as [|x rest IH]; simpl; intros Hs; [reflexivity |].
  inversion Hs as [|? ? Hrest Hx]; subst.
  rewrite (IH Hrest).
  destruct rest as [|y rest']; simpl; [reflexivity |].
  inversion Hx as [|? ? Hxy _]; subst. unfold key_lt in Hxy.
  rewrite cmp_antisym, Hxy. reflexivity.
Qed.

Lemma groupby_size_ascending (col : list (option K)) :
  ascending (groupby_size cmp col).
Proof. apply fold_ascending. constructor. Qed.

Lemma year_counts_groupby (col : list (option K)) :
  year_counts cmp col = groupby_size cmp col.
Proof. apply sort_values_key_ascending, groupby_size_ascending. Qed.

(** C3, as amended: over a column of one ordered key type, the group-count
    of app.py 547-549 and 1376-1378 yields partitions whose counts sum to
    the number of records that hold a value in the field, whose keys are
    exactly the distinct values present, each once, and which are sorted
    by key ascending.  Records whose field is missing are in no
    partition. *)
Theorem group_count_partitions (col : list (option K)) :
  total_count (year_counts cmp col) = List.length (present col)
  /\ (forall k, In k (keys (year_counts cmp col)) <-> In (Some k) col)
  /\ NoDup (keys (year_counts cmp col))
  /\ StronglySorted (key_lt cmp) (keys (year_counts cmp col)).
Proof.
  rewrite year_counts_groupby.
  pose proof (groupby_size_ascending col) as Hs.
  repeat split.
  - unfold groupby_size. fold step. rewrite fold_total. reflexivity.
  - unfold groupby_size. fold step. rewrite fold_keys. simpl. intuition.
  - unfold groupby_size. fold step. rewrite fold_keys. simpl. intuition.
  - apply ascending_NoDup, Hs.
  - exact Hs.
Qed.
End GroupCountFacts.

Lemma Z_compare_trans (x y z : Z) :
  Z.compare x y = Lt -> Z.compare y z = Lt -> Z.compare x z = Lt.
Proof. rewrite !Z.compare_lt_iff. lia. Qed.

Lemma group_count_partitions_witness :
  let col := [Some 2020%Z; None; Some 2019%Z; Some 2020%Z] in
  total_count (year_counts Z.compare col) = List.length (present col)
  /\ (forall k, In k (keys (year_counts Z.compare col)) <-> In (Some k) col)
  /\ NoDup (keys (year_counts Z.compare col))
  /\ StronglySorted (key_lt Z.compare) (keys (year_counts Z.compare col)).
Proof.
  exact (group_count_partitions Z Z.compare Z.compare_eq_iff
           (fun x y => Z.compare_antisym x y) Z_compare_trans
           [Some 2020%Z; None; Some 2019%Z; Some 2020%Z]).
Defined.

(** C3 as stated fails on a record whose field is NULL: two records, one
    partition of count 1. *)
Lemma group_count_drops_missing :
  let col := [Some 2020%Z; None] in
  year_counts Z.compare col = [(2020%Z, 1)]
  /\ total_count (year_counts Z.compare col) <> List.length col.
Proof. split; [reflexivity | discriminate]. Qed.

(** ** Ranking *)

(** C4, as amended: for every bound [n], the keyword ranking of app.py 865
    ([sorted(...)[:n]] over the insertion-ordered mapping) returns at most
    [n] partitions, by count descending, equal counts in first-encountered
    order, all of them partitions of the mapping; the venue ranking of
    1391-1393 returns at most [n] partitions, by count descending, all of
    them partitions of the group-count.  The source fixes [n] at 10. *)
Theorem top_n_ranking (n : nat) (items : list (string * Z))
    (K : Type) (cmp : K -> K -> comparison) (col : list (option K)) :
  (List.length (top_n n items) <= n
   /\ descending snd (top_n n items)
   /\ (forall c, prefix (tied snd c (top_n n items)) (tied snd c items))
   /\ incl (top_n n items) items
   /\ sorted_keywords items = top_n 10 items)
  /\
  (List.length (top_by_count cmp n col) <= n
   /\ descending (fun x => Z.of_nat (snd x)) (top_by_count cmp n col)
   /\ incl (top_by_count cmp n col) (groupby_size cmp col)
   /\ venue_counts cmp col = top_by_count cmp 10 col).
Proof.
  split.
  - unfold top_n, sorted_desc. repeat split.
    + apply firstn_le_length.
    + apply descending_firstn, stable_sort_desc_descending.
    + intros c.
      rewrite <- (stable_sort_desc_tied _ snd c items).
      apply tied_firstn_prefix.
    + apply firstn_incl_sorted.
  - unfold top_by_count, head, sort_values_count_desc. repeat split.
    + apply firstn_le_length.
    + apply descending_firstn, stable_sort_desc_descending.
    + apply firstn_incl_sorted.
Qed.

(** C4 as stated fails in the venue ranking: two venues met as B then A,
    one publication each, come out as A then B. *)
Lemma venue_ranking_ties_by_key :
  let col := [Some "B"; Some "A"] in
  venue_counts String.compare col = [("A", 1); ("B", 1)]
  /\ keys (venue_counts String.compare col) <> first_seen String.eqb col.
Proof. split; [reflexivity | discriminate]. Qed.

(** ** Keyword explosion *)

(** C5, as amended: over the two rows "AI, Machine Learning" and "ai,NLP"
    the mapping holds "machine learning" and "nlp", each with the count of
    its row (1 and 1 when each row counts one publication), and no entry
    for "ai": the guard of line 858 keeps tokens of more than 2
    characters. *)
Theorem keyword_explosion_example (c1 c2 : Z) :
  let results := [(Some "AI, Machine Learning", c1); (Some "ai,NLP", c2)] in
  keyword_counts results = [("machine learning", c1); ("nlp", c2)]
  /\ dict_get (keyword_counts results) "ai" = None.
Proof. split; reflexivity. Qed.

(** C5 as stated fails: "ai" has no count at all. *)
Lemma keyword_explosion_drops_ai :
  dict_get (keyword_counts [(Some "AI, Machine Learning", 1%Z); (Some "ai,NLP", 1%Z)])
           "ai" <> Some 2%Z.
Proof. discriminate. Qed.

(** ** Scalar statistics *)

(** C8 as stated fails: the mean over an empty frame is NaN, not 0. *)
Lemma empty_mean_is_not_zero :
  ~ (exists top_venue,
        keyword_search_stats {| columns := keyword_search_columns; records := [] |}
        = Ok (0, Fin 0, top_venue)).
Proof. intros [v H]. discriminate H. Qed.

(** ** Running monadic code *)

Ltac unfold_monad :=
  unfold bind, ret, raise, lift_outcome, try_except, call, log, read,
    new_handle, lift_state, with_local, get_local, append_local,
    global in *.

(** Case analysis on a scrutinee that holds no further [match]. *)
Ltac break_inner :=
  match goal with
  | |- context [match ?x with _ => _ end] =>
      lazymatch x with
      | context [match _ with _ => _ end] => fail
      | _ => destruct x eqn:?; simpl; try congruence
      end
  end.

Lemma skipn_length_app {A} (l l' : list A) :
  skipn (List.length l) (l ++ l') = l'.
Proof. induction l; simpl; auto. Qed.

Lemma time_record_event e s : time (record_event e s) = S (time s).
Proof. unfold time, record_event. simpl. rewrite length_app. simpl. lia. Qed.

Ltac since_simpl :=
  unfold since, time; cbn [trace record_event];
  repeat rewrite <- app_assoc; rewrite ?skipn_length_app, ?skipn_all;
  cbn [app].

Ltac unfold_mysql :=
  unfold MySQL.execute_query, MySQL.stale, MySQL.connect, MySQL.self,
    MySQL.is_connected, MySQL.set_connection.

Ltac unfold_neo4j :=
  unfold Neo4j.execute_query, Neo4j.connect, Neo4j.run, Neo4j.self,
    Neo4j.set_driver.

Lemma isinstance_class (e : exn) (c : exn_class) :
  exn_cls e = c -> isinstance e [c] = true.
Proof.
  intros <-. unfold isinstance. simpl.
  destruct (exn_cls e); reflexivity.
Qed.

Lemma isinstance_Exception (e : exn) : isinstance e [Exception] = true.
Proof.
  unfold isinstance. simpl. destruct (exn_cls e); reflexivity.
Qed.

(** *** The relational adapter *)

Lemma mysql_stale_one_connect env q p s :
  mysql_stale env s = true ->
  count_events is_mysql_connect (since s (snd (MySQL.execute_query env q p s))) = 1.
Proof.
  unfold mysql_stale. unfold_mysql. unfold_monad. simpl.
  repeat break_inner; intros H; try discriminate H; try congruence;
    since_simpl; reflexivity.
Qed.

Lemma mysql_stale_refused env q p s :
  mysql_stale env s = true ->
  (forall t, exists e,
      mysql_connect_result env t = Raise e /\ exn_cls e = MySQLError) ->
  fst (MySQL.execute_query env q p s) = Ok None
  /\ count_events is_mysql_execute (since s (snd (MySQL.execute_query env q p s))) = 0.
Proof.
  unfold mysql_stale. unfold_mysql. unfold_monad. simpl.
  repeat break_inner; intros H Hdown; try discriminate H; try congruence;
    since_simpl; try (split; reflexivity).
  all: match goal with
       | Hc : mysql_connect_result _ ?t = _ |- _ =>
           destruct (Hdown t) as (e' & He' & Hcls); rewrite He' in Hc;
           try discriminate Hc; injection Hc as <-
       end.
  all: match goal with
       | Hi : isinstance _ _ = false |- _ =>
           rewrite (isinstance_class _ _ Hcls) in Hi; discriminate Hi
       end.
Qed.

Lemma mysql_failure_no_retry env q p s c h e :
  mysql_conn s = Some c -> connection c = Some h ->
  mysql_is_connected env (time s) h = true ->
  mysql_execute_result env (time s + 1) h q p = Raise e ->
  exn_cls e = MySQLError ->
  fst (MySQL.execute_query env q p s) = Ok None
  /\ since s (snd (MySQL.execute_query env q p s))
     = [MySQLIsConnected h; MySQLExecute h q p;
        Log mysql_log ERROR [Lit "Error executing query: "; Exc e]].
Proof.
  intros Hc Hh Hlive Hfail Hcls.
  unfold_mysql. unfold_monad. simpl.
  rewrite Hc. simpl. rewrite Hh. simpl. rewrite Hlive. simpl.
  rewrite Hc. simpl. rewrite Hh. simpl.
  replace (time (record_event (MySQLIsConnected h) s)) with (time s + 1)
    by (rewrite time_record_event; lia).
  rewrite Hfail. simpl. rewrite (isinstance_class _ _ Hcls). simpl.
  split; [reflexivity | since_simpl; reflexivity].
Qed.

(** *** The graph adapter *)

Lemma neo4j_absent_one_connect env q p s c :
  neo4j_conn s = Some c -> driver c = None ->
  count_events is_neo4j_connect (since s (snd (Neo4j.execute_query env q p s))) = 1.
Proof.
  intros Hc Hd. unfold_neo4j. unfold_monad. simpl.
  rewrite Hc. simpl. rewrite Hd. simpl. rewrite Hc. simpl.
  repeat break_inner; since_simpl; reflexivity.
Qed.

Lemma neo4j_present_no_connect env q p s c h :
  neo4j_conn s = Some c -> driver c = Some h ->
  count_events is_neo4j_connect (since s (snd (Neo4j.execute_query env q p s))) = 0.
Proof.
  intros Hc Hd. unfold_neo4j. unfold_monad. simpl.
  rewrite Hc. simpl. rewrite Hd. simpl. rewrite Hc. simpl. rewrite Hd. simpl.
  repeat break_inner; since_simpl; reflexivity.
Qed.

Lemma neo4j_failure_no_retry env q p s c h e :
  neo4j_conn s = Some c -> driver c = Some h ->
  neo4j_run_result env (time s) h q p = Raise e ->
  fst (Neo4j.execute_query env q p s) = Ok None
  /\ since s (snd (Neo4j.execute_query env q p s))
     = [Neo4jRun h q p; Log neo4j_log ERROR [Lit "Error executing query: "; Exc e]].
Proof.
  intros Hc Hd Hfail. unfold_neo4j. unfold_monad. simpl.
  rewrite Hc. simpl. rewrite Hd. simpl. rewrite Hc. simpl. rewrite Hd. simpl.
  rewrite Hfail. simpl. rewrite isinstance_Exception. simpl.
  split; [reflexivity | since_simpl; reflexivity].
Qed.

(** C6, as amended: a read query on the relational adapter whose handle is
    stale makes exactly one connect attempt, and when the server refuses it
    the call returns [None] without running the query; the graph adapter
    makes its one attempt when its driver is absent.  After a query failure
    neither adapter reconnects or retries: the query has run once, the
    failure is logged at ERROR level and the call returns [None]. *)
Theorem stale_handle_and_query_failure
    (env : Env) (q : string) (p : list pyval) (pn : document) (s : State) :
  (mysql_stale env s = true ->
     count_events is_mysql_connect (since s (snd (MySQL.execute_query env q p s))) = 1
     /\ ((forall t, exists e,
            mysql_connect_result env t = Raise e /\ exn_cls e = MySQLError) ->
         fst (MySQL.execute_query env q p s) = Ok None
         /\ count_events is_mysql_execute
              (since s (snd (MySQL.execute_query env q p s))) = 0))
  /\ (forall c, neo4j_conn s = Some c -> driver c = None ->
        count_events is_neo4j_connect
          (since s (snd (Neo4j.execute_query env q pn s))) = 1)
  /\ (forall c h e,
        mysql_conn s = Some c -> connection c = Some h ->
        mysql_is_connected env (time s) h = true ->
        mysql_execute_result env (time s + 1) h q p = Raise e ->
        exn_cls e = MySQLError ->
        fst (MySQL.execute_query env q p s) = Ok None
        /\ since s (snd (MySQL.execute_query env q p s))
           = [MySQLIsConnected h; MySQLExecute h q p;
              Log mysql_log ERROR [Lit "Error executing query: "; Exc e]])
  /\ (forall c h e,
        neo4j_conn s = Some c -> driver c = Some h ->
        neo4j_run_result env (time s) h q pn = Raise e ->
        fst (Neo4j.execute_query env q pn s) = Ok None
        /\ since s (snd (Neo4j.execute_query env q pn s))
           = [Neo4jRun h q pn;
              Log neo4j_log ERROR [Lit "Error executing query: "; Exc e]]).
Proof.
  split; [| split; [| split]].
  - intros Hs. split.
    + apply mysql_stale_one_connect, Hs.
    + intros Hdown. apply mysql_stale_refused; assumption.
  - intros c. apply neo4j_absent_one_connect.
  - intros c h e. apply mysql_failure_no_retry.
  - intros c h e. apply neo4j_failure_no_retry.
Qed.

Lemma stale_handle_and_query_failure_witness :
  (let s := started None None None in
   count_events is_mysql_connect
     (since s (snd (MySQL.execute_query unreachable "SELECT 1" [] s))) = 1
   /\ fst (MySQL.execute_query unreachable "SELECT 1" [] s) = Ok None)
  /\ (let s := started None None None in
      count_events is_neo4j_connect
        (since s (snd (Neo4j.execute_query unreachable "RETURN 1" [] s))) = 1)
  /\ (let s := started (Some 0) None None in
      let env := relational_only (fun _ => Raise table_missing) in
      fst (MySQL.execute_query env "SELECT 1" [] s) = Ok None)
  /\ (let s := started None None (Some 0) in
      fst (Neo4j.execute_query unreachable "RETURN 1" [] s) = Ok None).
Proof.
  split; [| split; [| split]].
  - destruct (stale_handle_and_query_failure unreachable "SELECT 1" [] []
                (started None None None)) as (H & _).
    destruct (H eq_refl) as (H1 & H2). split; [exact H1 |].
    apply H2. intros t. eexists. split; reflexivity.
  - destruct (stale_handle_and_query_failure unreachable "RETURN 1" [] []
                (started None None None)) as (_ & H & _).
    eapply H; reflexivity.
  - destruct (stale_handle_and_query_failure
                (relational_only (fun _ => Raise table_missing)) "SELECT 1" [] []
                (started (Some 0) None None)) as (_ & _ & H & _).
    eapply H; reflexivity.
  - destruct (stale_handle_and_query_failure unreachable "RETURN 1" [] []
                (started None None (Some 0))) as (_ & _ & _ & H).
    eapply H; reflexivity.
Defined.

(** C6 as stated fails: a query the server rejects is run once, with no
    reconnect. *)
Lemma failed_query_is_not_retried :
  ~ retried_once (relational_only (fun _ => Raise table_missing)) "SELECT 1" []
      (started (Some 0) None None).
Proof. unfold retried_once. vm_compute. intros [H _]. discriminate H. Qed.

Lemma mysql_execute_query_frame env q p s :
  mongodb_conn (snd (MySQL.execute_query env q p s)) = mongodb_conn s
  /\ neo4j_conn (snd (MySQL.execute_query env q p s)) = neo4j_conn s.
Proof.
  unfold_mysql. unfold_monad. simpl.
  repeat break_inner; auto.
Qed.

Lemma mysql_execute_query_rows env q p s rows :
  fst (MySQL.execute_query env q p s) = Ok (Some rows) ->
  exists t h, mysql_execute_result env t h q p = Ok rows.
Proof.
  unfold_mysql. unfold_monad. simpl.
  repeat break_inner; intros H; try discriminate H;
    injection H as ?; subst; eauto.
Qed.

Lemma neo4j_execute_query_records env q p s records :
  fst (Neo4j.execute_query env q p s) = Ok (Some records) ->
  exists t h, neo4j_run_result env t h q p = Ok records.
Proof.
  unfold_neo4j. unfold_monad. simpl.
  repeat break_inner; intros H; try discriminate H;
    injection H as ?; subst; eauto.
Qed.

(** *** The document adapter *)

Ltac unfold_mongodb :=
  unfold MongoDB.find_documents, MongoDB.get_collection, MongoDB.get_database,
    MongoDB.connect, MongoDB.truth, MongoDB.set_client, MongoDB.set_database,
    MongoDB.update, MongoDB.self.

Lemma mongodb_find_documents_docs env coll filter limit s docs :
  fst (MongoDB.find_documents env coll filter limit s) = Ok (Some docs) ->
  exists t h db, mongo_find_result env t h db coll filter limit = Ok docs.
Proof.
  unfold_mongodb. unfold_monad. simpl.
  repeat break_inner; intros H; try discriminate H;
    injection H as ?; subst; eauto.
Qed.

Lemma mongodb_find_documents_frame env coll filter limit s :
  neo4j_conn (snd (MongoDB.find_documents env coll filter limit s))
  = neo4j_conn s.
Proof.
  unfold_mongodb. unfold_monad. simpl.
  repeat break_inner; auto.
Qed.

(** ** Loops that append *)

Lemma for_each_collect {R A} (f : R -> outcome A) (l : list R)
    (s : State) (acc : list A) :
  for_each l (fun x => a <- lift_outcome (f x) ;; append_local a) (s, acc)
  = (snd (collect_until f l), (s, acc ++ fst (collect_until f l))).
Proof.
  revert acc. induction l as [|x xs IH]; intros acc; simpl.
  - unfold ret. rewrite app_nil_r. reflexivity.
  - unfold bind at 1. unfold bind at 1. unfold lift_outcome at 1.
    destruct (f x) as [a|e]; simpl.
    + unfold append_local at 1. simpl. rewrite IH.
      destruct (collect_until f xs) as [acc' o]. simpl.
      rewrite <- app_assoc. reflexivity.
    + rewrite app_nil_r. reflexivity.
Qed.

Lemma collect_until_omap {R A} (f : R -> outcome A) (l : list R) (acc : list A) :
  omap f l = Ok acc -> collect_until f l = (acc, Ok tt).
Proof.
  revert acc. induction l as [|x xs IH]; intros acc; simpl.
  - intros H. injection H as <-. reflexivity.
  - destruct (f x) as [a|e]; simpl; [| discriminate].
    destruct (omap f xs) as [acc'|e]; simpl; [| discriminate].
    intros H. injection H as <-. rewrite (IH acc' eq_refl). reflexivity.
Qed.

Lemma collect_until_raises {R A} (f : R -> outcome A) (e : exn) (l : list R) :
  (forall x, f x = Raise e) ->
  collect_until f l = ([], match l with [] => Ok tt | _ => Raise e end).
Proof.
  intros H. destruct l as [|x xs]; simpl; [reflexivity |].
  rewrite H. reflexivity.
Qed.

Lemma report_section_collect {R} (results : option (list R)) (heading : html)
    (info : R -> outcome html) (s : State) (l : list html) :
  report_section results heading info (s, l)
  = match some_rows results with
    | [] => (Ok tt, (s, l))
    | rows => (snd (collect_until info rows),
               (s, (l ++ [heading]) ++ fst (collect_until info rows)))
    end.
Proof.
  unfold report_section. destruct (some_rows results) as [|r rows]; [reflexivity |].
  unfold bind at 1. unfold append_local at 1. cbn [fst snd].
  exact (for_each_collect info (r :: rows) s (l ++ [heading])).
Qed.

(** ** The person search, backend by backend *)

Lemma lookup_int (d : document) (z : Z) : lookup d (VInt z) = None.
Proof. induction d as [|[k v] d IH]; simpl; [reflexivity | exact IH]. Qed.

Lemma neo4j_person_info_raises d : neo4j_person_info d = Raise key_error.
Proof. unfold neo4j_person_info, dict_getitem. rewrite lookup_int. reflexivity. Qed.

Lemma neo4j_pub_info_raises d : neo4j_pub_info d = Raise key_error.
Proof. unfold neo4j_pub_info, dict_getitem. rewrite lookup_int. reflexivity. Qed.

Lemma neo4j_collab_info_raises d : neo4j_collab_info d = Raise key_error.
Proof. unfold neo4j_collab_info, dict_getitem. rewrite lookup_int. reflexivity. Qed.

Lemma neo4j_entry_raises d : neo4j_entry d = Raise key_error.
Proof. unfold neo4j_entry, dict_getitem. rewrite lookup_int. reflexivity. Qed.

Ltac run_query :=
  match goal with
  | |- context [MySQL.execute_query ?env ?q ?p ?s] =>
      let E := fresh "E" in
      destruct (MySQL.execute_query env q p s) as [[[[|? ?]|]|?] ?] eqn:E
  | |- context [Neo4j.execute_query ?env ?q ?p ?s] =>
      let E := fresh "E" in
      destruct (Neo4j.execute_query env q p s) as [[[[|? ?]|]|?] ?] eqn:E
  | |- context [MongoDB.find_documents ?env ?c ?f ?n ?s] =>
      let E := fresh "E" in
      destruct (MongoDB.find_documents env c f n s) as [[[[|? ?]|]|?] ?] eqn:E
  end.

(** A query that returned records, in a world that holds none. *)
Ltac no_records Hno :=
  exfalso;
  match goal with
  | E : MySQL.execute_query ?env ?q ?p ?s = (Ok (Some (_ :: _)), _) |- _ =>
      let Hr := fresh "Hr" in
      destruct (mysql_execute_query_rows env q p s _ (f_equal fst E))
        as (? & ? & Hr);
      apply Hno in Hr; [discriminate Hr | simpl; auto]
  | E : Neo4j.execute_query ?env ?q ?p ?s = (Ok (Some (_ :: _)), _) |- _ =>
      let Hr := fresh "Hr" in
      destruct (neo4j_execute_query_records env q p s _ (f_equal fst E))
        as (? & ? & Hr);
      apply Hno in Hr; [discriminate Hr | simpl; auto]
  | E : MongoDB.find_documents ?env ?c ?f ?n ?s = (Ok (Some (_ :: _)), _) |- _ =>
      let Hr := fresh "Hr" in
      destruct (mongodb_find_documents_docs env c f n s _ (f_equal fst E))
        as (? & ? & ? & Hr);
      apply Hno in Hr; [discriminate Hr | simpl; auto]
  end.

Ltac step :=
  first [ rewrite report_section_collect
        | rewrite isinstance_Exception
        | rewrite (collect_until_raises _ key_error) by
            first [ exact neo4j_person_info_raises | exact neo4j_pub_info_raises
                  | exact neo4j_collab_info_raises | exact neo4j_entry_raises ]
        | progress cbn [fst snd some_rows select_clause app]
        | run_query ].

Ltac close_rest :=
  rewrite ?app_nil_r;
  match goal with
  | |- exists _ _, (Ok tt, (?s, ?l0 ++ ?r)) = _ /\ _ =>
      exists s, r; split; [reflexivity | repeat constructor]
  | |- exists _ _, (Ok tt, (?s, ?l0)) = _ /\ _ =>
      exists s, []; rewrite app_nil_r; split; [reflexivity | constructor]
  end.

(** Whatever the graph backend answers, the search appends at most one of
    its headings and never a card: each card indexes a record by position,
    which raises [KeyError]. *)
Lemma neo4j_person_search_headings env name s l :
  exists s' rest,
    neo4j_person_search env name (s, l) = (Ok tt, (s', l ++ rest))
    /\ Forall (fun item => heading_backend item = Some Graph) rest.
Proof.
  unfold neo4j_person_search, global. unfold_monad. cbn [fst snd].
  destruct (neo4j_available s); [| close_rest].
  repeat step; close_rest.
Qed.

(** What a lookup leaves of the other connection objects. *)
Ltac frame_facts :=
  repeat match goal with
         | E : MySQL.execute_query ?env ?q ?p ?s = _ |- _ =>
             let F := fresh "F" in
             pose proof (mysql_execute_query_frame env q p s) as F;
             rewrite E in F; cbn [snd] in F; destruct F; clear E
         | E : MongoDB.find_documents ?env ?c ?f ?n ?s = _ |- _ =>
             let F := fresh "F" in
             pose proof (mongodb_find_documents_frame env c f n s) as F;
             rewrite E in F; cbn [snd] in F; clear E
         end;
  cbn [mysql_conn mongodb_conn neo4j_conn record_event].

Lemma neo4j_person_search_nothing env name s l :
  neo4j_available s = false \/ neo4j_no_records env ->
  exists s', neo4j_person_search env name (s, l) = (Ok tt, (s', l)).
Proof.
  intros Hno.
  unfold neo4j_person_search, global. unfold_monad. cbn [fst snd].
  destruct (neo4j_available s); [| eexists; reflexivity].
  destruct Hno as [Hno | Hno]; [discriminate Hno |].
  repeat (step; try no_records Hno); eexists; reflexivity.
Qed.

Lemma mysql_person_search_nothing env name s l :
  mysql_available s = false \/ mysql_no_records env ->
  exists s', mysql_person_search env name (s, l) = (Ok tt, (s', l))
             /\ mongodb_conn s' = mongodb_conn s
             /\ neo4j_conn s' = neo4j_conn s.
Proof.
  intros Hno.
  unfold mysql_person_search, global. unfold_monad. cbn [fst snd].
  destruct (mysql_available s); [| eexists; repeat split].
  destruct Hno as [Hno | Hno]; [discriminate Hno |].
  repeat (step; try no_records Hno);
    (eexists; split; [reflexivity | frame_facts; split; congruence]).
Qed.

Lemma mongodb_person_search_nothing env name s l :
  mongodb_available s = false \/ mongodb_no_records env ->
  exists s', mongodb_person_search env name (s, l) = (Ok tt, (s', l))
             /\ neo4j_conn s' = neo4j_conn s.
Proof.
  intros Hno.
  unfold mongodb_person_search, global. unfold_monad. cbn [fst snd].
  destruct (mongodb_available s); [| eexists; repeat split].
  destruct Hno as [Hno | Hno]; [discriminate Hno |].
  repeat (step; try no_records Hno);
    (eexists; split; [reflexivity | frame_facts; congruence]).
Qed.

Lemma omap_nil_inv {R A} (f : R -> outcome A) (l : list R) :
  omap f l = Ok [] -> l = [].
Proof.
  destruct l as [|x xs]; [reflexivity |]. simpl.
  destruct (f x); simpl; [| discriminate].
  destruct (omap f xs); simpl; discriminate.
Qed.

Lemma report_section_ok {R} (results : option (list R)) (heading : html)
    (info : R -> outcome html) (cards : list html) (s : State) (l : list html) :
  omap info (some_rows results) = Ok cards ->
  report_section results heading info (s, l)
  = (Ok tt, (s, l ++ titled heading cards)).
Proof.
  intros H. rewrite report_section_collect.
  destruct (some_rows results) as [|r rows'].
  - simpl in H. injection H as <-. simpl. rewrite app_nil_r. reflexivity.
  - cbv beta iota zeta. rewrite (collect_until_omap _ _ _ H). cbn [fst snd].
    destruct cards as [|c cs].
    + apply omap_nil_inv in H. discriminate H.
    + simpl. rewrite <- app_assoc. reflexivity.
Qed.

(** The relational part of the search, when the first lookup returns and
    every row has the fields its card reads: the second lookup may return
    rows, [None], or raise. *)
Lemma mysql_person_search_found env name s l r1 o2 s1 s2 cards_f cards_p :
  mysql_available s = true ->
  MySQL.execute_query env person_faculty_query [VStr ("%" ++ name ++ "%")] s
    = (Ok r1, s1) ->
  MySQL.execute_query env person_pub_query [VStr ("%" ++ name ++ "%")] s1
    = (o2, s2) ->
  omap mysql_faculty_info (some_rows r1) = Ok cards_f ->
  omap mysql_pub_info (rows_of o2) = Ok cards_p ->
  exists s',
    mysql_person_search env name (s, l)
    = (Ok tt, (s', l ++ titled mysql_faculty_heading cards_f
                     ++ titled mysql_pub_heading cards_p))
    /\ mongodb_conn s' = mongodb_conn s.
Proof.
  intros Ha E1 E2 Hf Hp.
  unfold mysql_person_search, global. unfold_monad. cbn [fst snd].
  rewrite Ha. cbn [fst snd]. rewrite E1. cbn [fst snd].
  rewrite (report_section_ok _ _ _ _ _ _ Hf). cbn [fst snd].
  rewrite E2. cbn [fst snd].
  destruct o2 as [r2|e]; cbn [rows_of] in Hp.
  - rewrite (report_section_ok _ _ _ _ _ _ Hp).
    exists s2. split; [rewrite <- app_assoc; reflexivity |].
    frame_facts. congruence.
  - injection Hp as <-. cbn [select_clause]. rewrite isinstance_Exception.
    cbn [fst snd].
    eexists. split; [cbn [titled]; rewrite app_nil_r; reflexivity |].
    frame_facts. congruence.
Qed.

Lemma omap_Forall2 {R A} (f : R -> outcome A) (P : R -> Prop)
    (Q : R -> A -> Prop) (l : list R) :
  (forall r, P r -> exists a, f r = Ok a /\ Q r a) ->
  Forall P l ->
  exists acc, omap f l = Ok acc /\ Forall2 Q l acc.
Proof.
  intros Hf. induction 1 as [|r rs Hr _ IH]; simpl.
  - exists []. split; constructor.
  - destruct (Hf r Hr) as (a & Ha & Hq). destruct IH as (acc & Hacc & HQ).
    rewrite Ha, Hacc. simpl. exists (a :: acc).
    split; [reflexivity | constructor; assumption].
Qed.

Lemma Forall2_snd {R A} (Q : R -> A -> Prop) (Q' : A -> Prop)
    (l : list R) (acc : list A) :
  (forall r a, Q r a -> Q' a) -> Forall2 Q l acc ->
  Forall Q' acc /\ List.length acc = List.length l.
Proof.
  intros HQ. induction 1 as [|r a rs acc Hra _ [IH1 IH2]]; simpl.
  - split; [constructor | reflexivity].
  - split; [constructor; [exact (HQ r a Hra) | exact IH1] | congruence].
Qed.

Lemma mysql_faculty_info_total (r : row) :
  List.length r = 9 ->
  exists card, mysql_faculty_info r = Ok card /\ shows_faculty r card.
Proof.
  intros H.
  do 9 (destruct r as [|? r]; [discriminate H |]).
  destruct r; [| discriminate H].
  eexists. split; [reflexivity | split; reflexivity].
Qed.

Lemma mysql_pub_info_total (r : row) :
  List.length r = 4 ->
  exists card, mysql_pub_info r = Ok card /\ shows_publication r card.
Proof.
  intros H.
  do 4 (destruct r as [|? r]; [discriminate H |]).
  destruct r; [| discriminate H].
  eexists. split; [reflexivity | split; reflexivity].
Qed.

(** ** Reading a report *)

Lemma cards_under_cards (b b' : backend) (cards rest : list html) :
  Forall (fun c => heading_backend c = None) cards ->
  cards_under b (Some b') (cards ++ rest)
  = (if backend_eqb b b' then cards else []) ++ cards_under b (Some b') rest.
Proof.
  induction 1 as [|c cs Hc _ IH]; simpl.
  - destruct (backend_eqb b b'); reflexivity.
  - rewrite Hc, IH. destruct (backend_eqb b b'); reflexivity.
Qed.

Lemma cards_under_graph_headings (current : option backend) (rest : list html) :
  Forall (fun item => heading_backend item = Some Graph) rest ->
  cards_under Relational current rest = [].
Proof.
  intros H. revert current.
  induction H as [|h hs Hh _ IH]; intros current; simpl; [reflexivity |].
  rewrite Hh. apply IH.
Qed.

Lemma cards_under_heading (b b' : backend) (current : option backend)
    (heading : html) (rest : list html) :
  heading_backend heading = Some b' ->
  cards_under b current (heading :: rest) = cards_under b (Some b') rest.
Proof. intros H. simpl. rewrite H. reflexivity. Qed.

Lemma section_of_titled (b b' : backend) (heading : html)
    (cards rest : list html) (current : option backend) :
  heading_backend heading = Some b' ->
  Forall (fun c => heading_backend c = None) cards ->
  cards_under b (Some b') rest = cards_under b current rest ->
  cards_under b current (titled heading cards ++ rest)
  = (if backend_eqb b b' then cards else []) ++ cards_under b current rest.
Proof.
  intros Hh Hc Hrest. destruct cards as [|c cs].
  - simpl. destruct (backend_eqb b b'); reflexivity.
  - change (titled heading (c :: cs) ++ rest)
      with (heading :: ((c :: cs) ++ rest)).
    rewrite (cards_under_heading b b' current heading _ Hh).
    rewrite (cards_under_cards b b' (c :: cs) rest Hc). rewrite Hrest.
    reflexivity.
Qed.

Lemma has_section_app (b : backend) (l1 l2 : list html) :
  has_section b (l1 ++ l2) = has_section b l1 || has_section b l2.
Proof. unfold has_section. apply existsb_app. Qed.

Lemma has_section_cards (b : backend) (cards : list html) :
  Forall (fun c => heading_backend c = None) cards ->
  has_section b cards = false.
Proof.
  unfold has_section. induction 1 as [|c cs Hc _ IH]; simpl; [reflexivity |].
  rewrite Hc, IH. reflexivity.
Qed.

Lemma has_section_titled (b b' : backend) (heading : html) (cards : list html) :
  heading_backend heading = Some b' -> backend_eqb b b' = false ->
  Forall (fun c => heading_backend c = None) cards ->
  has_section b (titled heading cards) = false.
Proof.
  intros Hh Hb Hc. destruct cards as [|c cs]; [reflexivity |].
  change (titled heading (c :: cs)) with ([heading] ++ (c :: cs)).
  rewrite has_section_app, (has_section_cards b _ Hc).
  unfold has_section. simpl. rewrite Hh, Hb. reflexivity.
Qed.

Lemma has_section_graph_headings (rest : list html) :
  Forall (fun item => heading_backend item = Some Graph) rest ->
  has_section DocumentStore rest = false.
Proof.
  unfold has_section. induction 1 as [|h hs Hh _ IH]; simpl; [reflexivity |].
  rewrite Hh. simpl. exact IH.
Qed.

Lemma relational_titled (heading : html) (cards tail found : list html) :
  heading_backend heading = Some Relational ->
  Forall (fun c => heading_backend c = None) cards ->
  (forall current, cards_under Relational current tail = found) ->
  forall current,
    cards_under Relational current (titled heading cards ++ tail) = cards ++ found.
Proof.
  intros Hh Hc Htail current.
  rewrite (section_of_titled Relational Relational heading cards tail current Hh Hc).
  - simpl. rewrite Htail. reflexivity.
  - rewrite !Htail. reflexivity.
Qed.

Lemma mongodb_available_frame (s s' : State) :
  mongodb_conn s' = mongodb_conn s -> mongodb_available s' = mongodb_available s.
Proof. unfold mongodb_available. intros ->. reflexivity. Qed.

(** ** The person search *)

(** C1: when the document backend is unreachable (its handle is absent, or
    no lookup on it yields a document) and the relational lookups return 3
    faculty and publication rows between them (the second lookup may also
    return nothing or fail), the search raises nothing and returns the
    report of a successful search: its title, then under the MySQL headings
    one card for each of the 3 rows, in the order of the rows, each card
    saying the fields of its row, then at most headings of the graph
    backend.  The items under the relational headings are exactly those 3
    cards, and the report has no document-backend heading. *)
Theorem person_search_document_backend_down
    (env : Env) (name : string) (s s1 s2 : State)
    (r1 : option (list row)) (o2 : outcome (option (list row))) :
  mysql_available s = true ->
  mongodb_available s = false \/ mongodb_no_records env ->
  MySQL.execute_query env person_faculty_query [VStr ("%" ++ name ++ "%")] s
    = (Ok r1, s1) ->
  MySQL.execute_query env person_pub_query [VStr ("%" ++ name ++ "%")] s1
    = (o2, s2) ->
  Forall (fun r => List.length r = 9) (some_rows r1) ->
  Forall (fun r => List.length r = 4) (rows_of o2) ->
  List.length (some_rows r1) + List.length (rows_of o2) = 3 ->
  exists cards_f cards_p rest all_results s',
    get_person_information env name s
    = (Ok (Div [ H4 [Lit "🔍 Search Results for '"; Val (VStr name); Lit "'"]
                    [("color", VStr "#2c3e50"); ("marginBottom", VInt 20)];
                 Div all_results [] ] []), s')
    /\ all_results
       = titled (H5 [Lit "📊 MySQL - Faculty Information"]
                    [("color", VStr "#2980b9"); ("marginTop", VInt 20)])
                cards_f
         ++ titled (H5 [Lit "📚 MySQL - Publications"]
                       [("color", VStr "#2980b9"); ("marginTop", VInt 20)])
                   cards_p
         ++ rest
    /\ Forall2 shows_faculty (some_rows r1) cards_f
    /\ Forall2 shows_publication (rows_of o2) cards_p
    /\ Forall (fun item => heading_backend item = Some Graph) rest
    /\ section_of Relational all_results = cards_f ++ cards_p
    /\ List.length (section_of Relational all_results) = 3
    /\ has_section DocumentStore all_results = false.
Proof.
  intros Ha Hm E1 E2 Hfr Hpr Hlen.
  destruct (omap_Forall2 mysql_faculty_info _ shows_faculty _
              mysql_faculty_info_total Hfr) as (cards_f & Hf & Hsf).
  destruct (omap_Forall2 mysql_pub_info _ shows_publication _
              mysql_pub_info_total Hpr) as (cards_p & Hp & Hsp).
  destruct (Forall2_snd _ (fun c => heading_backend c = None) _ _
              (fun r a H => proj2 H) Hsf) as [Hcf Hlf].
  destruct (Forall2_snd _ (fun c => heading_backend c = None) _ _
              (fun r a H => proj2 H) Hsp) as [Hcp Hlp].
  pose (L := titled mysql_faculty_heading cards_f
             ++ titled mysql_pub_heading cards_p).
  destruct (mysql_person_search_found env name s [] r1 o2 s1 s2 cards_f cards_p
              Ha E1 E2 Hf Hp) as (s2' & E12 & F12).
  assert (Hm2 : mongodb_available s2' = false \/ mongodb_no_records env).
  { destruct Hm as [Hm | Hm]; [left | right; exact Hm].
    rewrite <- Hm. apply mongodb_available_frame, F12. }
  destruct (mongodb_person_search_nothing env name s2' L Hm2) as (s3 & E3 & _).
  destruct (neo4j_person_search_headings env name s3 L) as (s4 & rest & E4 & Hrest).
  assert (Hsec : section_of Relational (L ++ rest) = cards_f ++ cards_p).
  { unfold section_of, L. rewrite <- app_assoc.
    rewrite (relational_titled mysql_faculty_heading cards_f
               (titled mysql_pub_heading cards_p ++ rest) cards_p);
      [reflexivity | reflexivity | exact Hcf |].
    intros current.
    rewrite (relational_titled mysql_pub_heading cards_p rest []);
      [apply app_nil_r | reflexivity | exact Hcp |].
    intros current'. apply cards_under_graph_headings, Hrest. }
  exists cards_f, cards_p, rest, (L ++ rest), s4.
  split; [| split; [| split; [| split; [| split; [| split; [| split]]]]]].
  - unfold get_person_information, with_local. cbv [bind].
    rewrite E12. cbn [app]. fold L. rewrite E3, E4.
    cbv [get_local ret]. cbn [fst snd].
    destruct (L ++ rest) as [|x xs] eqn:EL; [| reflexivity].
    exfalso. unfold section_of in Hsec. simpl in Hsec.
    assert (Hz : List.length (cards_f ++ cards_p) = 0) by (rewrite <- Hsec; reflexivity).
    rewrite length_app in Hz. lia.
  - unfold L. rewrite <- app_assoc. reflexivity.
  - exact Hsf.
  - exact Hsp.
  - exact Hrest.
  - exact Hsec.
  - rewrite Hsec, length_app. lia.
  - unfold L. rewrite !has_section_app.
    rewrite (has_section_titled DocumentStore Relational mysql_faculty_heading
               cards_f eq_refl eq_refl Hcf).
    rewrite (has_section_titled DocumentStore Relational mysql_pub_heading
               cards_p eq_refl eq_refl Hcp).
    rewrite (has_section_graph_headings _ Hrest). reflexivity.
Qed.

(** C2: when no lookup of the person search finds a record on any of the
    three backends (each being skipped as unconnected, or answering with
    nothing, or failing), the search returns a value, not an exception: the
    not-found report, which says that no information was found for the
    name.  That report is neither the report of a successful search,
    whatever its items, nor the error message of the search callback
    (app.py 362-363), whatever the error. *)
Theorem person_not_found (env : Env) (name : string) (s : State) :
  mysql_available s = false \/ mysql_no_records env ->
  mongodb_available s = false \/ mongodb_no_records env ->
  neo4j_available s = false \/ neo4j_no_records env ->
  exists report s',
    get_person_information env name s = (Ok report, s')
    /\ report
       = Div [ H5 [Lit "🔍 Search Results"] [("color", VStr "#e74c3c")];
               P [Lit "No information found for '"; Val (VStr name);
                  Lit "' in any database."]
                 [("color", VStr "#7f8c8d"); ("fontStyle", VStr "italic")] ] []
    /\ (forall who all_results,
          report
          <> Div [ H4 [Lit "🔍 Search Results for '"; Val (VStr who); Lit "'"]
                      [("color", VStr "#2c3e50"); ("marginBottom", VInt 20)];
                   Div all_results [] ] [])
    /\ (forall e,
          report
          <> Div [Str [Lit "Error searching for person: "; Exc e]]
                 [("color", VStr "red"); ("fontWeight", VStr "bold")]).
Proof.
  intros H1 H2 H3.
  destruct (mysql_person_search_nothing env name s [] H1)
    as (s1 & E1 & F1mo & F1ne).
  assert (H2' : mongodb_available s1 = false \/ mongodb_no_records env).
  { destruct H2 as [H2 | H2]; [left | right; exact H2].
    rewrite <- H2. apply mongodb_available_frame, F1mo. }
  destruct (mongodb_person_search_nothing env name s1 [] H2')
    as (s2 & E2 & F2ne).
  assert (H3' : neo4j_available s2 = false \/ neo4j_no_records env).
  { destruct H3 as [H3 | H3]; [left | right; exact H3].
    rewrite <- H3. unfold neo4j_available. rewrite F2ne, F1ne. reflexivity. }
  destruct (neo4j_person_search_nothing env name s2 [] H3') as [s3 E3].
  eexists. exists s3. split; [| split; [reflexivity | split]].
  - unfold get_person_information, with_local. cbv [bind].
    rewrite E1, E2, E3. reflexivity.
  - intros who all_results H. discriminate H.
  - intros e H. discriminate H.
Qed.

Lemma person_search_document_backend_down_witness :
  exists cards_f cards_p rest all_results s',
    get_person_information (relational_only faculty_and_publication) "Ada"
      (started (Some 0) None None)
    = (Ok (Div [ H4 [Lit "🔍 Search Results for '"; Val (VStr "Ada"); Lit "'"]
                    [("color", VStr "#2c3e50"); ("marginBottom", VInt 20)];
                 Div all_results [] ] []), s')
    /\ all_results
       = titled (H5 [Lit "📊 MySQL - Faculty Information"]
                    [("color", VStr "#2980b9"); ("marginTop", VInt 20)])
                cards_f
         ++ titled (H5 [Lit "📚 MySQL - Publications"]
                       [("color", VStr "#2980b9"); ("marginTop", VInt 20)])
                   cards_p
         ++ rest
    /\ Forall2 shows_faculty (firstn 2 sample_faculty) cards_f
    /\ Forall2 shows_publication sample_publications cards_p
    /\ Forall (fun item => heading_backend item = Some Graph) rest
    /\ section_of Relational all_results = cards_f ++ cards_p
    /\ List.length (section_of Relational all_results) = 3
    /\ has_section DocumentStore all_results = false.
Proof.
  eapply (person_search_document_backend_down
            (relational_only faculty_and_publication) "Ada"
            (started (Some 0) None None) _ _
            (Some (firstn 2 sample_faculty)) (Ok (Some sample_publications))).
  - reflexivity.
  - left. reflexivity.
  - reflexivity.
  - reflexivity.
  - repeat constructor.
  - repeat constructor.
  - reflexivity.
Defined.

Lemma person_not_found_witness :
  exists s',
    get_person_information (relational_only (fun _ => Ok [])) "Ada"
      (started (Some 0) None (Some 2))
    = (Ok (Div [ H5 [Lit "🔍 Search Results"] [("color", VStr "#e74c3c")];
                 P [Lit "No information found for '"; Val (VStr "Ada");
                    Lit "' in any database."]
                   [("color", VStr "#7f8c8d"); ("fontStyle", VStr "italic")] ]
               []), s').
Proof.
  destruct (person_not_found (relational_only (fun _ => Ok [])) "Ada"
              (started (Some 0) None (Some 2))) as (report & s' & E & -> & _).
  - right. intros t h q p rows _ H. simpl in H. injection H as <-. reflexivity.
  - left. reflexivity.
  - right. intros t h q p records _ H. simpl in H. discriminate H.
  - exists s'. exact E.
Defined.

(** ** Keyword comparison *)

(** C7: a comparison request with fewer than 2 non-empty trimmed terms is
    answered with a message and leaves the state as it was, so no backend
    call is made; once the button has been clicked the message is the
    validation message. *)
Theorem compare_keywords_validation (env : Env) (s : State) (n_clicks : pyval)
    (keyword1 keyword2 keyword3 keyword4 keyword5 : option string) :
  List.length
    (collect_keywords [keyword1; keyword2; keyword3; keyword4; keyword5]) < 2 ->
  exists msg,
    compare_keywords env n_clicks keyword1 keyword2 keyword3 keyword4 keyword5 s
    = (Ok (Annotation [Lit (fst msg)], Message [Lit (snd msg)]), s)
    /\ (truthy n_clicks = true ->
        msg = ("Please enter at least 2 keywords to compare",
               "Please enter at least 2 keywords to compare"))
    /\ count_events is_backend_call
         (since s (snd (compare_keywords env n_clicks keyword1 keyword2 keyword3
                          keyword4 keyword5 s))) = 0.
Proof.
  intros Hlen. unfold compare_keywords.
  destruct (truthy n_clicks) eqn:Ht; cbn [negb]; cbv zeta.
  - apply Nat.ltb_lt in Hlen. rewrite Hlen. unfold ret.
    exists ("Please enter at least 2 keywords to compare",
            "Please enter at least 2 keywords to compare").
    repeat split. simpl. unfold since, time. rewrite skipn_all. reflexivity.
  - unfold ret. eexists (_, _). split; [reflexivity |].
    split; [discriminate |]. simpl. unfold since, time. rewrite skipn_all. reflexivity.
Qed.

Lemma compare_keywords_validation_witness :
  exists msg,
    compare_keywords unreachable (VInt 1) (Some "AI") (Some nbsp) (Some "   ") None
      (Some "") (started (Some 0) None None)
    = (Ok (Annotation [Lit (fst msg)], Message [Lit (snd msg)]),
       started (Some 0) None None)
    /\ (truthy (VInt 1) = true ->
        msg = ("Please enter at least 2 keywords to compare",
               "Please enter at least 2 keywords to compare"))
    /\ count_events is_backend_call
         (since (started (Some 0) None None)
            (snd (compare_keywords unreachable (VInt 1) (Some "AI") (Some nbsp)
                    (Some "   ") None (Some "") (started (Some 0) None None)))) = 0.
Proof.
  apply (compare_keywords_validation unreachable (started (Some 0) None None)
           (VInt 1) (Some "AI") (Some nbsp) (Some "   ") None (Some "")).
  vm_compute. lia.
Defined.

(** ** Scalar statistics on an empty record set *)

Lemma try_except_all {S A} (body : M S A) (h : exn -> A) (s : S) :
  exists a s', try_except body [([Exception], fun e => ret (h e))] s = (Ok a, s').
Proof.
  unfold try_except. destruct (body s) as [[a|e] s']; simpl.
  - eauto.
  - rewrite isinstance_Exception. unfold ret. eauto.
Qed.

Lemma get_all_publications_empty env s results s' :
  mysql_available s = true ->
  MySQL.execute_query env all_publications_query [] s = (Ok results, s') ->
  some_rows results = [] ->
  get_all_publications env s
  = (Ok (Annotation [Lit "No publications found in database"],
         Message [Lit "No publications found in database"]), s').
Proof.
  intros Ha E Hr. unfold get_all_publications. unfold_monad.
  rewrite Ha, E, Hr. reflexivity.
Qed.

Lemma get_publications_by_keyword_empty env keyword s results s' :
  mysql_available s = true ->
  MySQL.execute_query env keyword_search_query
    (let t := VStr ("%" ++ keyword ++ "%") in [t; t; t; t]) s = (Ok results, s') ->
  some_rows results = [] ->
  get_publications_by_keyword env keyword s
  = (Ok (Annotation [Lit "No publications found containing '"; Val (VStr keyword);
                     Lit "'"],
         Message [Lit "No publications found for keyword: "; Val (VStr keyword)]),
     s').
Proof.
  intros Ha E Hr. unfold get_publications_by_keyword. unfold_monad.
  cbv zeta in E |- *. rewrite Ha, E, Hr. reflexivity.
Qed.

(** C8, as amended: on an empty record set the statistics block raises no
    fault and yields mode "N/A", with NaN (not 0) for the mean and for the
    maximum; and no empty record set reaches it: when the query yields no
    row the two operations return their no-publications message, and they
    never raise. *)
Theorem scalar_stats_empty (env : Env) (s : State) (keyword : string) :
  keyword_search_stats {| columns := keyword_search_columns; records := [] |}
    = Ok (0, NaN, "N/A")
  /\ all_publications_stats {| columns := all_publications_columns; records := [] |}
     = Ok (0, NaN, NaN)
  /\ (exists r s', get_publications_by_keyword env keyword s = (Ok r, s'))
  /\ (exists r s', get_all_publications env s = (Ok r, s'))
  /\ (forall results s',
        mysql_available s = true ->
        MySQL.execute_query env all_publications_query [] s = (Ok results, s') ->
        some_rows results = [] ->
        get_all_publications env s
        = (Ok (Annotation [Lit "No publications found in database"],
               Message [Lit "No publications found in database"]), s'))
  /\ (forall results s',
        mysql_available s = true ->
        MySQL.execute_query env keyword_search_query
          (let t := VStr ("%" ++ keyword ++ "%") in [t; t; t; t]) s
          = (Ok results, s') ->
        some_rows results = [] ->
        get_publications_by_keyword env keyword s
        = (Ok (Annotation [Lit "No publications found containing '";
                           Val (VStr keyword); Lit "'"],
               Message [Lit "No publications found for keyword: ";
                        Val (VStr keyword)]), s')).
Proof.
  split; [reflexivity |]. split; [reflexivity |].
  split; [| split; [| split]].
  - unfold get_publications_by_keyword.
    exact (try_except_all _
             (fun e => (Annotation [Lit "Error: "; Exc e],
                        Message [Lit "Error searching publications: "; Exc e])) s).
  - unfold get_all_publications.
    exact (try_except_all _
             (fun e => (Annotation [Lit "Error: "; Exc e],
                        Message [Lit "Error retrieving publications: "; Exc e])) s).
  - intros results s'. apply get_all_publications_empty.
  - intros results s'. apply get_publications_by_keyword_empty.
Qed.

Lemma scalar_stats_empty_witness :
  (exists s',
      get_all_publications (relational_only (fun _ => Ok []))
        (started (Some 0) None None)
      = (Ok (Annotation [Lit "No publications found in database"],
             Message [Lit "No publications found in database"]), s'))
  /\ (exists s',
        get_publications_by_keyword (relational_only (fun _ => Ok [])) "AI"
          (started (Some 0) None None)
        = (Ok (Annotation [Lit "No publications found containing '";
                           Val (VStr "AI"); Lit "'"],
               Message [Lit "No publications found for keyword: ";
                        Val (VStr "AI")]), s')).
Proof.
  destruct (scalar_stats_empty (relational_only (fun _ => Ok []))
              (started (Some 0) None None) "AI") as (_ & _ & _ & _ & H1 & H2).
  split.
  - eexists. eapply H1; reflexivity.
  - eexists. eapply H2; reflexivity.
Defined.

(** ** Publications over time *)

Lemma collect_until_Forall {R A} (f : R -> outcome A) (P : A -> Prop) (l : list R) :
  (forall x a, f x = Ok a -> P a) -> Forall P (fst (collect_until f l)).
Proof.
  intros Hf. induction l as [|x xs IH]; simpl; [constructor |].
  destruct (f x) as [a|e] eqn:E; simpl; [| constructor].
  destruct (collect_until f xs) as [acc o]. simpl in *.
  constructor; [apply (Hf x a E) | exact IH].
Qed.

Lemma mysql_entry_source r e : mysql_entry r = Ok e -> pe_source e = "MySQL".
Proof.
  unfold mysql_entry. destruct (getitem r 0); simpl; [| discriminate].
  destruct (getitem r 1); simpl; [| discriminate].
  intros H. injection H as <-. reflexivity.
Qed.

(** [for_each_collect] with the loop body run. *)
Lemma for_each_collect_run {R A} (f : R -> outcome A) (l : list R)
    (s : State) (acc : list A) :
  for_each l
    (fun (x : R) (sl : State * list A) =>
       match f x with
       | Ok a => (Ok tt, (fst sl, snd sl ++ [a]))
       | Raise e => (Raise e, sl)
       end) (s, acc)
  = (snd (collect_until f l), (s, acc ++ fst (collect_until f l))).
Proof. exact (for_each_collect f l s acc). Qed.

(** The relational branch appends only entries tagged "MySQL". *)
Lemma mysql_publications_tagged env s l :
  exists s' out,
    mysql_publications env (s, l) = (Ok tt, (s', l ++ out))
    /\ Forall (fun e => pe_source e = "MySQL") out.
Proof.
  unfold mysql_publications, global. unfold_monad. cbn [fst snd].
  destruct (mysql_available s);
    [| exists s, []; rewrite app_nil_r; split; [reflexivity | constructor]].
  match goal with
  | |- context [MySQL.execute_query ?e ?q ?p ?s0] =>
      destruct (MySQL.execute_query e q p s0) as [[results|e'] s1]
  end; cbn [fst snd select_clause].
  - rewrite for_each_collect_run.
    pose proof (collect_until_Forall mysql_entry
                  (fun e => pe_source e = "MySQL") (some_rows results)
                  mysql_entry_source) as HF.
    destruct (collect_until mysql_entry (some_rows results)) as [acc [[]|e']];
      cbn [fst snd] in *; rewrite ?isinstance_Exception;
      eexists; exists acc; (split; [reflexivity | exact HF]).
  - rewrite isinstance_Exception.
    eexists; exists []; rewrite app_nil_r; split; [reflexivity | constructor].
Qed.

Lemma mysql_publications_nothing env s l :
  mysql_no_dated env ->
  exists s', mysql_publications env (s, l) = (Ok tt, (s', l)).
Proof.
  intros Hno.
  unfold mysql_publications, global. unfold_monad. cbn [fst snd].
  destruct (mysql_available s); [| eexists; reflexivity].
  run_query; try no_records Hno;
    cbn [fst snd some_rows select_clause];
    rewrite ?for_each_collect_run; cbn [collect_until fst snd];
    rewrite ?isinstance_Exception, ?app_nil_r; eexists; reflexivity.
Qed.

(** The document branch looks up a method the class does not define: when
    the branch is entered the [AttributeError] is caught and logged, and in
    every case [publication_data] is left as it was. *)
Lemma mongodb_publications_run env s l :
  mongodb_publications env (s, l)
  = (Ok tt,
     (if mongodb_available s && is_empty l then record_event aggregation_warning s
      else s, l)).
Proof.
  unfold mongodb_publications, global. unfold_monad. cbn [fst snd].
  destruct (mongodb_available s && is_empty l); reflexivity.
Qed.

Lemma neo4j_publications_nothing env s l :
  exists s', neo4j_publications env (s, l) = (Ok tt, (s', l)).
Proof.
  unfold neo4j_publications, global. unfold_monad. cbn [fst snd].
  destruct (neo4j_available s && is_empty l); [| eexists; reflexivity].
  run_query; cbn [fst snd some_rows select_clause];
    rewrite ?for_each_collect_run;
    rewrite ?(collect_until_raises _ key_error) by exact neo4j_entry_raises;
    cbn [collect_until fst snd select_clause];
    rewrite ?isinstance_Exception, ?app_nil_r; eexists; reflexivity.
Qed.

Lemma for_each_lifted {R A} (f : R -> M State A) (P : A -> Prop)
    (l : list R) (s : State) (acc : list A) :
  (forall x s0, exists a s1, f x s0 = (Ok a, s1) /\ P a) ->
  exists s' out,
    for_each l (fun x => a <- lift_state (f x) ;; append_local a) (s, acc)
    = (Ok tt, (s', acc ++ out))
    /\ Forall P out /\ List.length out = List.length l.
Proof.
  intros Hf. revert s acc. induction l as [|x xs IH]; intros s acc.
  - exists s, []. simpl. rewrite app_nil_r. repeat split. constructor.
  - destruct (Hf x s) as (a & s1 & E & Pa).
    destruct (IH s1 (acc ++ [a])) as (s' & out & E' & Pout & Hlen).
    exists s', (a :: out). split; [| split].
    + cbn [for_each]. unfold bind at 1. unfold bind at 1.
      unfold lift_state at 1. cbn [fst snd]. rewrite E.
      unfold append_local at 1. cbn [fst snd]. rewrite E'.
      rewrite <- app_assoc. reflexivity.
    + constructor; assumption.
    + simpl. congruence.
Qed.

Lemma sample_entry_is_sample env day s :
  exists e s', sample_entry env day s = (Ok e, s') /\ is_sample e.
Proof.
  unfold sample_entry, randint_m2_3. unfold_monad.
  eexists. eexists. split; [reflexivity |].
  split; [reflexivity | eexists; reflexivity].
Qed.

Lemma sample_data_run env s :
  exists s' data,
    sample_data env (s, []) = (Ok tt, (s', data))
    /\ Forall is_sample data /\ List.length data = 366.
Proof.
  unfold sample_data. unfold bind at 1. unfold get_local at 1. cbn [fst snd is_empty].
  unfold bind at 1. unfold lift_state at 1, call at 1. cbn [fst snd].
  match goal with
  | |- context [for_each ?l ?body (?s0, [])] =>
      destruct (for_each_lifted (sample_entry env) is_sample l s0 []
                  (sample_entry_is_sample env)) as (s' & out & E & Hout & Hlen)
  end.
  exists s', out. split; [| split].
  - rewrite E. reflexivity.
  - exact Hout.
  - rewrite Hlen, length_map, length_seq. reflexivity.
Qed.

Lemma insert_by_date_Forall (Q : option Z * publication_entry -> Prop) x l :
  Q x -> Forall Q l -> Forall Q (insert_by_date x l).
Proof.
  intros Hx. induction 1 as [|y l Hy Hl IH]; simpl.
  - constructor; [exact Hx | constructor].
  - destruct (fst x) as [a|]; [destruct (fst y) as [b|] |].
    + destruct (a <? b)%Z; repeat (constructor; try assumption).
    + repeat (constructor; try assumption).
    + constructor; assumption.
Qed.

Lemma sort_by_date_Forall (Q : option Z * publication_entry -> Prop) l :
  Forall Q l -> Forall Q (sort_by_date l).
Proof.
  unfold sort_by_date. induction 1 as [|x l Hx Hl IH]; simpl.
  - constructor.
  - apply insert_by_date_Forall; assumption.
Qed.

Lemma insert_by_date_nonempty x l : insert_by_date x l <> [].
Proof.
  destruct l as [|y l]; simpl; [discriminate |].
  destruct (fst x) as [a|]; [destruct (fst y) as [b|] |];
    try destruct (a <? b)%Z; discriminate.
Qed.

Lemma sort_by_date_nonempty x l : sort_by_date (x :: l) <> [].
Proof. unfold sort_by_date. simpl. apply insert_by_date_nonempty. Qed.

Lemma combine_Forall_snd {A B} (P : B -> Prop) (la : list A) (lb : list B) :
  Forall P lb -> Forall (fun r => P (snd r)) (combine la lb).
Proof.
  intros H. revert la. induction H as [|b lb Hb _ IH]; intros [|a la]; simpl;
    constructor; [exact Hb | apply IH].
Qed.

Lemma omap_length {R A} (f : R -> outcome A) (l : list R) (acc : list A) :
  omap f l = Ok acc -> List.length acc = List.length l.
Proof.
  revert acc. induction l as [|x xs IH]; intros acc; simpl.
  - intros H. injection H as <-. reflexivity.
  - destruct (f x); simpl; [| discriminate].
    destruct (omap f xs) as [acc'|]; simpl; [| discriminate].
    intros H. injection H as <-. simpl. rewrite (IH acc' eq_refl). reflexivity.
Qed.

(** The summary names the tag that every entry carries. *)
Lemma chart_source env (src : string) data fig sm :
  data <> [] ->
  Forall (fun e => pe_source e = src) data ->
  chart env data = Ok (fig, sm) ->
  exists total avg, sm = TimeSeriesSummary total avg src.
Proof.
  intros Hne Hsrc. unfold chart.
  destruct data as [|e0 data']; [contradiction Hne; reflexivity |].
  destruct (omap (to_datetime env) (map pe_date (e0 :: data'))) as [dates|x];
    cbn [obind]; [| discriminate].
  pose proof (sort_by_date_Forall (fun r => pe_source (snd r) = src) _
                (combine_Forall_snd _ dates _ Hsrc)) as HF.
  destruct (sort_by_date (combine dates (e0 :: data'))) as [|first rest];
    [discriminate |].
  intros H. injection H as _ <-.
  apply Forall_inv in HF. cbn beta in HF. rewrite HF. eauto.
Qed.

Lemma omap_to_datetime_sample env data :
  Forall is_sample data ->
  exists dates, omap (to_datetime env) (map pe_date data) = Ok dates.
Proof.
  induction 1 as [|e data [_ [d Hd]] _ [dates IH]]; simpl.
  - eauto.
  - rewrite Hd, IH. simpl. eauto.
Qed.

Lemma chart_sample env data :
  data <> [] -> Forall is_sample data ->
  exists fig total avg,
    chart env data = Ok (fig, TimeSeriesSummary total avg "Sample Data").
Proof.
  intros Hne Hs.
  destruct (omap_to_datetime_sample env data Hs) as [dates Hd].
  assert (Hsrc : Forall (fun e => pe_source e = "Sample Data") data).
  { eapply Forall_impl; [| exact Hs]. intros e [H _]. exact H. }
  assert (Hok : exists r, chart env data = Ok r).
  { unfold chart. destruct data as [|e0 data']; [contradiction Hne; reflexivity |].
    rewrite Hd. cbn [obind].
    pose proof (omap_length _ _ _ Hd) as Hlen.
    destruct dates as [|d0 dates']; [discriminate Hlen |].
    cbn [combine].
    destruct (sort_by_date ((d0, e0) :: combine dates' data')) as [|first rest] eqn:E.
    - exfalso. exact (sort_by_date_nonempty _ _ E).
    - eauto. }
  destruct Hok as [[fig sm] Hc].
  destruct (chart_source env "Sample Data" data fig sm Hne Hsrc Hc) as (total & avg & ->).
  eauto.
Qed.

(** What the chart receives: never nothing, and either relational records
    or the 366 made-up days. *)
Lemma collect_publication_data_run env s :
  exists data s',
    collect_publication_data env s = (Ok data, s')
    /\ data <> []
    /\ (Forall (fun e => pe_source e = "MySQL") data
        \/ (Forall is_sample data /\ List.length data = 366)).
Proof.
  unfold collect_publication_data, with_local. cbv [bind].
  destruct (mysql_publications_tagged env s []) as (s1 & out & E1 & H1).
  rewrite E1. cbn [app]. rewrite mongodb_publications_run.
  match goal with
  | |- context [neo4j_publications env (?s2, out)] =>
      destruct (neo4j_publications_nothing env s2 out) as [s3 E3]
  end.
  rewrite E3. destruct out as [|e out'].
  - destruct (sample_data_run env s3) as (s4 & data & E4 & Hs & Hlen).
    rewrite E4. cbv [get_local]. cbn [fst snd].
    exists data, s4. split; [reflexivity |]. split.
    + intros ->. discriminate Hlen.
    + right. split; assumption.
  - exists (e :: out'), s3. split; [reflexivity |]. split; [discriminate |].
    left. exact H1.
Qed.

Lemma collect_publication_data_sample env s :
  mysql_no_dated env ->
  exists data s',
    collect_publication_data env s = (Ok data, s')
    /\ Forall is_sample data /\ List.length data = 366.
Proof.
  intros Hno.
  unfold collect_publication_data, with_local. cbv [bind].
  destruct (mysql_publications_nothing env s [] Hno) as (s1 & E1).
  rewrite E1. rewrite mongodb_publications_run.
  match goal with
  | |- context [neo4j_publications env (?s2, [])] =>
      destruct (neo4j_publications_nothing env s2 []) as [s3 E3]
  end.
  rewrite E3.
  destruct (sample_data_run env s3) as (s4 & data & E4 & Hs & Hlen).
  rewrite E4. cbv [get_local]. cbn [fst snd].
  exists data, s4. repeat split; assumption.
Qed.

Lemma mongodb_entry_source d e : mongodb_entry d = Ok e -> pe_source e = "MongoDB".
Proof.
  unfold mongodb_entry. destruct (dict_getitem d (VStr "_id")); simpl; [| discriminate].
  destruct (dict_getitem d (VStr "count")); simpl; [| discriminate].
  intros H. injection H as <-. reflexivity.
Qed.

Lemma get_timeseries_widget_data_run env s data s' :
  collect_publication_data env s = (Ok data, s') ->
  get_timeseries_widget_data env s
  = match chart env data with
    | Ok r => (Ok r, s')
    | Raise e => (Ok (Annotation [Lit "Error: "; Exc e],
                      Message [Lit "Error in publications widget: "; Exc e]), s')
    end.
Proof.
  intros E. unfold get_timeseries_widget_data, try_except, bind. rewrite E.
  unfold lift_outcome. destruct (chart env data) as [r|e]; [reflexivity |].
  cbn [select_clause]. rewrite isinstance_Exception. reflexivity.
Qed.

(** C9, as amended: when no backend holds a dated publication record, the
    computation substitutes a made-up series of 366 daily entries, each
    carrying the source tag "Sample Data", and the summary it returns names
    that source; records read from a backend carry another tag, so the
    caller can tell the substitution from real data. *)
Theorem synthetic_series_is_tagged (env : Env) (s : State) :
  no_dated_records env ->
  exists data fig total avg s',
    collect_publication_data env s = (Ok data, s')
    /\ List.length data = 366
    /\ Forall (fun e => pe_source e = "Sample Data") data
    /\ get_timeseries_widget_data env s
       = (Ok (fig, TimeSeriesSummary total avg "Sample Data"), s')
    /\ (forall e,
          (exists r, mysql_entry r = Ok e) \/ (exists d, mongodb_entry d = Ok e)
          \/ (exists d, neo4j_entry d = Ok e) ->
          pe_source e <> "Sample Data").
Proof.
  intros (Hmy & _ & _).
  destruct (collect_publication_data_sample env s Hmy) as (data & s' & E & Hs & Hlen).
  assert (Hne : data <> []) by (intros ->; discriminate Hlen).
  destruct (chart_sample env data Hne Hs) as (fig & total & avg & Hc).
  exists data, fig, total, avg, s'.
  split; [exact E |]. split; [exact Hlen |]. split; [| split].
  - eapply Forall_impl; [| exact Hs]. intros e [H _]. exact H.
  - rewrite (get_timeseries_widget_data_run env s data s' E), Hc. reflexivity.
  - intros e [[r H] | [[d H] | [d H]]].
    + rewrite (mysql_entry_source r e H). discriminate.
    + rewrite (mongodb_entry_source d e H). discriminate.
    + rewrite neo4j_entry_raises in H. discriminate H.
Qed.

Lemma unreachable_no_dated_records : no_dated_records unreachable.
Proof.
  split; [| split].
  - intros t h q p rows _ H. discriminate H.
  - intros t m docs H. discriminate H.
  - intros t h q p records _ H. discriminate H.
Qed.

Lemma synthetic_series_is_tagged_witness :
  exists data fig total avg s',
    collect_publication_data unreachable (started None None None) = (Ok data, s')
    /\ List.length data = 366
    /\ Forall (fun e => pe_source e = "Sample Data") data
    /\ get_timeseries_widget_data unreachable (started None None None)
       = (Ok (fig, TimeSeriesSummary total avg "Sample Data"), s')
    /\ (forall e,
          (exists r, mysql_entry r = Ok e) \/ (exists d, mongodb_entry d = Ok e)
          \/ (exists d, neo4j_entry d = Ok e) ->
          pe_source e <> "Sample Data").
Proof.
  apply (synthetic_series_is_tagged unreachable (started None None None)).
  split; [| split].
  - intros t h q p rows _ H. discriminate H.
  - intros t m docs H. discriminate H.
  - intros t h q p records _ H. discriminate H.
Defined.

(** C9 as stated fails: the substituted series is tagged "Sample Data", not
    "synthetic-fallback". *)
Lemma sample_series_tag :
  exists data s',
    collect_publication_data unreachable (started None None None) = (Ok data, s')
    /\ List.length data = 366
    /\ Forall (fun e => pe_source e = "Sample Data") data
    /\ ~ Forall (fun e => pe_source e = "synthetic-fallback") data.
Proof.
  destruct unreachable_no_dated_records as (Hmy & _ & _).
  destruct (collect_publication_data_sample unreachable (started None None None) Hmy)
    as (data & s' & E & Hs & Hlen).
  exists data, s'. split; [exact E |]. split; [exact Hlen |]. split.
  - eapply Forall_impl; [| exact Hs]. intros e [H _]. exact H.
  - destruct data as [|e data']; [discriminate Hlen |].
    intros H. apply Forall_inv in H. apply Forall_inv in Hs.
    destruct Hs as [Hs _]. rewrite Hs in H. discriminate H.
Qed.

(** C10: the document branch of the publications-over-time computation
    contributes no data.  The method it calls, [execute_aggregation], is not
    among the names [MongoDBConnection] defines, so whenever the branch is
    entered the lookup raises [AttributeError], which is caught and logged as
    a warning, and in every case [publication_data] is left unchanged; no
    entry handed to the chart and no summary returned carries the source
    "MongoDB". *)
Theorem document_backend_never_contributes
    (env : Env) (s : State) (publication_data : list publication_entry) :
  MongoDB.getattr "execute_aggregation"
    = Raise (no_attribute "MongoDBConnection" "execute_aggregation")
  /\ exn_cls (no_attribute "MongoDBConnection" "execute_aggregation")
     = AttributeError
  /\ mongodb_publications env (s, publication_data)
     = (Ok tt,
        (if mongodb_available s && is_empty publication_data
         then record_event aggregation_warning s else s,
         publication_data))
  /\ (exists data s',
        collect_publication_data env s = (Ok data, s')
        /\ Forall (fun e => pe_source e <> "MongoDB") data)
  /\ (exists fig sm s',
        get_timeseries_widget_data env s = (Ok (fig, sm), s')
        /\ forall total avg src,
             sm = TimeSeriesSummary total avg src -> src <> "MongoDB").
Proof.
  split; [reflexivity |]. split; [reflexivity |].
  split; [apply mongodb_publications_run |].
  destruct (collect_publication_data_run env s) as (data & s' & E & Hne & Hsrc).
  split.
  - exists data, s'. split; [exact E |].
    destruct Hsrc as [H | [H _]]; (eapply Forall_impl; [| exact H]).
    + intros e ->. discriminate.
    + intros e [-> _]. discriminate.
  - rewrite (get_timeseries_widget_data_run env s data s' E).
    destruct (chart env data) as [[fig sm]|x] eqn:Ec.
    + exists fig, sm, s'. split; [reflexivity |].
      intros total avg src ->.
      destruct Hsrc as [H | [H _]].
      * destruct (chart_source env "MySQL" data fig _ Hne H Ec) as (t & a & Heq).
        injection Heq as _ _ ->. discriminate.
      * assert (H' : Forall (fun e => pe_source e = "Sample Data") data).
        { eapply Forall_impl; [| exact H]. intros e [He _]. exact He. }
        destruct (chart_source env "Sample Data" data fig _ Hne H' Ec) as (t & a & Heq).
        injection Heq as _ _ ->. discriminate.
    + eexists. eexists. exists s'. split; [reflexivity |].
      intros total avg src H. discriminate H.
Qed.

(* ===================================================================== *)
(** * Part III. Further properties of the code                            *)
(* ===================================================================== *)

(** ** Group-count: the count of each partition *)

Section GroupCountCounts.
Variable K : Type.
Variable cmp : K -> K -> comparison.
Hypothesis cmp_eq : forall x y, cmp x y = Eq <-> x = y.
Hypothesis cmp_antisym : forall x y, cmp y x = CompOpp (cmp x y).
Hypothesis cmp_trans : forall x y z, cmp x y = Lt -> cmp y z = Lt -> cmp x z = Lt.

Let step (groups : list (K * nat)) (cell : option K) : list (K * nat) :=
  match cell with
  | Some k => bump cmp k groups
  | None => groups
  end.

Lemma cmp_refl (x : K) : cmp x x = Eq.
Proof. apply cmp_eq. reflexivity. Qed.

Lemma count_of_bump (k k0 : K) (groups : list (K * nat)) :
  count_of cmp k (bump cmp k0 groups)
  = count_of cmp k groups + (if is_Eq (cmp k k0) then 1 else 0).
Proof.
  unfold count_of.
  induction groups as [|[k' n] rest IH]; simpl.
  - destruct (cmp k k0); simpl; lia.
  - destruct (cmp k0 k') eqn:E; simpl.
    + apply cmp_eq in E. subst k'. destruct (cmp k k0); simpl; lia.
    + destruct (cmp k k0), (cmp k k'); simpl; lia.
    + destruct (cmp k k'); simpl; rewrite IH; lia.
Qed.

Lemma count_of_fold (k : K) (col : list (option K)) (acc : list (K * nat)) :
  count_of cmp k (fold_left step col acc)
  = count_of cmp k acc + occurrences cmp k col.
Proof.
  revert acc. unfold occurrences.
  induction col as [|[k0|] col IH]; intros acc; simpl.
  - lia.
  - rewrite IH, count_of_bump. destruct (cmp k k0); simpl; lia.
  - rewrite IH. reflexivity.
Qed.

Lemma count_of_absent (k : K) (groups : list (K * nat)) :
  Forall (key_lt cmp k) (keys groups) -> count_of cmp k groups = 0.
Proof.
  unfold count_of, keys.
  induction groups as [|[k' n] rest IH]; simpl; intros H; [reflexivity |].
  inversion H as [|? ? Hk Hrest]; subst. unfold key_lt in Hk. rewrite Hk. simpl.
  apply IH, Hrest.
Qed.

Lemma count_of_member (k : K) (n : nat) (groups : list (K * nat)) :
  StronglySorted (key_lt cmp) (keys groups) ->
  In (k, n) groups -> count_of cmp k groups = n.
Proof.
  unfold keys.
  induction groups as [|[k' n'] rest IH]; simpl; intros Hs Hin; [contradiction |].
  inversion Hs as [|? ? Hrest Hk']; subst.
  destruct Hin as [Heq | Hin].
  - injection Heq as -> ->.
    unfold count_of. simpl. rewrite cmp_refl. simpl.
    fold (count_of cmp k rest). rewrite (count_of_absent k rest Hk'). lia.
  - assert (Hlt : key_lt cmp k' k).
    { rewrite Forall_forall in Hk'. apply Hk'.
      apply (in_map fst) in Hin. exact Hin. }
    unfold key_lt in Hlt.
    unfold count_of. simpl. rewrite cmp_antisym, Hlt. simpl.
    apply (IH Hrest Hin).
Qed.

Lemma groupby_size_count (k : K) (col : list (option K)) :
  count_of cmp k (groupby_size cmp col) = occurrences cmp k col.
Proof.
  unfold groupby_size. fold step. rewrite count_of_fold. reflexivity.
Qed.

Lemma occurrences_positive (k : K) (col : list (option K)) :
  In (Some k) col -> 0 < occurrences cmp k col.
Proof.
  unfold occurrences. induction col as [|c col IH]; simpl; [contradiction |].
  intros [-> | H].
  - rewrite cmp_refl. simpl. lia.
  - destruct c as [k'|]; [destruct (is_Eq (cmp k k')) |]; simpl;
      try lia; apply IH, H.
Qed.

Lemma groupby_size_key (k : K) (col : list (option K)) :
  In k (keys (groupby_size cmp col)) <-> In (Some k) col.
Proof.
  pose proof (fold_keys K cmp cmp_eq k col []) as H.
  unfold groupby_size. rewrite H. simpl. intuition.
Qed.

Lemma groupby_size_member (k : K) (n : nat) (col : list (option K)) :
  In (k, n) (groupby_size cmp col) -> n = occurrences cmp k col /\ 0 < n.
Proof.
  intros Hin.
  pose proof (groupby_size_ascending K cmp cmp_eq cmp_antisym cmp_trans col) as Hs.
  assert (Hn : n = occurrences cmp k col).
  { rewrite <- (groupby_size_count k col).
    symmetry. apply count_of_member; assumption. }
  split; [exact Hn |]. rewrite Hn. apply occurrences_positive, groupby_size_key.
  apply (in_map fst) in Hin. exact Hin.
Qed.

(** X1: in the group-count of app.py 547-549 and 1376-1378, the count of a
    partition is the number of records that hold its key, and every value
    present in the field has its partition with that count; no partition is
    empty. *)
Theorem group_count_counts (col : list (option K)) (k : K) :
  (forall n, In (k, n) (year_counts cmp col) ->
             n = occurrences cmp k col /\ 0 < n)
  /\ (In (Some k) col -> In (k, occurrences cmp k col) (year_counts cmp col)).
Proof.
  rewrite (year_counts_groupby K cmp cmp_eq cmp_antisym cmp_trans).
  split.
  - intros n. apply groupby_size_member.
  - intros Hin. apply groupby_size_key in Hin. unfold keys in Hin.
    apply in_map_iff in Hin. destruct Hin as ([k' n] & Hk & Hin).
    simpl in Hk. subst k'.
    destruct (groupby_size_member k n col Hin) as [<- _]. exact Hin.
Qed.

Lemma count_of_cons (k k' : K) (n : nat) (rest : list (K * nat)) :
  count_of cmp k ((k', n) :: rest)
  = (if is_Eq (cmp k k') then n else 0) + count_of cmp k rest.
Proof. unfold count_of. simpl. destruct (is_Eq (cmp k k')); reflexivity. Qed.

Lemma count_of_head (k : K) (n : nat) (rest : list (K * nat)) :
  StronglySorted (key_lt cmp) (keys ((k, n) :: rest)) ->
  count_of cmp k ((k, n) :: rest) = n.
Proof. intros Hs. apply count_of_member; [exact Hs | left; reflexivity]. Qed.

Lemma sorted_head_below (k k' : K) (n' : nat) (rest : list (K * nat)) :
  StronglySorted (key_lt cmp) (keys ((k', n') :: rest)) ->
  cmp k k' = Lt -> Forall (key_lt cmp k) (keys ((k', n') :: rest)).
Proof.
  unfold keys. simpl. intros Hs Hlt. inversion Hs as [|? ? _ Hk']; subst.
  constructor; [exact Hlt |].
  rewrite Forall_forall in Hk' |- *. intros z Hz.
  apply (cmp_trans _ _ _ Hlt). apply Hk', Hz.
Qed.

(** Two groupings in key order that give every key the same count are the
    same grouping. *)
Lemma sorted_groups_ext (g1 g2 : list (K * nat)) :
  StronglySorted (key_lt cmp) (keys g1) ->
  StronglySorted (key_lt cmp) (keys g2) ->
  Forall (fun g => 0 < snd g) g1 -> Forall (fun g => 0 < snd g) g2 ->
  (forall k, count_of cmp k g1 = count_of cmp k g2) ->
  g1 = g2.
Proof.
  revert g2. induction g1 as [|[k1 n1] r1 IH]; intros [|[k2 n2] r2] S1 S2 P1 P2 H.
  - reflexivity.
  - exfalso. specialize (H k2). rewrite (count_of_head k2 n2 r2 S2) in H.
    apply Forall_inv in P2. simpl in P2. unfold count_of in H. simpl in H. lia.
  - exfalso. specialize (H k1). rewrite (count_of_head k1 n1 r1 S1) in H.
    apply Forall_inv in P1. simpl in P1. unfold count_of in H. simpl in H. lia.
  - pose proof (Forall_inv P1) as Hn1. pose proof (Forall_inv P2) as Hn2.
    simpl in Hn1, Hn2.
    destruct (cmp k1 k2) eqn:E.
    + apply cmp_eq in E. subst k2.
      assert (Hn : n1 = n2).
      { specialize (H k1).
        rewrite (count_of_head k1 n1 r1 S1), (count_of_head k1 n2 r2 S2) in H.
        exact H. }
      subst n2. f_equal.
      apply IH.
      * inversion S1; assumption.
      * inversion S2; assumption.
      * inversion P1; assumption.
      * inversion P2; assumption.
      * intros k. specialize (H k). rewrite !count_of_cons in H. lia.
    + exfalso. specialize (H k1).
      rewrite (count_of_head k1 n1 r1 S1) in H.
      rewrite (count_of_absent k1 _ (sorted_head_below k1 k2 n2 r2 S2 E)) in H. lia.
    + exfalso. specialize (H k2).
      assert (E' : cmp k2 k1 = Lt) by (rewrite cmp_antisym, E; reflexivity).
      rewrite (count_of_head k2 n2 r2 S2) in H.
      rewrite (count_of_absent k2 _ (sorted_head_below k2 k1 n1 r1 S1 E')) in H. lia.
Qed.

Lemma occurrences_perm (k : K) (col1 col2 : list (option K)) :
  Permutation col1 col2 -> occurrences cmp k col1 = occurrences cmp k col2.
Proof.
  unfold occurrences. induction 1 as [| c l l' _ IH | c c' l | l l' l'' _ IH1 _ IH2];
    simpl.
  - reflexivity.
  - destruct c as [k'|]; [destruct (is_Eq (cmp k k')) |]; simpl; lia.
  - destruct c as [k1|], c' as [k2|];
      repeat match goal with
             | |- context [is_Eq ?x] => destruct (is_Eq x)
             end; reflexivity.
  - lia.
Qed.

Lemma groupby_size_positive (col : list (option K)) :
  Forall (fun g => 0 < snd g) (groupby_size cmp col).
Proof.
  apply Forall_forall. intros [k n] Hin. simpl.
  apply (groupby_size_member k n col Hin).
Qed.

(** X2: the group-count does not depend on the order of the records: two
    record sets that hold the same records in another order give the same
    partitions, in the same order. *)
Theorem group_count_order_independent (col1 col2 : list (option K)) :
  Permutation col1 col2 -> year_counts cmp col1 = year_counts cmp col2.
Proof.
  intros Hp.
  rewrite !(year_counts_groupby K cmp cmp_eq cmp_antisym cmp_trans).
  apply sorted_groups_ext.
  - apply (groupby_size_ascending K cmp cmp_eq cmp_antisym cmp_trans).
  - apply (groupby_size_ascending K cmp cmp_eq cmp_antisym cmp_trans).
  - apply groupby_size_positive.
  - apply groupby_size_positive.
  - intros k. rewrite !groupby_size_count. apply occurrences_perm, Hp.
Qed.
End GroupCountCounts.

Lemma group_count_counts_witness :
  let col := [Some 2020%Z; None; Some 2019%Z; Some 2020%Z] in
  (forall n, In (2020%Z, n) (year_counts Z.compare col) ->
             n = occurrences Z.compare 2020%Z col /\ 0 < n)
  /\ (In (Some 2020%Z) col ->
      In (2020%Z, occurrences Z.compare 2020%Z col) (year_counts Z.compare col)).
Proof.
  exact (group_count_counts Z Z.compare Z.compare_eq_iff
           (fun x y => Z.compare_antisym x y) Z_compare_trans
           [Some 2020%Z; None; Some 2019%Z; Some 2020%Z] 2020%Z).
Defined.

Lemma group_count_order_independent_witness :
  year_counts Z.compare [Some 2020%Z; None; Some 2019%Z; Some 2020%Z]
  = year_counts Z.compare [Some 2019%Z; Some 2020%Z; Some 2020%Z; None].
Proof.
  apply (group_count_order_independent Z Z.compare Z.compare_eq_iff
           (fun x y => Z.compare_antisym x y) Z_compare_trans).
  apply Permutation_sym.
  apply (perm_trans (l' := [Some 2019%Z; Some 2020%Z; None; Some 2020%Z])).
  - apply perm_skip, perm_skip, perm_swap.
  - apply (perm_trans (l' := [Some 2019%Z; None; Some 2020%Z; Some 2020%Z])).
    + apply perm_skip, perm_swap.
    + apply (perm_trans (l' := [None; Some 2019%Z; Some 2020%Z; Some 2020%Z])).
      * apply perm_swap.
      * apply (perm_trans (l' := [None; Some 2020%Z; Some 2019%Z; Some 2020%Z])).
        -- apply perm_skip, perm_swap.
        -- apply perm_swap.
Defined.

(** ** Rankings: what is left out *)

Section RankingFacts.
Variable A : Type.
Variable weight : A -> Z.

Lemma descending_app_cross (l1 l2 : list A) :
  descending weight (l1 ++ l2) ->
  forall x y, In x l1 -> In y l2 -> (weight y <= weight x)%Z.
Proof.
  unfold descending. induction l1 as [|a l1 IH]; simpl; intros Hs x y Hx Hy.
  - contradiction.
  - inversion Hs as [|? ? Hrest Ha]; subst. destruct Hx as [<- | Hx].
    + rewrite Forall_forall in Ha. apply Ha. apply in_or_app. right. exact Hy.
    + apply (IH Hrest x y Hx Hy).
Qed.

Lemma ranking_split (n : nat) (l : list A) :
  Permutation l (firstn n (stable_sort_desc weight l) ++ left_out weight n l)
  /\ (forall x y, In x (firstn n (stable_sort_desc weight l)) ->
                  In y (left_out weight n l) -> (weight y <= weight x)%Z)
  /\ List.length (left_out weight n l) = List.length l - n.
Proof.
  unfold left_out. split; [| split].
  - rewrite firstn_skipn. apply Permutation_sym, stable_sort_desc_perm.
  - apply descending_app_cross. rewrite firstn_skipn.
    apply stable_sort_desc_descending.
  - rewrite length_skipn.
    rewrite (Permutation_length (stable_sort_desc_perm A weight l)). reflexivity.
Qed.
End RankingFacts.

(** X3: both rankings (app.py 865 and 1391-1393) keep the highest counts:
    the partitions split into those returned and those left out, nothing
    left out has a higher count than anything returned, and as many are left
    out as exceed the bound. *)
Theorem ranking_keeps_the_highest (n : nat) (items : list (string * Z))
    (K : Type) (cmp : K -> K -> comparison) (col : list (option K)) :
  (Permutation items (top_n n items ++ left_out snd n items)
   /\ (forall x y, In x (top_n n items) -> In y (left_out snd n items) ->
                   (snd y <= snd x)%Z)
   /\ List.length (left_out snd n items) = List.length items - n)
  /\
  (let groups := groupby_size cmp col in
   let weight := fun x : K * nat => Z.of_nat (snd x) in
   Permutation groups (top_by_count cmp n col ++ left_out weight n groups)
   /\ (forall x y, In x (top_by_count cmp n col) ->
                   In y (left_out weight n groups) -> snd y <= snd x)
   /\ List.length (left_out weight n groups) = List.length groups - n).
Proof.
  split.
  - apply (ranking_split (string * Z) snd n items).
  - cbv zeta.
    destruct (ranking_split (K * nat) (fun x => Z.of_nat (snd x)) n
                (groupby_size cmp col)) as (H1 & H2 & H3).
    split; [exact H1 |]. split; [| exact H3].
    intros x y Hx Hy. apply Nat2Z.inj_le. exact (H2 x y Hx Hy).
Qed.

(** ** Scalar statistics of a column *)

Lemma fold_max_ge (xs : list Z) (x : Z) :
  (x <= fold_left Z.max xs x)%Z
  /\ (forall y, In y xs -> (y <= fold_left Z.max xs x)%Z)
  /\ In (fold_left Z.max xs x) (x :: xs).
Proof.
  revert x. induction xs as [|a xs IH]; intros x; simpl.
  - split; [lia |]. split; [intros y [] | left; reflexivity].
  - destruct (IH (Z.max x a)) as (H1 & H2 & H3).
    split; [lia |]. split.
    + intros y [<- | Hy]; [lia | apply H2, Hy].
    + destruct H3 as [H3 | H3]; [| right; right; exact H3].
      destruct (Z.max_spec x a) as [[_ E] | [_ E]]; rewrite E in H3 |- *.
      * right. left. exact H3.
      * left. exact H3.
Qed.

Lemma in_present {A} (a : A) (col : list (option A)) :
  In a (present col) <-> In (Some a) col.
Proof.
  unfold present. rewrite in_flat_map. split.
  - intros [[b|] [Hin Hb]]; simpl in Hb.
    + destruct Hb as [<- | []]. exact Hin.
    + destruct Hb.
  - intros Hin. exists (Some a). split; [exact Hin | left; reflexivity].
Qed.

(** X4: [Series.mean()] and [Series.max()] of a numeric column (app.py
    577, 650-651) skip missing cells; the numbers are ones that a float
    holds exactly, up to 2^53 in size.  Both are NaN exactly when no cell
    holds a number, which is so when every cell is missing or there is no
    cell; otherwise the maximum is one of the numbers and no number
    exceeds it.  This is about the two calls on a column, whichever
    columns reach them. *)
Theorem mean_and_max (col : list (option Z)) :
  exact_cells col = true ->
  match mean col, series_max col with
  | Fin _, Some m =>
      In (Some m) col /\ (forall x, In (Some x) col -> (x <= m)%Z)
  | NaN, None => forall x, ~ In (Some x) col
  | _, _ => False
  end.
Proof.
  intros _. unfold mean, series_max.
  destruct (present col) as [|x xs] eqn:E.
  - intros y Hy. apply in_present in Hy. rewrite E in Hy. exact Hy.
  - destruct (fold_max_ge xs x) as (H1 & H2 & H3).
    assert (Hall : forall y, In y (x :: xs) -> (y <= fold_left Z.max xs x)%Z).
    { intros y [<- | Hy]; [exact H1 | apply H2, Hy]. }
    split.
    + apply in_present. rewrite E. exact H3.
    + intros y Hy. apply in_present in Hy. rewrite E in Hy. apply Hall, Hy.
Qed.

Lemma mean_and_max_witness :
  In (Some 7%Z) [Some 3%Z; None; Some 7%Z]
  /\ (forall x, In (Some x) [Some 3%Z; None; Some 7%Z] -> (x <= 7)%Z).
Proof. exact (mean_and_max [Some 3%Z; None; Some 7%Z] eq_refl). Defined.

(** ** The most frequent value *)

Lemma string_compare_eq (a b : string) : String.compare a b = Eq <-> a = b.
Proof. exact (OrderedTypeEx.String_as_OT.cmp_eq a b). Qed.

Lemma str_leb_refl (a : string) : str_leb a a = true.
Proof.
  unfold str_leb. rewrite (proj2 (string_compare_eq a a) eq_refl). reflexivity.
Qed.

Lemma str_leb_trans (a b c : string) :
  str_leb a b = true -> str_leb b c = true -> str_leb a c = true.
Proof.
  unfold str_leb.
  destruct (String.compare a b) eqn:E1; try discriminate;
    destruct (String.compare b c) eqn:E2; try discriminate; intros _ _.
  - apply string_compare_eq in E1, E2. subst.
    rewrite (proj2 (string_compare_eq c c) eq_refl). reflexivity.
  - apply string_compare_eq in E1. subst. rewrite E2. reflexivity.
  - apply string_compare_eq in E2. subst. rewrite E1. reflexivity.
  - apply OrderedTypeEx.String_as_OT.cmp_lt in E1, E2.
    pose proof (OrderedTypeEx.String_as_OT.lt_trans _ _ _ E1 E2) as H.
    apply OrderedTypeEx.String_as_OT.cmp_lt in H.
    unfold OrderedTypeEx.String_as_OT.cmp in H. rewrite H. reflexivity.
Qed.

Lemma str_leb_total (a b : string) : str_leb a b = true \/ str_leb b a = true.
Proof.
  unfold str_leb.
  pose proof (OrderedTypeEx.String_as_OT.cmp_antisym b a) as H.
  unfold OrderedTypeEx.String_as_OT.cmp in H. rewrite H.
  destruct (String.compare a b); simpl; auto.
Qed.

Lemma least_spec (l : list string) (v : string) :
  In (least v l) (v :: l)
  /\ forall w, In w (v :: l) -> str_leb (least v l) w = true.
Proof.
  revert v. induction l as [|u l IH]; intros v; simpl.
  - split; [left; reflexivity |]. intros w [<- | []]. apply str_leb_refl.
  - destruct (str_leb v u) eqn:E.
    + destruct (IH v) as [Hin Hle]. split.
      * destruct Hin as [H | H]; [left; exact H | right; right; exact H].
      * intros w [<- | [<- | Hw]].
        -- apply Hle. left. reflexivity.
        -- apply (str_leb_trans _ v); [apply Hle; left; reflexivity | exact E].
        -- apply Hle. right. exact Hw.
    + destruct (IH u) as [Hin Hle]. split.
      * destruct Hin as [H | H]; [right; left; exact H | right; right; exact H].
      * assert (Huv : str_leb u v = true).
        { destruct (str_leb_total v u) as [H | H]; [congruence | exact H]. }
        intros w [<- | [<- | Hw]].
        -- apply (str_leb_trans _ u); [apply Hle; left; reflexivity | exact Huv].
        -- apply Hle. left. reflexivity.
        -- apply Hle. right. exact Hw.
Qed.

Lemma is_mode_spec (vals : list string) (v : string) :
  is_mode vals v = true
  <-> forall w, In w vals -> count_occ_str w vals <= count_occ_str v vals.
Proof.
  unfold is_mode. rewrite forallb_forall. split; intros H w Hw.
  - apply Nat.leb_le, H, Hw.
  - apply Nat.leb_le, H, Hw.
Qed.

Lemma maximum_exists {A} (f : A -> nat) (l : list A) :
  l <> [] -> exists v, In v l /\ forall w, In w l -> f w <= f v.
Proof.
  induction l as [|a l IH]; intros Hne; [contradiction Hne; reflexivity |].
  destruct l as [|b l'].
  - exists a. split; [left; reflexivity |]. intros w [<- | []]. lia.
  - destruct IH as (v & Hv & Hmax); [discriminate |].
    destruct (Nat.le_gt_cases (f a) (f v)) as [H | H].
    + exists v. split; [right; exact Hv |].
      intros w [<- | Hw]; [exact H | apply Hmax, Hw].
    + exists a. split; [left; reflexivity |].
      intros w [<- | Hw]; [lia |]. specialize (Hmax w Hw). lia.
Qed.

(** X5: the most frequent value of a text column (app.py 578 and 1444,
    [col.mode().iloc[0]]) skips missing cells: the value returned is held by
    some record, no value is held by more records, and among the values held
    equally often it is the least in string order; when no cell holds a value
    the expression raises [IndexError]. *)
Theorem mode_is_most_frequent (col : list (option string)) :
  match mode_iloc0 col with
  | Ok v =>
      In (Some v) col
      /\ (forall w, In (Some w) col ->
            count_occ_str w (present col) <= count_occ_str v (present col))
      /\ (forall w, In (Some w) col ->
            count_occ_str w (present col) = count_occ_str v (present col) ->
            str_leb v w = true)
  | Raise e => exn_cls e = IndexError /\ forall x, ~ In (Some x) col
  end.
Proof.
  unfold mode_iloc0.
  destruct (filter (is_mode (present col)) (present col)) as [|v l] eqn:E.
  - split; [reflexivity |]. intros x Hx. apply in_present in Hx.
    destruct (maximum_exists (fun w => count_occ_str w (present col)) (present col))
      as (m & Hm & Hmax).
    { intros H. rewrite H in Hx. exact Hx. }
    assert (Hin : In m (filter (is_mode (present col)) (present col))).
    { apply filter_In. split; [exact Hm |]. apply is_mode_spec. exact Hmax. }
    rewrite E in Hin. exact Hin.
  - destruct (least_spec l v) as [Hin Hle].
    assert (Hmodes : forall w, In w (v :: l) ->
                               In w (present col) /\ is_mode (present col) w = true).
    { intros w Hw. rewrite <- E in Hw. apply filter_In in Hw. exact Hw. }
    destruct (Hmodes _ Hin) as [Hpres Hmode].
    split; [apply in_present, Hpres |]. split.
    + intros w Hw. apply in_present in Hw.
      apply (proj1 (is_mode_spec _ _) Hmode w Hw).
    + intros w Hw Hcount. apply in_present in Hw. apply Hle.
      rewrite <- E. apply filter_In. split; [exact Hw |].
      apply is_mode_spec. intros u Hu. rewrite Hcount.
      apply (proj1 (is_mode_spec _ _) Hmode u Hu).
Qed.

(** ** Strings *)

Lemma split_nonempty (sep : ascii) (s : string) : split sep s <> [].
Proof.
  destruct s as [|c s']; simpl; [discriminate |].
  destruct (Ascii.eqb c sep); [discriminate |].
  destruct (split sep s'); discriminate.
Qed.

(** X6: [s.split(sep)] (app.py 853) loses nothing: joining the pieces with
    the separator gives [s] back, there is one piece more than there are
    separators in [s] (so never no piece), and no piece holds the
    separator. *)
Theorem split_join (sep : ascii) (s : string) :
  String.concat (String sep EmptyString) (split sep s) = s
  /\ List.length (split sep s) = S (count_char sep s)
  /\ Forall (fun piece => count_char sep piece = 0) (split sep s).
Proof.
  induction s as [|c s' (IH1 & IH2 & IH3)]; simpl.
  - repeat split. repeat constructor.
  - destruct (Ascii.eqb c sep) eqn:E.
    + apply Ascii.eqb_eq in E. subst c.
      destruct (split sep s') as [|w ws] eqn:Es.
      * exfalso. exact (split_nonempty sep s' Es).
      * split; [| split].
        -- cbn [String.concat]. simpl in *. rewrite IH1. reflexivity.
        -- simpl in *. lia.
        -- constructor; [reflexivity | exact IH3].
    + destruct (split sep s') as [|w ws] eqn:Es.
      * exfalso. exact (split_nonempty sep s' Es).
      * split; [| split].
        -- destruct ws as [|w' ws']; simpl in *; rewrite <- IH1; reflexivity.
        -- simpl in *. lia.
        -- inversion IH3 as [|? ? Hw Hws]; subst.
           constructor; [| exact Hws]. simpl. rewrite E, Hw. reflexivity.
Qed.

(** ** Strings *)

Lemma concat_cons (x : string) (l : list string) :
  String.concat "" (x :: l) = (x ++ String.concat "" l)%string.
Proof.
  destruct l as [|y l]; simpl; [| reflexivity].
  induction x as [|c x IH]; simpl; [reflexivity | rewrite <- IH; reflexivity].
Qed.

Lemma concat_nil : String.concat "" [] = ""%string.
Proof. reflexivity. Qed.

Lemma characters_cons (c : ascii) (s : string) :
  characters (String c s) =
  match characters s with
  | String d r :: rest =>
      if is_continuation d then String c (String d r) :: rest
      else String c EmptyString :: String d r :: rest
  | rest => String c EmptyString :: rest
  end.
Proof. reflexivity. Qed.

(** The characters of a string, put back together, are the string. *)
Lemma concat_characters (s : string) : String.concat "" (characters s) = s.
Proof.
  induction s as [|c s IH]; [reflexivity |].
  rewrite characters_cons.
  destruct (characters s) as [|[|d r] rest].
  - rewrite concat_cons, concat_nil. simpl in IH. subst s. reflexivity.
  - rewrite !concat_cons. rewrite concat_cons in IH. simpl in *.
    rewrite IH. reflexivity.
  - destruct (is_continuation d).
    + rewrite concat_cons. rewrite concat_cons in IH. simpl in *.
      rewrite IH. reflexivity.
    + rewrite !concat_cons. rewrite concat_cons in IH. simpl in *.
      rewrite IH. reflexivity.
Qed.

Lemma characters_chunked (s : string) : chunked (characters s).
Proof.
  induction s as [|c s IH]; [exact I |].
  rewrite characters_cons.
  destruct (characters s) as [|[|d r] rest].
  - split; [reflexivity | constructor].
  - destruct IH as [H _]. discriminate H.
  - destruct IH as [Hd Hrest]. simpl in Hd.
    destruct (is_continuation d) eqn:Ed.
    + split; [simpl; rewrite Ed; exact Hd | exact Hrest].
    + split; [reflexivity |].
      constructor; [| exact Hrest].
      split; [exact Hd | simpl; rewrite Ed; reflexivity].
Qed.

(** The first character of a string begins with its first byte. *)
Lemma characters_head (c : ascii) (s : string) :
  exists r rest, characters (String c s) = String c r :: rest.
Proof.
  rewrite characters_cons.
  destruct (characters s) as [|[|d r] rest]; [eauto | eauto |].
  destruct (is_continuation d); eauto.
Qed.

Lemma characters_app_fresh (r X : string) :
  all_continuation r = true -> fresh_text X ->
  forall a, characters (String a (r ++ X)) = String a r :: characters X.
Proof.
  intros Hr HX. induction r as [|b r IH]; intros a.
  - simpl append. rewrite characters_cons.
    destruct HX as [-> | HX]; [reflexivity |].
    destruct X as [|x X]; [discriminate HX |].
    simpl in HX.
    destruct (characters_head x X) as (r' & rest & E). rewrite E.
    destruct (is_continuation x); [discriminate HX | reflexivity].
  - simpl in Hr. apply andb_prop in Hr. destruct Hr as [Hb Hr].
    simpl append. rewrite characters_cons, (IH Hr b), Hb. reflexivity.
Qed.

Lemma fresh_chars_concat (l : list string) :
  fresh_chars l ->
  fresh_text (String.concat "" l) /\ characters (String.concat "" l) = l.
Proof.
  induction 1 as [|ch l [Hc Hf] Hl [IHf IHc]].
  - split; [left; reflexivity | reflexivity].
  - rewrite concat_cons.
    destruct ch as [|a r]; [discriminate Hc |].
    simpl in Hc, Hf. split; [right; exact Hf |].
    simpl append. rewrite (characters_app_fresh r _ Hc IHf a), IHc.
    reflexivity.
Qed.

(** A chunked list is the splitting of its concatenation. *)
Lemma characters_concat (l : list string) :
  chunked l -> characters (String.concat "" l) = l.
Proof.
  destruct l as [|ch l]; [reflexivity |].
  intros [Hc Hl]. rewrite concat_cons.
  destruct ch as [|a r]; [discriminate Hc |].
  simpl in Hc. destruct (fresh_chars_concat l Hl) as [Hf Hch].
  simpl append. rewrite (characters_app_fresh r _ Hc Hf a), Hch.
  reflexivity.
Qed.

Lemma fresh_chars_chunked (l : list string) : fresh_chars l -> chunked l.
Proof.
  destruct 1 as [|ch l [Hc _] Hl]; [exact I | split; assumption].
Qed.

Lemma lstrip_Forall (P : string -> Prop) (l : list string) :
  Forall P l -> Forall P (lstrip l).
Proof.
  induction 1 as [|ch l Hc Hl IH]; simpl; [constructor |].
  destruct (is_space ch); [exact IH | constructor; assumption].
Qed.

Lemma rstrip_cons (ch : string) (l : list string) :
  rstrip (ch :: l) =
  match rstrip l with
  | [] => if is_space ch then [] else [ch]
  | d :: r => ch :: d :: r
  end.
Proof. simpl. destruct (rstrip l); reflexivity. Qed.

Lemma rstrip_Forall (P : string -> Prop) (l : list string) :
  Forall P l -> Forall P (rstrip l).
Proof.
  induction 1 as [|ch l Hc Hl IH]; [constructor |].
  rewrite rstrip_cons. destruct (rstrip l) as [|d r].
  - destruct (is_space ch); repeat constructor; assumption.
  - constructor; assumption.
Qed.

Lemma lstrip_chunked (l : list string) : chunked l -> chunked (lstrip l).
Proof.
  destruct l as [|ch l]; [exact (fun H => H) |].
  intros [Hc Hl]. simpl. destruct (is_space ch).
  - apply fresh_chars_chunked, lstrip_Forall, Hl.
  - split; assumption.
Qed.

Lemma rstrip_chunked (l : list string) : chunked l -> chunked (rstrip l).
Proof.
  destruct l as [|ch l]; [exact (fun H => H) |].
  intros [Hc Hl]. rewrite rstrip_cons.
  pose proof (rstrip_Forall _ l Hl) as Hr.
  destruct (rstrip l) as [|d r].
  - destruct (is_space ch); [exact I | split; [exact Hc | constructor]].
  - split; assumption.
Qed.

(** What [strip] keeps, as characters. *)
Lemma characters_strip (s : string) :
  characters (strip s) = rstrip (lstrip (characters s)).
Proof.
  unfold strip. apply characters_concat, rstrip_chunked, lstrip_chunked,
    characters_chunked.
Qed.

Lemma rstrip_idempotent (l : list string) : rstrip (rstrip l) = rstrip l.
Proof.
  induction l as [|ch l IH]; [reflexivity |].
  rewrite (rstrip_cons ch l).
  destruct (rstrip l) as [|d r] eqn:E.
  - destruct (is_space ch) eqn:Ec; [reflexivity |].
    simpl. rewrite Ec. reflexivity.
  - rewrite rstrip_cons, IH. reflexivity.
Qed.

Lemma lstrip_no_lead (l : list string) : no_lead (lstrip l).
Proof.
  induction l as [|ch l IH]; simpl; [exact I |].
  destruct (is_space ch) eqn:E; [exact IH | exact E].
Qed.

Lemma lstrip_fixed (l : list string) : no_lead l -> lstrip l = l.
Proof.
  destruct l as [|ch l]; simpl; [reflexivity |].
  intros ->. reflexivity.
Qed.

Lemma rstrip_no_lead (l : list string) : no_lead l -> no_lead (rstrip l).
Proof.
  destruct l as [|ch l]; [exact (fun H => H) |].
  rewrite rstrip_cons. simpl. intros E.
  destruct (rstrip l); [rewrite E |]; exact E.
Qed.

Lemma rstrip_last (l : list string) (d : string) :
  rstrip l = [] \/ is_space (List.last (rstrip l) d) = false.
Proof.
  induction l as [|ch l IH]; [left; reflexivity |].
  rewrite (rstrip_cons ch l).
  destruct (rstrip l) as [|e r] eqn:E.
  - destruct (is_space ch) eqn:Ec; [left; reflexivity | right; exact Ec].
  - right. destruct IH as [IH | IH]; [discriminate IH |].
    exact IH.
Qed.

Lemma strip_trimmed_chars (l : list string) :
  trimmed_chars (rstrip (lstrip l)) = true.
Proof.
  pose proof (rstrip_no_lead _ (lstrip_no_lead l)) as Hlead.
  destruct (rstrip (lstrip l)) as [|ch rest] eqn:E; [reflexivity |].
  simpl in Hlead. unfold trimmed_chars. rewrite Hlead.
  destruct (rstrip_last (lstrip l) ch) as [H | H];
    [rewrite E in H; discriminate H |].
  rewrite E in H.
  assert (L : List.last (ch :: rest) ch = List.last rest ch)
    by (destruct rest; reflexivity).
  rewrite L in H. rewrite H. reflexivity.
Qed.

Lemma strip_trimmed (s : string) : trimmed (strip s) = true.
Proof. unfold trimmed. rewrite characters_strip. apply strip_trimmed_chars. Qed.

Lemma strip_idempotent (s : string) : strip (strip s) = strip s.
Proof.
  unfold strip at 1. rewrite characters_strip.
  rewrite (lstrip_fixed _ (rstrip_no_lead _ (lstrip_no_lead _))).
  rewrite rstrip_idempotent. reflexivity.
Qed.

(** *** [lower] *)

Lemma lower_ascii_idempotent (c : ascii) :
  lower_ascii (lower_ascii c) = lower_ascii c.
Proof. destruct c as [[] [] [] [] [] [] [] []]; reflexivity. Qed.

Lemma is_continuation_lower (c : ascii) :
  is_continuation (lower_ascii c) = is_continuation c.
Proof. destruct c as [[] [] [] [] [] [] [] []]; reflexivity. Qed.

Lemma lower_idempotent (s : string) : lower (lower s) = lower s.
Proof.
  induction s as [|c s IH]; simpl; [reflexivity |].
  rewrite lower_ascii_idempotent, IH. reflexivity.
Qed.

Lemma lower_app (s t : string) :
  lower (s ++ t) = (lower s ++ lower t)%string.
Proof. induction s as [|c s IH]; simpl; [reflexivity | rewrite IH; reflexivity]. Qed.

Lemma lower_concat (l : list string) :
  lower (String.concat "" l) = String.concat "" (map lower l).
Proof.
  induction l as [|x l IH]; [reflexivity |].
  change (map lower (x :: l)) with (lower x :: map lower l).
  rewrite !concat_cons, lower_app, IH. reflexivity.
Qed.

(** Lowering goes character by character. *)
Lemma characters_lower (s : string) :
  characters (lower s) = map lower (characters s).
Proof.
  induction s as [|c s IH]; [reflexivity |].
  change (lower (String c s)) with (String (lower_ascii c) (lower s)).
  rewrite !characters_cons, IH.
  destruct (characters s) as [|[|d r] rest]; [reflexivity | reflexivity |].
  cbn [map lower]. rewrite is_continuation_lower.
  destruct (is_continuation d); reflexivity.
Qed.

Lemma lower_length (s : string) : len (lower s) = len s.
Proof. unfold len. rewrite characters_lower. apply length_map. Qed.

(** A byte is left alone, or is an ASCII capital moved to its small
    letter. *)
Lemma lower_ascii_cases (c : ascii) :
  lower_ascii c = c
  \/ (65 <= nat_of_ascii c <= 90
      /\ nat_of_ascii (lower_ascii c) = nat_of_ascii c + 32).
Proof.
  unfold lower_ascii.
  destruct ((65 <=? nat_of_ascii c) && (nat_of_ascii c <=? 90)) eqn:E;
    [| left; reflexivity].
  apply andb_prop in E. destruct E as [E1 E2].
  apply Nat.leb_le in E1. apply Nat.leb_le in E2.
  right. split; [lia |].
  apply nat_ascii_embedding. lia.
Qed.

Lemma eqb_lower (c : ascii) (k : nat) :
  k < 65 \/ 122 < k ->
  (nat_of_ascii (lower_ascii c) =? k) = (nat_of_ascii c =? k).
Proof.
  intros Hk. destruct (lower_ascii_cases c) as [-> | [Hc ->]]; [reflexivity |].
  destruct (Nat.eqb_spec (nat_of_ascii c + 32) k);
    destruct (Nat.eqb_spec (nat_of_ascii c) k); try lia; reflexivity.
Qed.

Lemma range_lower (c : ascii) (lo hi : nat) :
  hi < 65 \/ 122 < lo ->
  (lo <=? nat_of_ascii (lower_ascii c)) && (nat_of_ascii (lower_ascii c) <=? hi)
  = (lo <=? nat_of_ascii c) && (nat_of_ascii c <=? hi).
Proof.
  intros Hk. destruct (lower_ascii_cases c) as [-> | [Hc ->]]; [reflexivity |].
  destruct (Nat.leb_spec lo (nat_of_ascii c + 32));
    destruct (Nat.leb_spec (nat_of_ascii c + 32) hi);
    destruct (Nat.leb_spec lo (nat_of_ascii c));
    destruct (Nat.leb_spec (nat_of_ascii c) hi); try lia; reflexivity.
Qed.

Lemma is_space_lower (ch : string) : is_space (lower ch) = is_space ch.
Proof.
  unfold is_space, code_units.
  destruct ch as [|a [|b [|c [|d r]]]]; [reflexivity | | | | reflexivity];
    cbn [lower list_ascii_of_string map];
    rewrite ?eqb_lower by lia; rewrite ?range_lower by lia; reflexivity.
Qed.

Lemma lstrip_lower (l : list string) :
  lstrip (map lower l) = map lower (lstrip l).
Proof.
  induction l as [|ch l IH]; simpl; [reflexivity |].
  rewrite is_space_lower. destruct (is_space ch); [exact IH | reflexivity].
Qed.

Lemma rstrip_lower (l : list string) :
  rstrip (map lower l) = map lower (rstrip l).
Proof.
  induction l as [|ch l IH]; [reflexivity |].
  change (map lower (ch :: l)) with (lower ch :: map lower l).
  rewrite !rstrip_cons, IH, is_space_lower.
  destruct (rstrip l) as [|d r]; simpl; [destruct (is_space ch) |];
    reflexivity.
Qed.

Lemma strip_lower (s : string) : strip (lower s) = lower (strip s).
Proof.
  unfold strip.
  rewrite characters_lower, lstrip_lower, rstrip_lower, lower_concat.
  reflexivity.
Qed.

(** *** ASCII text *)

Lemma ascii_text_app (s t : string) :
  ascii_text (s ++ t) = ascii_text s && ascii_text t.
Proof.
  induction s as [|c s IH]; simpl; [reflexivity |].
  rewrite IH, andb_assoc. reflexivity.
Qed.

Lemma ascii_text_concat (l : list string) :
  ascii_text (String.concat "" l) = forallb ascii_text l.
Proof.
  induction l as [|x l IH]; [reflexivity |].
  rewrite concat_cons, ascii_text_app, IH. reflexivity.
Qed.

Lemma ascii_text_characters (s : string) :
  ascii_text s = true -> Forall (fun ch => ascii_text ch = true) (characters s).
Proof.
  intros H. apply Forall_forall, forallb_forall.
  rewrite <- ascii_text_concat, concat_characters. exact H.
Qed.

Lemma ascii_text_strip (s : string) :
  ascii_text s = true -> ascii_text (strip s) = true.
Proof.
  intros H. unfold strip. rewrite ascii_text_concat.
  apply forallb_forall, Forall_forall, rstrip_Forall, lstrip_Forall,
    ascii_text_characters, H.
Qed.

Lemma ascii_text_lower (s : string) : ascii_text (lower s) = ascii_text s.
Proof.
  induction s as [|c s IH]; simpl; [reflexivity |]. rewrite IH. f_equal.
  destruct c as [[] [] [] [] [] [] [] []]; reflexivity.
Qed.

Lemma ascii_text_split (sep : ascii) (s : string) :
  ascii_text s = true ->
  Forall (fun piece => ascii_text piece = true) (split sep s).
Proof.
  induction s as [|c s IH]; simpl; [repeat constructor |].
  intros H. apply andb_prop in H. destruct H as [Hc Hs].
  specialize (IH Hs).
  destruct (Ascii.eqb c sep); [constructor; [reflexivity | exact IH] |].
  destruct (split sep s) as [|w ws];
    [repeat constructor; simpl; rewrite Hc; reflexivity |].
  inversion IH as [|? ? Hw Hws]; subst.
  constructor; [| exact Hws]. simpl. rewrite Hc, Hw. reflexivity.
Qed.

(** X7: [strip], [lower] and their composition (app.py 433 and 857).
    A stripped string has no white space at either end, of the white
    space of Unicode, and stripping it again changes nothing.  On ASCII
    text, lowering gives ASCII text, lowering twice is lowering once,
    lowering keeps the length, and stripping and lowering can be done in
    either order. *)
Theorem strip_and_lower (s : string) :
  trimmed (strip s) = true
  /\ strip (strip s) = strip s
  /\ (ascii_text s = true ->
      ascii_text (lower s) = true
      /\ lower (lower s) = lower s
      /\ len (lower s) = len s
      /\ strip (lower s) = lower (strip s)).
Proof.
  split; [apply strip_trimmed |]. split; [apply strip_idempotent |].
  intros H. split; [rewrite ascii_text_lower; exact H |].
  split; [apply lower_idempotent |].
  split; [apply lower_length | apply strip_lower].
Qed.

Lemma strip_and_lower_witness :
  strip (nbsp ++ " Data Mining " ++ nbsp) = "Data Mining"%string
  /\ trimmed (strip (nbsp ++ " Data Mining " ++ nbsp)) = true
  /\ strip (lower " Data Mining ") = lower (strip " Data Mining ").
Proof.
  split; [reflexivity |].
  destruct (strip_and_lower (nbsp ++ " Data Mining " ++ nbsp)) as (H1 & _).
  split; [exact H1 |].
  destruct (strip_and_lower " Data Mining ") as (_ & _ & H3).
  apply H3. reflexivity.
Defined.
(** ** The keyword count *)

Lemma dict_get_app (d : counts_dict) (k k' : string) (c : Z) :
  dict_get (d ++ [(k, c)]) k' =
  match dict_get d k' with
  | Some v => Some v
  | None => if (k =? k')%string then Some c else None
  end.
Proof.
  induction d as [|[k0 v0] d IH]; simpl; [reflexivity |].
  destruct (k0 =? k')%string; [reflexivity | exact IH].
Qed.

Lemma dict_get_add (d : counts_dict) (k k' : string) (c : Z) :
  dict_get (dict_add d k c) k' =
  match dict_get d k' with
  | Some v => if (k =? k')%string then Some (v + c)%Z else Some v
  | None => None
  end.
Proof.
  induction d as [|[k0 v0] d IH]; simpl; [reflexivity |].
  destruct (k0 =? k)%string eqn:E0; simpl.
  - apply String.eqb_eq in E0. subst k0.
    destruct (k =? k')%string; [reflexivity |].
    destruct (dict_get d k'); reflexivity.
  - destruct (k0 =? k')%string eqn:E1; [| exact IH].
    apply String.eqb_eq in E1. subst k0. rewrite String.eqb_sym in E0.
    rewrite E0. reflexivity.
Qed.

Lemma dict_add_keys (d : counts_dict) (k : string) (c : Z) :
  map fst (dict_add d k c) = map fst d.
Proof.
  induction d as [|[k0 v0] d IH]; simpl; [reflexivity |].
  destruct (k0 =? k)%string; simpl; [reflexivity | rewrite IH; reflexivity].
Qed.

Lemma dict_get_keys (d : counts_dict) (k : string) :
  dict_get d k = None <-> ~ In k (map fst d).
Proof.
  induction d as [|[k0 v0] d IH]; simpl; [tauto |].
  destruct (k0 =? k)%string eqn:E.
  - apply String.eqb_eq in E. split; [discriminate | tauto].
  - apply String.eqb_neq in E. rewrite IH. tauto.
Qed.

(** One turn of the inner loop, read at the key [k]. *)
Lemma count_keyword_get (c : Z) (d : counts_dict) (w k : string) :
  dict_get (count_keyword c d w) k =
  if counted (lower (strip w)) && (lower (strip w) =? k)%string
  then Some (tally d k + c)%Z
  else dict_get d k.
Proof.
  unfold count_keyword, tally. fold (counted (lower (strip w))).
  destruct (counted (lower (strip w))); simpl; [| reflexivity].
  destruct (dict_get d (lower (strip w))) as [v|] eqn:E.
  - rewrite dict_get_add.
    destruct (lower (strip w) =? k)%string eqn:Ek.
    + apply String.eqb_eq in Ek. subst k. rewrite E. reflexivity.
    + destruct (dict_get d k); reflexivity.
  - rewrite dict_get_app.
    destruct (lower (strip w) =? k)%string eqn:Ek.
    + apply String.eqb_eq in Ek. subst k. rewrite E. reflexivity.
    + destruct (dict_get d k); reflexivity.
Qed.

Lemma count_keyword_keys (c : Z) (d : counts_dict) (w : string) :
  map fst (count_keyword c d w) =
  map fst d ++
  (if counted (lower (strip w))
      && negb (existsb (String.eqb (lower (strip w))) (map fst d))
   then [lower (strip w)] else []).
Proof.
  unfold count_keyword. fold (counted (lower (strip w))).
  destruct (counted (lower (strip w))); simpl; [| rewrite app_nil_r; reflexivity].
  destruct (dict_get d (lower (strip w))) as [v|] eqn:E.
  - rewrite dict_add_keys.
    destruct (existsb (String.eqb (lower (strip w))) (map fst d)) eqn:Ex;
      simpl; [rewrite app_nil_r; reflexivity |].
    exfalso. assert (H : dict_get d (lower (strip w)) <> None) by congruence.
    apply H, dict_get_keys. intros Hin.
    assert (Ht : existsb (String.eqb (lower (strip w))) (map fst d) = true).
    { apply existsb_exists. exists (lower (strip w)). split; [exact Hin |].
      apply String.eqb_refl. }
    congruence.
  - rewrite map_app. simpl.
    destruct (existsb (String.eqb (lower (strip w))) (map fst d)) eqn:Ex;
      simpl; [| reflexivity].
    exfalso. apply existsb_exists in Ex. destruct Ex as (x & Hin & Hx).
    apply String.eqb_eq in Hx. subst x.
    apply dict_get_keys in E. exact (E Hin).
Qed.

Lemma count_row_pairs (row : kw_row) (d : counts_dict) :
  count_row d row
  = fold_left count_pair (map (fun w => (snd row, w)) (pieces row)) d.
Proof.
  unfold count_row. fold (pieces row).
  generalize (pieces row) as ws. intros ws. revert d.
  induction ws as [|w ws IH]; intros d; simpl; [reflexivity | apply IH].
Qed.

Lemma keyword_counts_flat (results : list kw_row) (d : counts_dict) :
  fold_left count_row results d = fold_left count_pair (keyword_pairs results) d.
Proof.
  revert d. induction results as [|row results IH]; intros d; simpl;
    [reflexivity |].
  unfold keyword_pairs. simpl. rewrite fold_left_app, <- count_row_pairs.
  apply IH.
Qed.

Lemma pair_tokens_flat (results : list kw_row) :
  pair_tokens (keyword_pairs results) = flat_map tokens results.
Proof.
  unfold pair_tokens, keyword_pairs.
  induction results as [|row results IH]; simpl; [reflexivity |].
  rewrite map_app, filter_app, IH. f_equal.
  unfold tokens. rewrite map_map. reflexivity.
Qed.

Lemma zsum_app (l1 l2 : list Z) : zsum (l1 ++ l2) = (zsum l1 + zsum l2)%Z.
Proof. unfold zsum. induction l1 as [|x l1 IH]; simpl; [reflexivity | lia]. Qed.

Lemma count_occ_str_cons (k x : string) (l : list string) :
  count_occ_str k (x :: l)
  = (if (k =? x)%string then 1 else 0) + count_occ_str k l.
Proof. unfold count_occ_str. simpl. destruct (k =? x)%string; reflexivity. Qed.

Lemma pair_mentions_row (k : string) (c : Z) (ws : list string) :
  pair_mentions k (map (fun w => (c, w)) ws)
  = (c * Z.of_nat (count_occ_str k
                     (filter counted (map (fun w => lower (strip w)) ws))))%Z.
Proof.
  unfold pair_mentions, pair_token.
  induction ws as [|w ws IH]; simpl; [lia |].
  destruct (counted (lower (strip w))); simpl; [| exact IH].
  rewrite count_occ_str_cons, String.eqb_sym.
  destruct (k =? lower (strip w))%string; simpl.
  - unfold zsum in *. simpl. rewrite IH. lia.
  - exact IH.
Qed.

Lemma pair_mentions_flat (k : string) (results : list kw_row) :
  pair_mentions k (keyword_pairs results) = mentions k results.
Proof.
  unfold mentions, keyword_pairs.
  induction results as [|row results IH]; simpl; [reflexivity |].
  unfold pair_mentions in *. rewrite filter_app, map_app, zsum_app, IH.
  f_equal. apply (pair_mentions_row k (snd row) (pieces row)).
Qed.

Lemma count_pair_get (d : counts_dict) (p : Z * string) (k : string) :
  tally (count_pair d p) k
  = (tally d k
     + if counted (pair_token p) && (pair_token p =? k)%string then fst p else 0)%Z
  /\ (dict_get (count_pair d p) k = None
      <-> dict_get d k = None
          /\ counted (pair_token p) && (pair_token p =? k)%string = false).
Proof.
  unfold count_pair, pair_token. unfold tally at 1.
  rewrite count_keyword_get.
  destruct (counted (lower (strip (snd p))) && (lower (strip (snd p)) =? k)%string).
  - split; [reflexivity |]. split; [discriminate | intros [_ H]; discriminate H].
  - split; [unfold tally; lia | tauto].
Qed.

(** The loop, read at one key: the count is the sum of the counts of the
    pieces that give this key, and the key is absent when there is none. *)
Lemma count_pairs_get (ps : list (Z * string)) (d : counts_dict) (k : string) :
  tally (fold_left count_pair ps d) k = (tally d k + pair_mentions k ps)%Z
  /\ (dict_get (fold_left count_pair ps d) k = None
      <-> dict_get d k = None /\ ~ In k (pair_tokens ps)).
Proof.
  revert d. induction ps as [|p ps IH]; intros d.
  - simpl. unfold pair_mentions. simpl. split; [lia | tauto].
  - cbn [fold_left]. destruct (IH (count_pair d p)) as [IH1 IH2].
    destruct (count_pair_get d p k) as [G1 G2].
    rewrite IH1, IH2, G1, G2. clear IH IH1 IH2 G1 G2.
    unfold pair_mentions, pair_tokens. cbn [filter map].
    destruct (counted (pair_token p)) eqn:Ec; cbn [andb].
    + destruct (pair_token p =? k)%string eqn:Ek.
      * split; [cbn [map]; unfold zsum; simpl; lia |].
        apply String.eqb_eq in Ek. split.
        -- intros [[_ H] _]. discriminate H.
        -- intros [_ H]. exfalso. apply H. left. exact Ek.
      * split; [lia |]. apply String.eqb_neq in Ek. simpl. tauto.
    + split; [lia | tauto].
Qed.

(** X8: what [keyword_counts] holds after the loops of 852-862, for rows
    of ASCII text.  A key is present exactly when some row holds it as a
    counted token (a piece between commas, stripped, lowered, longer than
    2 characters), and its count is the sum over the rows of the row's
    count, once for each time the row holds the token: a token written
    twice in a row counts twice. *)
Theorem keyword_counts_tally (results : list kw_row) (k : string) :
  ascii_rows results = true ->
  (dict_get (keyword_counts results) k = None
   <-> ~ In k (flat_map tokens results))
  /\ tally (keyword_counts results) k = mentions k results.
Proof.
  intros _. unfold keyword_counts. rewrite keyword_counts_flat.
  destruct (count_pairs_get (keyword_pairs results) [] k) as [H1 H2].
  rewrite pair_tokens_flat in H2. rewrite pair_mentions_flat in H1.
  split.
  - rewrite H2. simpl. tauto.
  - rewrite H1. unfold tally. simpl. lia.
Qed.

Lemma keyword_counts_tally_witness :
  tally (keyword_counts sample_kw_rows) "data mining" = 8%Z
  /\ dict_get (keyword_counts sample_kw_rows) "ml" = None.
Proof.
  split.
  - rewrite (proj2 (keyword_counts_tally sample_kw_rows "data mining" eq_refl)).
    reflexivity.
  - apply (proj1 (keyword_counts_tally sample_kw_rows "ml" eq_refl)).
    vm_compute. intuition discriminate.
Defined.

Lemma split_no_sep (sep : ascii) (s : string) :
  Forall (fun piece => count_char sep piece = 0) (split sep s).
Proof.
  induction s as [|c s' IH]; simpl; [repeat constructor |].
  destruct (Ascii.eqb c sep) eqn:E; [constructor; [reflexivity | exact IH] |].
  destruct (split sep s') as [|w ws]; [repeat constructor; simpl; rewrite E; reflexivity |].
  inversion IH as [|? ? Hw Hws]; subst.
  constructor; [| exact Hws]. simpl. rewrite E, Hw. reflexivity.
Qed.

Lemma count_char_app (c : ascii) (s t : string) :
  count_char c (s ++ t) = count_char c s + count_char c t.
Proof. induction s as [|a s IH]; simpl; [reflexivity | rewrite IH; lia]. Qed.

Lemma count_char_concat (c : ascii) (l : list string) :
  count_char c (String.concat "" l) = list_sum (map (count_char c) l).
Proof.
  induction l as [|x l IH]; [reflexivity |].
  rewrite concat_cons, count_char_app, IH. reflexivity.
Qed.

Lemma count_char_lstrip (c : ascii) (l : list string) :
  list_sum (map (count_char c) (lstrip l)) <= list_sum (map (count_char c) l).
Proof.
  induction l as [|ch l IH]; simpl; [lia |].
  destruct (is_space ch); simpl; lia.
Qed.

Lemma count_char_rstrip (c : ascii) (l : list string) :
  list_sum (map (count_char c) (rstrip l)) <= list_sum (map (count_char c) l).
Proof.
  induction l as [|ch l IH]; [simpl; lia |].
  rewrite rstrip_cons. destruct (rstrip l) as [|d r].
  - destruct (is_space ch); simpl in *; lia.
  - simpl in *. lia.
Qed.

Lemma count_char_strip (c : ascii) (s : string) :
  count_char c (strip s) <= count_char c s.
Proof.
  unfold strip. rewrite count_char_concat.
  pose proof (count_char_rstrip c (lstrip (characters s))).
  pose proof (count_char_lstrip c (characters s)).
  rewrite <- (concat_characters s) at 2. rewrite count_char_concat. lia.
Qed.

Lemma count_char_comma_lower (s : string) :
  count_char "," (lower s) = count_char "," s.
Proof.
  induction s as [|a s IH]; simpl; [reflexivity |]. rewrite IH. f_equal.
  destruct a as [[] [] [] [] [] [] [] []]; reflexivity.
Qed.

Lemma filter_filter_and {A} (f g : A -> bool) (l : list A) :
  filter f (filter g l) = filter (fun x => g x && f x) l.
Proof.
  induction l as [|x l IH]; simpl; [reflexivity |].
  destruct (g x); simpl; [destruct (f x) |]; rewrite ?IH; reflexivity.
Qed.

Lemma known_app (K : list string) (t x : string) :
  known (K ++ [t]) x = known K x || (x =? t)%string.
Proof. unfold known. rewrite existsb_app. simpl. rewrite orb_false_r. reflexivity. Qed.

Lemma known_In (K : list string) (x : string) : known K x = true <-> In x K.
Proof.
  unfold known. rewrite existsb_exists. split.
  - intros (y & Hy & E). apply String.eqb_eq in E. subst y. exact Hy.
  - intros H. exists x. split; [exact H | apply String.eqb_refl].
Qed.

Lemma distinct_In (x : string) (l : list string) : In x (distinct l) <-> In x l.
Proof.
  induction l as [|y l IH]; simpl; [tauto |].
  rewrite filter_In, IH. destruct (y =? x)%string eqn:E.
  - apply String.eqb_eq in E. simpl. intuition congruence.
  - apply String.eqb_neq in E. simpl. intuition congruence.
Qed.

Lemma distinct_NoDup (l : list string) : NoDup (distinct l).
Proof.
  induction l as [|y l IH]; simpl; constructor.
  - rewrite filter_In. intros [_ H]. rewrite String.eqb_refl in H. discriminate H.
  - apply NoDup_filter, IH.
Qed.

Lemma count_pair_keys (d : counts_dict) (p : Z * string) :
  map fst (count_pair d p)
  = map fst d ++
    (if counted (pair_token p) && negb (known (map fst d) (pair_token p))
     then [pair_token p] else []).
Proof. apply count_keyword_keys. Qed.

(** The keys after the loop: those before it, then the new tokens, each
    at its first place. *)
Lemma count_pairs_keys (ps : list (Z * string)) (d : counts_dict) :
  map fst (fold_left count_pair ps d)
  = map fst d
    ++ filter (fun x => negb (known (map fst d) x)) (distinct (pair_tokens ps)).
Proof.
  revert d. induction ps as [|p ps IH]; intros d.
  - simpl. rewrite app_nil_r. reflexivity.
  - cbn [fold_left]. rewrite IH, count_pair_keys. clear IH.
    unfold pair_tokens. cbn [map filter].
    destruct (counted (pair_token p)) eqn:Ec; cbn [andb];
      [| rewrite app_nil_r; reflexivity].
    cbn [distinct filter].
    destruct (known (map fst d) (pair_token p)) eqn:Ek; cbn [negb].
    + rewrite app_nil_r. f_equal. rewrite filter_filter_and.
      apply filter_ext_in. intros x _.
      destruct (pair_token p =? x)%string eqn:E; [| reflexivity].
      apply String.eqb_eq in E. subst x. rewrite Ek. reflexivity.
    + rewrite <- app_assoc. cbn [app]. f_equal. f_equal.
      rewrite filter_filter_and. apply filter_ext. intros x.
      rewrite known_app, (String.eqb_sym x), negb_orb. apply andb_comm.
Qed.

Lemma keyword_counts_key_list (results : list kw_row) :
  map fst (keyword_counts results) = distinct (flat_map tokens results).
Proof.
  unfold keyword_counts. rewrite keyword_counts_flat, count_pairs_keys.
  rewrite pair_tokens_flat. simpl.
  induction (distinct (flat_map tokens results)) as [|x l IH]; simpl;
    [reflexivity | rewrite IH; reflexivity].
Qed.

Lemma pieces_ascii (row : kw_row) :
  ascii_row row = true -> Forall (fun w => ascii_text w = true) (pieces row).
Proof.
  unfold ascii_row, pieces. destruct (fst row) as [s|]; [| constructor].
  intros H. destruct (negb (s =? "")%string); [| constructor].
  apply ascii_text_split, H.
Qed.

(** X9: the keys of [keyword_counts] (app.py 850-862), for rows of ASCII
    text.  They are the counted tokens of the rows, each once, in the
    order in which the rows first show them; every key is ASCII text of
    more than 2 characters, is in lower case, has no white space at either
    end and holds no comma. *)
Theorem keyword_counts_keys (results : list kw_row) :
  ascii_rows results = true ->
  map fst (keyword_counts results) = distinct (flat_map tokens results)
  /\ NoDup (map fst (keyword_counts results))
  /\ Forall (fun k => ascii_text k = true /\ 2 < len k /\ lower k = k
                      /\ strip k = k /\ trimmed k = true
                      /\ count_char "," k = 0)
            (map fst (keyword_counts results)).
Proof.
  intros Hascii.
  pose proof (keyword_counts_key_list results) as Hkeys.
  split; [exact Hkeys |]. rewrite Hkeys. split; [apply distinct_NoDup |].
  apply Forall_forall. intros k Hk. apply (proj1 (distinct_In _ _)) in Hk.
  apply in_flat_map in Hk. destruct Hk as (row & Hrow & Hk).
  unfold tokens in Hk. apply filter_In in Hk. destruct Hk as [Hk Hc].
  apply in_map_iff in Hk. destruct Hk as (w & <- & Hw).
  unfold counted in Hc. apply andb_prop in Hc. destruct Hc as [_ Hlen].
  apply Nat.ltb_lt in Hlen.
  assert (Hstrip : strip (lower (strip w)) = lower (strip w))
    by (rewrite strip_lower, strip_idempotent; reflexivity).
  split.
  { unfold ascii_rows in Hascii. rewrite forallb_forall in Hascii.
    pose proof (pieces_ascii row (Hascii row Hrow)) as HF.
    rewrite Forall_forall in HF.
    rewrite ascii_text_lower. apply ascii_text_strip, HF, Hw. }
  split; [exact Hlen |]. split; [apply lower_idempotent |].
  split; [exact Hstrip |].
  split; [rewrite <- Hstrip; apply strip_trimmed |].
  rewrite count_char_comma_lower.
  assert (Hclean : count_char "," w = 0).
  { unfold pieces in Hw. destruct (fst row) as [s|]; [| contradiction].
    destruct (negb (s =? "")%string); [| contradiction].
    pose proof (split_no_sep "," s) as HF. rewrite Forall_forall in HF.
    exact (HF w Hw). }
  pose proof (count_char_strip "," w). lia.
Qed.

Lemma keyword_counts_keys_witness :
  map fst (keyword_counts sample_kw_rows) = ["data mining"; "databases"]%string
  /\ NoDup (map fst (keyword_counts sample_kw_rows)).
Proof.
  destruct (keyword_counts_keys sample_kw_rows eq_refl) as (H1 & H2 & _).
  split; [rewrite H1; reflexivity | exact H2].
Defined.

(** ** The keyword chart of a university *)

Lemma dict_get_In (d : counts_dict) (k : string) (v : Z) :
  NoDup (map fst d) -> In (k, v) d -> dict_get d k = Some v.
Proof.
  induction d as [|[k0 v0] d IH]; simpl; [contradiction |].
  intros Hnd [H | H].
  - injection H as -> ->. rewrite String.eqb_refl. reflexivity.
  - inversion Hnd as [|? ? Hk0 Hd]; subst.
    destruct (k0 =? k)%string eqn:E; [| exact (IH Hd H)].
    apply String.eqb_eq in E. subst k0. exfalso. apply Hk0.
    apply in_map_iff. exists (k, v). split; [reflexivity | exact H].
Qed.

Lemma dict_get_Some_In (d : counts_dict) (k : string) (v : Z) :
  dict_get d k = Some v -> In (k, v) d.
Proof.
  induction d as [|[k0 v0] d IH]; simpl; [discriminate |].
  destruct (k0 =? k)%string eqn:E.
  - apply String.eqb_eq in E. subst k0. intros H. injection H as ->. left. reflexivity.
  - intros H. right. exact (IH H).
Qed.

Lemma NoDup_firstn {A} (n : nat) (l : list A) : NoDup l -> NoDup (firstn n l).
Proof.
  intros H. rewrite <- (firstn_skipn n l) in H.
  exact (NoDup_app_remove_r _ _ H).
Qed.

Lemma descending_values (l : list (string * Z)) :
  descending snd l -> StronglySorted (fun a b => (b <= a)%Z) (map snd l).
Proof.
  unfold descending. induction 1 as [|x l Hl IH Hx]; simpl; constructor.
  - exact IH.
  - rewrite Forall_forall in Hx |- *. intros z Hz.
    apply in_map_iff in Hz. destruct Hz as (y & <- & Hy). exact (Hx y Hy).
Qed.

Lemma distinct_nil (l : list string) : distinct l = [] -> l = [].
Proof. destruct l; [reflexivity | discriminate]. Qed.

(** X10: what [get_university_keywords] (app.py 845-914) makes of the
    rows of its query, for rows of ASCII text.  The pie has between 1 and 10 slices; its labels
    are distinct keys of [keyword_counts], each with its count as value,
    the values in descending order; "Most Common" is the first label and
    no key at all has a higher count; "Total Keyword Mentions" is the sum
    of the values shown, while "Unique Keywords" counts every key, shown
    or not.  "No keywords found" is returned exactly when there are rows
    but no row holds a counted token, "No data found" when there is no
    row. *)
Theorem keyword_pie (results : list kw_row) :
  ascii_rows results = true ->
  match university_keywords_report results with
  | KeywordPie labels values total_keywords most_common unique_keywords =>
      1 <= List.length labels
      /\ List.length labels = Nat.min 10 unique_keywords
      /\ NoDup labels
      /\ Forall2 (fun k v => dict_get (keyword_counts results) k = Some v)
                 labels values
      /\ StronglySorted (fun a b => (b <= a)%Z) values
      /\ nth_error labels 0 = Some most_common
      /\ (forall k v, dict_get (keyword_counts results) k = Some v ->
                      (v <= tally (keyword_counts results) most_common)%Z)
      /\ total_keywords = zsum values
      /\ unique_keywords = List.length (distinct (flat_map tokens results))
  | NoKeywordsFound => results <> [] /\ flat_map tokens results = []
  | NoDataFound => results = []
  end.
Proof.
  intros _. unfold university_keywords_report.
  destruct results as [|row0 rest]; [reflexivity |].
  set (results := row0 :: rest). cbv zeta.
  pose proof (keyword_counts_key_list results) as Hkeys.
  assert (Hnd : NoDup (map fst (keyword_counts results)))
    by (rewrite Hkeys; apply distinct_NoDup).
  unfold sorted_keywords, top_n, sorted_desc.
  pose proof (stable_sort_desc_perm _ snd (keyword_counts results)) as Hperm.
  pose proof (stable_sort_desc_descending _ snd (keyword_counts results)) as Hdesc.
  set (S := stable_sort_desc snd (keyword_counts results)) in *.
  destruct (firstn 10 S) as [|[most v0] shown] eqn:Eshown.
  - split; [discriminate |].
    destruct S as [|x S']; [| discriminate Eshown].
    apply Permutation_nil in Hperm.
    apply distinct_nil. rewrite <- Hkeys. rewrite Hperm. reflexivity.
  - rewrite <- Eshown.
    assert (Hin : forall p, In p (firstn 10 S) -> In p (keyword_counts results)).
    { intros p Hp. apply firstn_In in Hp.
      exact (Permutation_in _ Hperm Hp). }
    assert (Hhead : exists S', S = (most, v0) :: S').
    { destruct S as [|x S']; [discriminate Eshown |].
      simpl in Eshown. injection Eshown as -> _. eauto. }
    destruct Hhead as [S' HS].
    split; [rewrite Eshown; simpl; lia |].
    split; [rewrite length_map, length_firstn;
            rewrite (Permutation_length Hperm); reflexivity |].
    split.
    { rewrite <- firstn_map. apply NoDup_firstn.
      apply (Permutation_NoDup (Permutation_map fst (Permutation_sym Hperm))).
      exact Hnd. }
    split.
    { assert (HF : Forall (fun p => dict_get (keyword_counts results) (fst p)
                                    = Some (snd p)) (firstn 10 S)).
      { apply Forall_forall. intros [k v] Hp. apply dict_get_In; [exact Hnd |].
        exact (Hin _ Hp). }
      clear - HF. induction HF as [|p l Hp _ IH]; simpl; constructor; assumption. }
    split; [apply descending_values, descending_firstn; exact Hdesc |].
    split; [rewrite Eshown; reflexivity |].
    split.
    { intros k v Hk. apply dict_get_Some_In in Hk.
      assert (Hm : tally (keyword_counts results) most = v0).
      { unfold tally. rewrite (dict_get_In _ most v0 Hnd); [reflexivity |].
        apply Hin. rewrite Eshown. left. reflexivity. }
      rewrite Hm.
      apply (Permutation_in _ (Permutation_sym Hperm)) in Hk.
      rewrite HS in Hk, Hdesc. destruct Hk as [Hk | Hk].
      - injection Hk as _ ->. lia.
      - unfold descending in Hdesc. inversion Hdesc as [|? ? _ Hx]; subst.
        rewrite Forall_forall in Hx. exact (Hx _ Hk). }
    split; [reflexivity |].
    rewrite <- Hkeys, length_map. reflexivity.
Qed.

Lemma keyword_pie_witness :
  match university_keywords_report sample_kw_rows with
  | KeywordPie labels values total_keywords most_common unique_keywords =>
      nth_error labels 0 = Some most_common
      /\ total_keywords = zsum values
  | _ => False
  end.
Proof.
  generalize (keyword_pie sample_kw_rows eq_refl).
  destruct (university_keywords_report sample_kw_rows).
  - intros (_ & _ & _ & _ & _ & H1 & _ & H2 & _). split; assumption.
  - intros [_ H]. vm_compute in H. discriminate H.
  - intros H. discriminate H.
Defined.
(** ** Frames *)

Lemma pad_length (n : nat) (r : row) : List.length (pad n r) = n.
Proof.
  revert r. induction n as [|n IH]; intros r; simpl; [reflexivity |].
  destruct r; simpl; rewrite IH; reflexivity.
Qed.

Lemma pad_nth (n i : nat) (r : row) :
  i < n -> nth i (pad n r) VNone = nth i r VNone.
Proof.
  revert i r. induction n as [|n IH]; intros i r Hi; [lia |].
  destruct r as [|v r]; destruct i as [|i]; simpl; try reflexivity.
  - rewrite IH by lia. destruct i; reflexivity.
  - apply IH. lia.
Qed.

Lemma max_width_bound (results : list row) (r : row) :
  In r results ->
  List.length r <= max_width results.
Proof.
  unfold max_width. induction results as [|r0 results IH]; simpl; [contradiction |].
  intros [<- | H]; [lia | specialize (IH H); lia].
Qed.

Lemma max_width_reached (results : list row) :
  results <> [] ->
  exists r, In r results /\ List.length r = max_width results.
Proof.
  unfold max_width. induction results as [|r0 results IH]; [contradiction |]. intros _.
  destruct results as [|r1 results'].
  - exists r0. simpl. split; [auto | lia].
  - destruct (IH ltac:(discriminate)) as (r & Hr & Hlen).
    cbn [map fold_right] in *.
    destruct (Nat.le_ge_cases (List.length r0)
                (Nat.max (List.length r1)
                   (fold_right Nat.max 0 (map (@List.length pyval) results'))))
      as [Hle | Hge].
    + exists r. split; [right; exact Hr | lia].
    + exists r0. split; [left; reflexivity | lia].
Qed.

Lemma index_of_In (name : string) (cols : list string) :
  In name cols -> exists i, index_of name cols = Some i.
Proof.
  induction cols as [|c cols IH]; simpl; [contradiction |].
  intros H. destruct (c =? name)%string eqn:E; [eauto |].
  apply String.eqb_neq in E. destruct H as [H | H]; [contradiction |].
  destruct (IH H) as [i Hi]. rewrite Hi. simpl. eauto.
Qed.

(** X11: [pd.DataFrame(results, columns=cols)] as the widgets use it
    (app.py 545 and 626).  It succeeds exactly when there is no row, or no
    row is wider than there are columns and some row is as wide.  The frame
    then has the columns asked for, one record for each result row and in
    the same order, every record as wide as there are columns, holding the
    fields of its row with the missing ones as null, and each named column
    can be read and has one cell for each row.  It fails exactly when there
    are rows and either all are narrower or one is wider than there are
    columns, with the [ValueError] that tells the number of columns passed
    and the width of the widest row. *)
Theorem make_frame_schema (results : list row) (cols : list string) :
  match make_frame results cols with
  | Ok df =>
      (results = []
       \/ (Forall (fun r => List.length r <= List.length cols) results
           /\ Exists (fun r => List.length r = List.length cols) results))
      /\ columns df = cols
      /\ List.length (records df) = List.length results
      /\ Forall (fun r => List.length r = List.length cols) (records df)
      /\ Forall2 (fun r r' => forall i, i < List.length cols ->
                                        nth i r' VNone = nth i r VNone)
                 results (records df)
      /\ (forall name, In name cols ->
            exists cells, column df name = Ok cells
                          /\ List.length cells = List.length results)
  | Raise e =>
      results <> []
      /\ (Forall (fun r => List.length r < List.length cols) results
          \/ Exists (fun r => List.length cols < List.length r) results)
      /\ e = Exn ValueError
               (columns_mismatch (List.length cols) (max_width results))
  end.
Proof.
  unfold make_frame. destruct results as [|r0 rest].
  - cbn [columns records]. split; [left; reflexivity |].
    repeat split; try constructor.
    intros name Hin. unfold column. cbn [columns records].
    destruct (index_of_In name cols Hin) as [i ->]. eauto.
  - set (results := r0 :: rest).
    destruct (max_width results =? List.length cols) eqn:E.
    + apply Nat.eqb_eq in E. cbn [columns records].
      split.
      { right. split.
        - apply Forall_forall. intros r Hr. rewrite <- E.
          apply max_width_bound, Hr.
        - destruct (max_width_reached results ltac:(discriminate))
            as (r & Hr & Hlen).
          apply Exists_exists. exists r. split; [exact Hr | lia]. }
      split; [reflexivity |]. split; [apply length_map |].
      split; [apply Forall_forall; intros r Hr; apply in_map_iff in Hr;
              destruct Hr as (r' & <- & _); apply pad_length |].
      split.
      { clear E. induction results as [|r rs IH]; simpl; constructor;
          [intros i Hi; apply pad_nth; exact Hi | exact IH]. }
      intros name Hin. unfold column. cbn [columns records].
      destruct (index_of_In name cols Hin) as [i ->].
      eexists. split; [reflexivity |]. rewrite !length_map. reflexivity.
    + apply Nat.eqb_neq in E.
      split; [discriminate |]. split; [| reflexivity].
      destruct (max_width_reached results ltac:(discriminate)) as (r & Hr & Hlen).
      destruct (Nat.lt_ge_cases (List.length cols) (List.length r)) as [Hlt | Hge].
      * right. apply Exists_exists. exists r. split; assumption.
      * left. apply Forall_forall. intros r' Hr'.
        pose proof (max_width_bound results r' Hr'). lia.
Qed.
(** ** The chart of publications over time *)

Lemma insert_by_date_perm x l : Permutation (insert_by_date x l) (x :: l).
Proof.
  induction l as [|y l IH]; simpl; [apply Permutation_refl |].
  destruct (fst x) as [a|]; [destruct (fst y) as [b|] |].
  - destruct (a <? b)%Z; [apply Permutation_refl |].
    eapply perm_trans; [apply perm_skip, IH | apply perm_swap].
  - apply Permutation_refl.
  - eapply perm_trans; [apply perm_skip, IH | apply perm_swap].
Qed.

Lemma sort_by_date_perm l : Permutation (sort_by_date l) l.
Proof.
  unfold sort_by_date. induction l as [|x l IH]; simpl; [apply perm_nil |].
  eapply perm_trans; [apply insert_by_date_perm | apply perm_skip, IH].
Qed.

Lemma insert_by_date_ordered x l :
  dated_ordered l -> dated_ordered (insert_by_date x l).
Proof.
  unfold dated_ordered.
  induction l as [|y l IH]; simpl; intros Hs.
  - constructor; constructor.
  - inversion Hs as [|? ? Hl Hy]; subst.
    rewrite Forall_forall in Hy.
    destruct (fst x) as [a|] eqn:Ex; [destruct (fst y) as [b|] eqn:Ey |].
    + destruct (a <? b)%Z eqn:E.
      * apply Z.ltb_lt in E. constructor; [exact Hs |].
        constructor; [rewrite ?Ex, ?Ey; simpl; lia |].
        apply Forall_forall. intros z Hz. specialize (Hy z Hz).
        rewrite ?Ex. rewrite ?Ey in Hy. unfold date_le in *.
        destruct (fst z); [lia | exact I].
      * apply Z.ltb_ge in E. constructor; [apply IH; exact Hl |].
        apply Forall_forall. intros z Hz.
        apply (Permutation_in _ (insert_by_date_perm x l)) in Hz.
        destruct Hz as [<- | Hz]; [rewrite ?Ex, ?Ey; simpl; lia | rewrite ?Ey; exact (Hy z Hz)].
    + constructor; [exact Hs |].
      constructor; [rewrite ?Ex, ?Ey; exact I |].
      apply Forall_forall. intros z Hz. specialize (Hy z Hz).
      rewrite ?Ex. rewrite ?Ey in Hy. unfold date_le in *.
      destruct (fst z); [contradiction | exact I].
    + constructor; [apply IH; exact Hl |].
      apply Forall_forall. intros z Hz.
      apply (Permutation_in _ (insert_by_date_perm x l)) in Hz.
      destruct Hz as [<- | Hz]; [| rewrite ?Ey; exact (Hy z Hz)].
      rewrite ?Ex. unfold date_le. destruct (fst y); exact I.
Qed.

Lemma sort_by_date_ordered l : dated_ordered (sort_by_date l).
Proof.
  unfold sort_by_date. induction l as [|x l IH]; simpl;
    [constructor | apply insert_by_date_ordered, IH].
Qed.

Lemma dated_ordered_dates df : dated_ordered df -> date_ordered (map fst df).
Proof.
  unfold dated_ordered, date_ordered.
  induction 1 as [|x l Hl IH Hx]; simpl; constructor; [exact IH |].
  rewrite Forall_forall in Hx |- *. intros d Hd.
  apply in_map_iff in Hd. destruct Hd as (y & <- & Hy). exact (Hx y Hy).
Qed.

Lemma omap_combine {R A} (f : R -> outcome A) (l : list R) (acc : list A) :
  omap f l = Ok acc ->
  map snd (combine acc l) = l
  /\ Forall (fun r => f (snd r) = Ok (fst r)) (combine acc l).
Proof.
  revert acc. induction l as [|x xs IH]; intros acc; simpl.
  - intros H. injection H as <-. split; [reflexivity | constructor].
  - destruct (f x) as [a|e] eqn:E; simpl; [| discriminate].
    destruct (omap f xs) as [acc'|e]; simpl; [| discriminate].
    intros H. injection H as <-. destruct (IH acc' eq_refl) as [H1 H2].
    simpl. rewrite H1. split; [reflexivity |]. constructor; assumption.
Qed.

Lemma zsum_perm (l1 l2 : list Z) : Permutation l1 l2 -> zsum l1 = zsum l2.
Proof.
  unfold zsum. induction 1; simpl; lia.
Qed.

Lemma present_perm {A} (l1 l2 : list (option A)) :
  Permutation l1 l2 -> Permutation (present l1) (present l2).
Proof.
  unfold present. induction 1 as [| x l1 l2 _ IH | x y l | l1 l2 l3 _ IH1 _ IH2];
    simpl.
  - apply perm_nil.
  - apply Permutation_app_head, IH.
  - rewrite !app_assoc. apply Permutation_app_tail, Permutation_app_comm.
  - exact (perm_trans IH1 IH2).
Qed.

(** X12: the chart of [get_timeseries_widget_data] (app.py 1266-1318).
    When it is drawn from entries, its points are those entries, each
    once, with the date [pd.to_datetime] reads from it, in ascending date
    order with the undated ones last; the total of the summary is the sum
    of the integer counts of all entries, and the source it names is the
    source of the first point.  Nothing is promised on the order of
    entries of equal date. *)
Theorem chart_in_date_order (env : Env) (data : list publication_entry)
    (fig : figure) (sm : summary) :
  data <> [] ->
  chart env data = Ok (fig, sm) ->
  exists first rest,
    let df := first :: rest in
    Permutation (map snd df) data
    /\ Forall (fun r => to_datetime env (pe_date (snd r)) = Ok (fst r)) df
    /\ date_ordered (map fst df)
    /\ fig = PublicationsOverTime (map (fun r => (fst r, pe_count (snd r))) df)
    /\ sm = TimeSeriesSummary
              (zsum (present (int_cells (map pe_count data))))
              (mean (int_cells (map (fun r => pe_count (snd r)) df)))
              (pe_source (snd first)).
Proof.
  intros Hne. unfold chart.
  destruct data as [|e0 data']; [contradiction Hne; reflexivity |].
  set (data := e0 :: data') in *.
  destruct (omap (to_datetime env) (map pe_date data)) as [dates|x] eqn:Ed;
    cbn [obind]; [| discriminate].
  assert (Hd : omap (fun e => to_datetime env (pe_date e)) data = Ok dates).
  { clear - Ed. revert dates Ed. generalize data as l.
    induction l as [|e l IH]; intros dates; simpl; [exact (fun H => H) |].
    destruct (to_datetime env (pe_date e)); simpl; [| discriminate].
    destruct (omap (to_datetime env) (map pe_date l)) as [ds|]; simpl;
      [| discriminate].
    rewrite (IH ds eq_refl). exact (fun H => H). }
  destruct (omap_combine _ _ _ Hd) as [Hsnd Hdates].
  pose proof (sort_by_date_perm (combine dates data)) as Hperm.
  pose proof (sort_by_date_ordered (combine dates data)) as Hord.
  pose proof (sort_by_date_Forall _ _ Hdates) as HF.
  destruct (sort_by_date (combine dates data)) as [|first rest]; [discriminate |].
  intros H. injection H as <- <-.
  exists first, rest. cbv zeta.
  assert (Hp : Permutation (map snd (first :: rest)) data).
  { eapply perm_trans; [apply Permutation_map, Hperm |].
    rewrite Hsnd. apply Permutation_refl. }
  split; [exact Hp |]. split; [exact HF |].
  split; [apply dated_ordered_dates, Hord |]. split; [reflexivity |].
  f_equal. apply zsum_perm.
  change (Permutation
            (present (int_cells (map (fun r => pe_count (snd r)) (first :: rest))))
            (present (int_cells (map pe_count data)))).
  apply present_perm. unfold int_cells. apply Permutation_map.
  rewrite <- (map_map snd pe_count). apply Permutation_map, Hp.
Qed.

Lemma chart_in_date_order_witness :
  exists fig sm first rest,
    chart unreachable two_days = Ok (fig, sm)
    /\ let df := first :: rest in
       Permutation (map snd df) two_days
       /\ Forall (fun r => to_datetime unreachable (pe_date (snd r)) = Ok (fst r)) df
       /\ date_ordered (map fst df)
       /\ fig = PublicationsOverTime (map (fun r => (fst r, pe_count (snd r))) df)
       /\ sm = TimeSeriesSummary
                 (zsum (present (int_cells (map pe_count two_days))))
                 (mean (int_cells (map (fun r => pe_count (snd r)) df)))
                 (pe_source (snd first)).
Proof.
  destruct (chart_in_date_order unreachable two_days _ _
              ltac:(discriminate) eq_refl) as (first & rest & H).
  do 2 eexists. exists first, rest. split; [reflexivity | exact H].
Defined.

(** ** The series of publications over time *)

Lemma chart_of_entries env data fig sm :
  data <> [] -> chart env data = Ok (fig, sm) ->
  exists points, fig = PublicationsOverTime points.
Proof.
  intros Hne. unfold chart.
  destruct data as [|e0 data']; [contradiction Hne; reflexivity |].
  destruct (omap (to_datetime env) (map pe_date (e0 :: data'))) as [dates|x];
    cbn [obind]; [| discriminate].
  destruct (sort_by_date (combine dates (e0 :: data'))) as [|first rest];
    [discriminate |].
  intros H. injection H as <- _. eauto.
Qed.

(** X13: what the publications-over-time widget draws from
    (app.py 1176-1324).  The entries collected are never none, so the
    branch "No publication data available" (1313-1318) is never taken;
    every entry carries the source "MySQL" or "Sample Data" and all of them
    the same one, so the graph backend, whose records are read by position
    (1235-1237), contributes nothing; and the widget returns a figure and a
    summary in every world, naming one of these two sources when it names
    one. *)
Theorem series_sources (env : Env) (s : State) :
  exists data fig sm s',
    collect_publication_data env s = (Ok data, s')
    /\ data <> []
    /\ (Forall (fun e => pe_source e = "MySQL") data
        \/ Forall (fun e => pe_source e = "Sample Data") data)
    /\ get_timeseries_widget_data env s = (Ok (fig, sm), s')
    /\ fig <> Annotation [Lit "No publication data available"]
    /\ sm <> Message [Lit "No publication data found in any database"]
    /\ (forall total avg src,
          sm = TimeSeriesSummary total avg src ->
          src = "MySQL" \/ src = "Sample Data").
Proof.
  destruct (collect_publication_data_run env s) as (data & s' & E & Hne & Hsrc).
  assert (Hsrc' : Forall (fun e => pe_source e = "MySQL") data
                  \/ Forall (fun e => pe_source e = "Sample Data") data).
  { destruct Hsrc as [H | [H _]]; [left; exact H | right].
    eapply Forall_impl; [| exact H]. intros e [He _]. exact He. }
  pose proof (get_timeseries_widget_data_run env s data s' E) as Hrun.
  destruct (chart env data) as [[fig sm]|x] eqn:Ec.
  - exists data, fig, sm, s'.
    split; [exact E |]. split; [exact Hne |]. split; [exact Hsrc' |].
    split; [exact Hrun |].
    destruct (chart_of_entries env data fig sm Hne Ec) as [points ->].
    split; [discriminate |].
    assert (Hsm : exists total avg src,
               sm = TimeSeriesSummary total avg src
               /\ (src = "MySQL" \/ src = "Sample Data")).
    { destruct Hsrc' as [H | H].
      - destruct (chart_source env "MySQL" data _ sm Hne H Ec) as (t & a & ->).
        eauto 6.
      - destruct (chart_source env "Sample Data" data _ sm Hne H Ec)
          as (t & a & ->).
        eauto 6. }
    destruct Hsm as (t & a & src & -> & Hs).
    split; [discriminate |].
    intros total avg src' H. injection H as _ _ <-. exact Hs.
  - eexists data, _, _, s'.
    split; [exact E |]. split; [exact Hne |]. split; [exact Hsrc' |].
    split; [exact Hrun |].
    split; [discriminate |]. split; [discriminate |].
    intros total avg src H. discriminate H.
Qed.

Lemma sample_entry_day env day s :
  exists e,
    sample_entry env day s = (Ok e, record_event (RandInt (-2) 3) s)
    /\ sample_day day e.
Proof.
  unfold sample_entry, randint_m2_3. unfold_monad.
  eexists. split; [reflexivity |].
  split; [reflexivity |]. split; [reflexivity |].
  eexists. split; [reflexivity |].
  pose proof (Z.mod_pos_bound (random_source env (time s)) 6 ltac:(lia)).
  destruct (weekday day <? 5)%Z; lia.
Qed.

Lemma sample_loop env (days : list Z) (s : State) (acc : list publication_entry) :
  exists s' out,
    for_each days
      (fun current_date =>
         e <- lift_state (sample_entry env current_date) ;; append_local e)
      (s, acc)
    = (Ok tt, (s', acc ++ out))
    /\ Forall2 sample_day days out
    /\ trace s' = trace s ++ repeat (RandInt (-2) 3) (List.length days).
Proof.
  revert s acc. induction days as [|d days IH]; intros s acc.
  - exists s, []. simpl. rewrite !app_nil_r. repeat split. constructor.
  - destruct (sample_entry_day env d s) as (e & E & He).
    destruct (IH (record_event (RandInt (-2) 3) s) (acc ++ [e]))
      as (s' & out & E' & Hout & Htr).
    exists s', (e :: out). split; [| split].
    + cbn [for_each]. unfold bind at 1. unfold bind at 1.
      unfold lift_state at 1. cbn [fst snd]. rewrite E.
      unfold append_local at 1. cbn [fst snd]. rewrite E'.
      rewrite <- app_assoc. reflexivity.
    + constructor; assumption.
    + rewrite Htr. cbn [record_event trace List.length repeat].
      rewrite <- app_assoc. reflexivity.
Qed.

(** X14: the made-up series (app.py 1243-1263).  It reads the clock once
    and the random generator once a day, and holds one entry for each of
    the 366 days from a year ago to today, in that order, tagged
    "Sample Data"; the count of a weekday lies between 3 and 8 and that of
    a Saturday or Sunday between 0 and 5. *)
Theorem sample_series_shape (env : Env) (s : State) :
  exists s' data,
    sample_data env (s, []) = (Ok tt, (s', data))
    /\ Forall2 sample_day (last_year (clock_now env (time s))) data
    /\ List.length data = 366
    /\ trace s' = trace s ++ ClockNow :: repeat (RandInt (-2) 3) 366.
Proof.
  unfold sample_data. unfold bind at 1. unfold get_local at 1.
  cbn [fst snd is_empty].
  unfold bind at 1. unfold lift_state at 1, call at 1. cbn [fst snd].
  fold (last_year (clock_now env (time s))).
  destruct (sample_loop env (last_year (clock_now env (time s)))
              (record_event ClockNow s) []) as (s' & out & E & Hout & Htr).
  exists s', out. split; [rewrite E; reflexivity |].
  split; [exact Hout |]. split.
  - rewrite <- (Forall2_length Hout). unfold last_year.
    rewrite length_map, length_seq. reflexivity.
  - rewrite Htr. unfold last_year. rewrite length_map, length_seq.
    cbn [record_event trace]. rewrite <- app_assoc. reflexivity.
Qed.

(** ** The person search in every world *)

Lemma appends_ret {A} (P : html -> Prop) (a : A) : appends P (ret a).
Proof.
  intros s l. exists (Ok a), s, []. rewrite app_nil_r. split; [reflexivity | constructor].
Qed.

Lemma appends_bind {A B} (P : html -> Prop) (m : M (State * list html) A)
    (k : A -> M (State * list html) B) :
  appends P m -> (forall a, appends P (k a)) -> appends P (bind m k).
Proof.
  intros Hm Hk s l. unfold bind.
  destruct (Hm s l) as (r & s1 & rest1 & E1 & H1). rewrite E1.
  destruct r as [a|e].
  - destruct (Hk a s1 (l ++ rest1)) as (r2 & s2 & rest2 & E2 & H2).
    exists r2, s2, (rest1 ++ rest2). rewrite E2, <- app_assoc.
    split; [reflexivity | apply Forall_app; split; assumption].
  - exists (Raise e), s1, rest1. split; [reflexivity | exact H1].
Qed.

Lemma appends_lift_state {A} (P : html -> Prop) (m : M State A) :
  appends P (lift_state m).
Proof.
  intros s l. unfold lift_state. cbn [fst snd].
  destruct (m s) as [r s']. exists r, s', []. rewrite app_nil_r.
  split; [reflexivity | constructor].
Qed.

Lemma appends_report_section {R} (P : html -> Prop) (results : option (list R))
    (heading : html) (info : R -> outcome html) :
  P heading -> (forall r card, info r = Ok card -> P card) ->
  appends P (report_section results heading info).
Proof.
  intros Hh Hi s l. rewrite report_section_collect.
  destruct (some_rows results) as [|r rows].
  - exists (Ok tt), s, []. rewrite app_nil_r. split; [reflexivity | constructor].
  - cbv beta iota zeta.
    pose proof (collect_until_Forall info P (r :: rows) Hi) as HF.
    revert HF. generalize (collect_until info (r :: rows)).
    intros [acc o] HF. cbn [fst snd] in *.
    exists o, s, (heading :: acc). rewrite <- app_assoc.
    split; [reflexivity | constructor; assumption].
Qed.

(** A backend block of the search: skipped, or run under a handler that
    logs.  It raises nothing. *)
Lemma appends_guarded (P : html -> Prop) (available : State -> bool)
    (body : M (State * list html) unit) (msg : exn -> text) :
  appends P body ->
  forall s l, exists s' rest,
    (a <- global available ;;
     if a then
       try_except body
         [([Exception], fun e => lift_state (log app_log WARNING (msg e)))]
     else ret tt) (s, l)
    = (Ok tt, (s', l ++ rest))
    /\ Forall P rest.
Proof.
  intros Hb s l. unfold global. unfold_monad. cbn [fst snd].
  destruct (available s).
  - destruct (Hb s l) as (r & s1 & rest & E & H). rewrite E.
    destruct r as [[]|e]; cbn [select_clause]; rewrite ?isinstance_Exception;
      eexists; exists rest; (split; [reflexivity | exact H]).
  - exists s, []. rewrite app_nil_r. split; [reflexivity | constructor].
Qed.

Lemma mysql_faculty_info_card (r : row) (card : html) :
  mysql_faculty_info r = Ok card -> heading_backend card = None.
Proof.
  unfold mysql_faculty_info.
  repeat (match goal with
          | |- context [getitem ?t ?i] => destruct (getitem t i); cbn [obind]
          end; [| discriminate]).
  intros H. injection H as <-. reflexivity.
Qed.

Lemma mysql_pub_info_card (r : row) (card : html) :
  mysql_pub_info r = Ok card -> heading_backend card = None.
Proof.
  unfold mysql_pub_info.
  repeat (match goal with
          | |- context [getitem ?t ?i] => destruct (getitem t i); cbn [obind]
          end; [| discriminate]).
  intros H. injection H as <-. reflexivity.
Qed.

Lemma mongodb_faculty_info_card (d : document) (card : html) :
  mongodb_faculty_info d = Ok card -> heading_backend card = None.
Proof.
  unfold mongodb_faculty_info.
  destruct (joined_or_NA d "research_areas"); cbn [obind]; [| discriminate].
  intros H. injection H as <-. reflexivity.
Qed.

Lemma mongodb_pub_info_card (d : document) (card : html) :
  mongodb_pub_info d = Ok card -> heading_backend card = None.
Proof.
  unfold mongodb_pub_info.
  destruct (joined_or_NA d "authors"); cbn [obind]; [| discriminate].
  intros H. injection H as <-. reflexivity.
Qed.

Lemma card_not_graph_heading (item : html) :
  heading_backend item = None -> not_graph_heading item.
Proof. unfold not_graph_heading. intros ->. discriminate. Qed.

Lemma mysql_person_search_items env name s l :
  exists s' rest,
    mysql_person_search env name (s, l) = (Ok tt, (s', l ++ rest))
    /\ Forall not_graph_heading rest.
Proof.
  apply (appends_guarded not_graph_heading mysql_available _
           (fun e => [Lit "MySQL person search failed: "; Exc e])).
  apply appends_bind; [apply appends_lift_state | intros faculty_results].
  apply appends_bind.
  - apply appends_report_section; [discriminate |].
    intros r card H. apply card_not_graph_heading, (mysql_faculty_info_card r), H.
  - intros _. apply appends_bind; [apply appends_lift_state | intros pub_results].
    apply appends_report_section; [discriminate |].
    intros r card H. apply card_not_graph_heading, (mysql_pub_info_card r), H.
Qed.

Lemma mongodb_person_search_items env name s l :
  exists s' rest,
    mongodb_person_search env name (s, l) = (Ok tt, (s', l ++ rest))
    /\ Forall not_graph_heading rest.
Proof.
  apply (appends_guarded not_graph_heading mongodb_available _
           (fun e => [Lit "MongoDB person search failed: "; Exc e])).
  apply appends_bind; [apply appends_lift_state | intros faculty_docs].
  apply appends_bind.
  - apply appends_report_section; [discriminate |].
    intros r card H. apply card_not_graph_heading, (mongodb_faculty_info_card r), H.
  - intros _. apply appends_bind; [apply appends_lift_state | intros pub_docs].
    apply appends_report_section; [discriminate |].
    intros r card H. apply card_not_graph_heading, (mongodb_pub_info_card r), H.
Qed.

Lemma cards_under_no_graph (current : option backend) (items tail : list html) :
  current <> Some Graph ->
  Forall not_graph_heading items ->
  exists current',
    current' <> Some Graph
    /\ cards_under Graph current (items ++ tail) = cards_under Graph current' tail.
Proof.
  intros Hc H. revert current Hc.
  induction H as [|item items Hi _ IH]; intros current Hc.
  - exists current. split; [exact Hc | reflexivity].
  - cbn [app cards_under]. unfold not_graph_heading in Hi.
    destruct (heading_backend item) as [b|].
    + apply IH. congruence.
    + destruct current as [b|]; [| apply IH; exact Hc].
      destruct b; cbn [backend_eqb]; try (apply IH; exact Hc).
      contradiction Hc. reflexivity.
Qed.

Lemma cards_under_only_headings (b : backend) (current : option backend)
    (items : list html) :
  Forall (fun item => heading_backend item = Some Graph) items ->
  cards_under b current items = [].
Proof.
  intros H. revert current.
  induction H as [|h hs Hh _ IH]; intros current; simpl; [reflexivity |].
  rewrite Hh. apply IH.
Qed.

(** What [get_person_information] returns in every world. *)
Lemma get_person_information_run env name s :
  exists report s',
    get_person_information env name s = (Ok report, s')
    /\ (report = not_found_report name
        \/ exists all_results,
             all_results <> []
             /\ report = found_report name all_results
             /\ section_of Graph all_results = []).
Proof.
  destruct (mysql_person_search_items env name s []) as (s1 & r1 & E1 & H1).
  destruct (mongodb_person_search_items env name s1 ([] ++ r1))
    as (s2 & r2 & E2 & H2).
  destruct (neo4j_person_search_headings env name s2 (([] ++ r1) ++ r2))
    as (s3 & r3 & E3 & H3).
  unfold get_person_information, with_local. cbv [bind].
  rewrite E1, E2, E3. cbv [get_local ret]. cbn [fst snd].
  destruct ((([] ++ r1) ++ r2) ++ r3) as [|x xs] eqn:EL.
  - eexists. eexists. split; [reflexivity | left; reflexivity].
  - eexists. eexists. split; [reflexivity | right].
    exists (x :: xs). split; [discriminate |]. split; [reflexivity |].
    rewrite <- EL. unfold section_of. cbn [app].
    destruct (cards_under_no_graph None (r1 ++ r2) r3 ltac:(discriminate)
                ltac:(apply Forall_app; split; assumption))
      as (current' & _ & ->).
    apply cards_under_only_headings, H3.
Qed.

(** X15: the person search never fails (app.py 351-363 and 977-1170).
    Whatever the three servers answer, [search_person] returns a view and
    raises nothing, and never the view "Error searching for person".
    Without a click or without a name it returns the placeholder and
    leaves the state as it was, so no backend is called.  Otherwise the
    view is the not-found report or a found-report with at least one item,
    in which no card stands under a heading of the graph backend: the
    records of that backend are read by position (1101-1107), which fails
    on a record keyed by name. *)
Theorem person_search_never_fails (env : Env) (n_clicks : pyval)
    (person_name : option string) (s : State) :
  exists view s',
    search_person env n_clicks person_name s = (Ok view, s')
    /\ (forall e, view <> search_error e)
    /\ match person_name with
       | None => view = search_placeholder /\ s' = s
       | Some name =>
           if negb (truthy n_clicks) || (name =? "")%string
           then view = search_placeholder /\ s' = s
           else
             get_person_information env name s = (Ok view, s')
             /\ (view = not_found_report name
                 \/ exists all_results,
                      all_results <> []
                      /\ view = found_report name all_results
                      /\ section_of Graph all_results = [])
       end.
Proof.
  unfold search_person. destruct person_name as [name|].
  - cbn [truthy]. destruct (negb (truthy n_clicks)); cbn [orb].
    + exists search_placeholder, s. repeat split. discriminate.
    + destruct (name =? "")%string; cbn [negb].
      * exists search_placeholder, s. repeat split. discriminate.
      * destruct (get_person_information_run env name s)
          as (report & s' & E & Hr).
        exists report, s'. unfold try_except. rewrite E.
        split; [reflexivity |]. split; [| split; [reflexivity | exact Hr]].
        intros e. destruct Hr as [-> | (items & _ & -> & _)]; discriminate.
  - exists search_placeholder, s. repeat split. discriminate.
Qed.

(** ** The graph backend in the person search *)

Lemma neo4j_query_answers env q p s c h records :
  neo4j_conn s = Some c -> driver c = Some h ->
  neo4j_run_result env (time s) h q p = Ok records ->
  Neo4j.execute_query env q p s
  = (Ok (Some records),
     record_event
       (Log neo4j_log INFO
          [Lit "Query executed successfully, returned ";
           Val (VInt (Z.of_nat (List.length records))); Lit " records"])
       (record_event (Neo4jRun h q p) s)).
Proof.
  intros Hc Hd Hrun. unfold_neo4j. unfold_monad. simpl.
  rewrite Hc. simpl. rewrite Hd. simpl. rewrite Hc. simpl. rewrite Hd. simpl.
  rewrite Hrun. reflexivity.
Qed.

(** X16: a person the graph backend knows (app.py 1085-1156).  When the
    lookup of the person on the graph backend returns at least one record,
    the search appends the heading "Neo4j - Person Information" and
    nothing under it: reading the first record by position raises
    [KeyError], which ends the block with a warning, so the two further
    lookups (publications and collaborators) are never sent.  With the
    other two backends not connected the report is a found-report that
    holds this heading alone. *)
Theorem graph_records_give_a_bare_heading
    (env : Env) (name : string) (s : State) (c : Neo4jConnection) (h : nat)
    (r : document) (rs : list document) :
  neo4j_conn s = Some c -> driver c = Some h ->
  neo4j_run_result env (time s) h neo4j_person_query [("name", VStr name)]
    = Ok (r :: rs) ->
  let s' :=
    record_event
      (Log app_log WARNING [Lit "Neo4j person search failed: "; Exc key_error])
      (record_event
         (Log neo4j_log INFO
            [Lit "Query executed successfully, returned ";
             Val (VInt (Z.of_nat (List.length (r :: rs)))); Lit " records"])
         (record_event (Neo4jRun h neo4j_person_query [("name", VStr name)]) s)) in
  (forall l, neo4j_person_search env name (s, l)
             = (Ok tt, (s', l ++ [neo4j_person_heading])))
  /\ (mysql_available s = false -> mongodb_available s = false ->
      get_person_information env name s
      = (Ok (found_report name [neo4j_person_heading]), s')).
Proof.
  intros Hc Hd Hrun s'.
  assert (Ha : neo4j_available s = true)
    by (unfold neo4j_available; rewrite Hc, Hd; reflexivity).
  assert (Hsearch : forall l, neo4j_person_search env name (s, l)
                              = (Ok tt, (s', l ++ [neo4j_person_heading]))).
  { intros l. unfold neo4j_person_search, global. unfold_monad. cbn [fst snd].
    rewrite Ha. cbn [fst snd].
    rewrite (neo4j_query_answers env _ _ s c h (r :: rs) Hc Hd Hrun).
    cbn [fst snd]. rewrite report_section_collect. cbn [some_rows].
    rewrite (collect_until_raises _ key_error) by exact neo4j_person_info_raises.
    cbn [fst snd select_clause]. rewrite isinstance_Exception, app_nil_r.
    reflexivity. }
  split; [exact Hsearch |].
  intros Hmy Hmo.
  unfold get_person_information, with_local. cbv [bind].
  assert (E1 : mysql_person_search env name (s, []) = (Ok tt, (s, []))).
  { unfold mysql_person_search, global. unfold_monad. cbn [fst snd].
    rewrite Hmy. reflexivity. }
  assert (E2 : mongodb_person_search env name (s, []) = (Ok tt, (s, []))).
  { unfold mongodb_person_search, global. unfold_monad. cbn [fst snd].
    rewrite Hmo. reflexivity. }
  rewrite E1, E2, Hsearch. reflexivity.
Qed.

Lemma graph_records_give_a_bare_heading_witness :
  exists s',
    (forall l, neo4j_person_search (graph_only [ada_record]) "Ada"
                 (started None None (Some 0), l)
               = (Ok tt, (s', l ++ [neo4j_person_heading])))
    /\ get_person_information (graph_only [ada_record]) "Ada"
         (started None None (Some 0))
       = (Ok (found_report "Ada" [neo4j_person_heading]), s').
Proof.
  destruct (graph_records_give_a_bare_heading (graph_only [ada_record]) "Ada"
              (started None None (Some 0)) _ 0 ada_record []
              eq_refl eq_refl eq_refl) as [H1 H2].
  eexists. split; [exact H1 | exact (H2 eq_refl eq_refl)].
Defined.

(** ** A connect that fails *)

Lemma neo4j_connect_probe_fails env s c e :
  neo4j_conn s = Some c ->
  neo4j_driver_result env (time s) = Ok tt ->
  neo4j_run_result env (S (time s)) (time s) "RETURN 1 as test" [] = Raise e ->
  exists s1 c1,
    Neo4j.connect env s = (Ok false, s1)
    /\ neo4j_conn s1 = Some c1 /\ driver c1 = Some (time s).
Proof.
  intros Hc Hdrv Hrun. unfold Neo4j.connect, Neo4j.run, Neo4j.self,
    Neo4j.set_driver. unfold_monad. simpl.
  rewrite Hc. simpl. rewrite Hdrv. simpl. rewrite Hc. simpl.
  match goal with
  | |- context [neo4j_run_result env ?t _ _ _] =>
      replace t with (S (time s))
        by (unfold time; cbn [trace]; rewrite length_app; simpl; lia)
  end.
  rewrite Hrun. simpl.
  destruct (isinstance e [ServiceUnavailable; AuthError]); simpl;
    rewrite ?isinstance_Exception; simpl;
    eexists; eexists; (split; [reflexivity | split; reflexivity]).
Qed.

Lemma mongodb_connect_ping_fails env s c e :
  mongodb_conn s = Some c ->
  mongo_client_result env (time s) = Ok tt ->
  mongo_ping_result env (S (time s)) (time s) = Raise e ->
  exists s1 c1,
    MongoDB.connect env s = (Ok false, s1)
    /\ mongodb_conn s1 = Some c1 /\ client c1 = Some (time s).
Proof.
  intros Hc Hcl Hping. unfold MongoDB.connect, MongoDB.set_client,
    MongoDB.update, MongoDB.self. unfold_monad. simpl.
  rewrite Hc. simpl. rewrite Hcl. simpl. rewrite Hc. simpl.
  match goal with
  | |- context [mongo_ping_result env ?t _] =>
      replace t with (S (time s))
        by (unfold time; cbn [trace]; rewrite length_app; simpl; lia)
  end.
  rewrite Hping. simpl.
  destruct (isinstance e [ConnectionFailure; ServerSelectionTimeoutError]); simpl;
    rewrite ?isinstance_Exception; simpl;
    eexists; eexists; (split; [reflexivity | split; reflexivity]).
Qed.

Lemma mysql_connect_refused env s c e :
  mysql_conn s = Some c ->
  mysql_connect_result env (time s) = Raise e -> exn_cls e = MySQLError ->
  MySQL.connect env s
  = (Ok false,
     record_event
       (Log mysql_log ERROR [Lit "Error connecting to MySQL database: "; Exc e])
       (record_event MySQLConnect s)).
Proof.
  intros Hc Hcon Hcls. unfold MySQL.connect, MySQL.self. unfold_monad. simpl.
  rewrite Hc. simpl. rewrite Hcon. simpl.
  rewrite (isinstance_class _ _ Hcls). reflexivity.
Qed.

(** X17: what a failed [connect] leaves behind.  The graph and the
    document adapter store the new driver or client before they probe it
    (neo4j_utils.py 43-51, mongodb_utils.py 58-61), so when the probe fails
    [connect] returns [False] with the handle left in place: the check
    [neo4j_conn and neo4j_conn.driver] of app.py then takes the backend as
    connected, and the next query of the graph adapter makes no connect
    attempt.  The relational adapter assigns its handle only when the
    driver returns one (mysql_utils.py 42): after a refused connect the
    handle, and with it the check of app.py, is as it was. *)
Theorem failed_connect_leaves_the_handle (env : Env) (s : State) :
  (forall c e,
     neo4j_conn s = Some c -> driver c = None ->
     neo4j_driver_result env (time s) = Ok tt ->
     neo4j_run_result env (S (time s)) (time s) "RETURN 1 as test" [] = Raise e ->
     exists s1,
       Neo4j.connect env s = (Ok false, s1)
       /\ neo4j_available s = false /\ neo4j_available s1 = true
       /\ forall q p,
            count_events is_neo4j_connect
              (since s1 (snd (Neo4j.execute_query env q p s1))) = 0)
  /\ (forall c e,
        mongodb_conn s = Some c -> client c = None ->
        mongo_client_result env (time s) = Ok tt ->
        mongo_ping_result env (S (time s)) (time s) = Raise e ->
        exists s1,
          MongoDB.connect env s = (Ok false, s1)
          /\ mongodb_available s = false /\ mongodb_available s1 = true)
  /\ (forall c e,
        mysql_conn s = Some c ->
        mysql_connect_result env (time s) = Raise e -> exn_cls e = MySQLError ->
        exists s1,
          MySQL.connect env s = (Ok false, s1)
          /\ mysql_conn s1 = mysql_conn s
          /\ mysql_available s1 = mysql_available s).
Proof.
  split; [| split].
  - intros c e Hc Hd Hdrv Hrun.
    destruct (neo4j_connect_probe_fails env s c e Hc Hdrv Hrun)
      as (s1 & c1 & E & Hc1 & Hd1).
    exists s1. split; [exact E |].
    split; [unfold neo4j_available; rewrite Hc, Hd; reflexivity |].
    split; [unfold neo4j_available; rewrite Hc1, Hd1; reflexivity |].
    intros q p. exact (neo4j_present_no_connect env q p s1 c1 _ Hc1 Hd1).
  - intros c e Hc Hd Hcl Hping.
    destruct (mongodb_connect_ping_fails env s c e Hc Hcl Hping)
      as (s1 & c1 & E & Hc1 & Hd1).
    exists s1. split; [exact E |].
    split; [unfold mongodb_available; rewrite Hc, Hd; reflexivity |].
    unfold mongodb_available. rewrite Hc1, Hd1. reflexivity.
  - intros c e Hc Hcon Hcls. eexists.
    split; [exact (mysql_connect_refused env s c e Hc Hcon Hcls) |].
    split; reflexivity.
Qed.

Lemma failed_connect_leaves_the_handle_witness :
  let s := started None None None in
  (exists s1,
     Neo4j.connect unreachable s = (Ok false, s1)
     /\ neo4j_available s = false /\ neo4j_available s1 = true
     /\ forall q p,
          count_events is_neo4j_connect
            (since s1 (snd (Neo4j.execute_query unreachable q p s1))) = 0)
  /\ (exists s1,
        MongoDB.connect unreachable s = (Ok false, s1)
        /\ mongodb_available s = false /\ mongodb_available s1 = true)
  /\ (exists s1,
        MySQL.connect unreachable s = (Ok false, s1)
        /\ mysql_conn s1 = mysql_conn s
        /\ mysql_available s1 = mysql_available s).
Proof.
  destruct (failed_connect_leaves_the_handle unreachable (started None None None))
    as (H1 & H2 & H3).
  split; [| split].
  - eapply H1; reflexivity.
  - eapply H2; reflexivity.
  - eapply H3; reflexivity.
Defined.

(** ** The truth test of the document adapter *)

Lemma find_documents_truth_raises env coll filter limit s c h e :
  mongodb_conn s = Some c -> client c = Some h ->
  MongoDB.nonempty (database_name c) = true ->
  pymongo_bool env = Raise e ->
  MongoDB.find_documents env coll filter limit s = (Raise e, s).
Proof.
  intros Hc Hcl Hn Hb. unfold_mongodb. unfold_monad. simpl.
  rewrite Hc. simpl. rewrite Hcl. simpl. rewrite Hc. simpl.
  destruct (database_name c) as [n|]; [| discriminate Hn].
  unfold MongoDB.nonempty in Hn |- *. rewrite Hn. rewrite Hcl. simpl.
  rewrite Hb. reflexivity.
Qed.

(** X18: the document adapter under a driver whose [Database] objects
    refuse a truth test (pymongo 4 raises [NotImplementedError] on
    [bool(database)]).  With a client in place and a database name set,
    [get_collection] tests [if not database] (mongodb_utils.py 115) before
    anything is sent: [find_documents] raises that exception and leaves
    the state as it was, so no query reaches the server.  In the person
    search the exception is caught by the block of app.py 1082-1083: one
    warning is logged and nothing is added to the report. *)
Theorem truth_test_stops_the_document_search
    (env : Env) (s : State) (c : MongoDBConnection) (h : nat) (e : exn) :
  mongodb_conn s = Some c -> client c = Some h ->
  MongoDB.nonempty (database_name c) = true ->
  pymongo_bool env = Raise e ->
  (forall coll filter limit,
     MongoDB.find_documents env coll filter limit s = (Raise e, s))
  /\ (forall name l,
        mongodb_person_search env name (s, l)
        = (Ok tt,
           (record_event
              (Log app_log WARNING [Lit "MongoDB person search failed: "; Exc e])
              s, l))).
Proof.
  intros Hc Hcl Hn Hb.
  assert (Hfind : forall coll filter limit,
             MongoDB.find_documents env coll filter limit s = (Raise e, s))
    by (intros; apply (find_documents_truth_raises env _ _ _ s c h e); assumption).
  split; [exact Hfind |].
  intros name l. unfold mongodb_person_search, global. unfold_monad. cbn [fst snd].
  assert (Ha : mongodb_available s = true)
    by (unfold mongodb_available; rewrite Hc, Hcl; reflexivity).
  rewrite Ha. cbn [fst snd]. rewrite Hfind. cbn [fst snd select_clause].
  rewrite isinstance_Exception. reflexivity.
Qed.

Lemma truth_test_stops_the_document_search_witness :
  let s := started None (Some 0) None in
  let e := Exn NotImplementedError
             "Database objects do not implement truth value testing" in
  (forall coll filter limit,
     MongoDB.find_documents unreachable coll filter limit s = (Raise e, s))
  /\ (forall name l,
        mongodb_person_search unreachable name (s, l)
        = (Ok tt,
           (record_event
              (Log app_log WARNING [Lit "MongoDB person search failed: "; Exc e])
              s, l))).
Proof.
  exact (truth_test_stops_the_document_search unreachable
           (started None (Some 0) None) _ 0 _ eq_refl eq_refl eq_refl eq_refl).
Defined.

(** ** One call of the relational adapter *)

(** X19: what one call of [MySQLConnection.execute_query]
    (mysql_utils.py 67-91) does to the server, in every world and state:
    at most one connect attempt and at most one execution, of the query
    text and parameters it was given and of nothing else.  When it returns
    rows the query has been executed exactly once and the rows are what the
    server answered to it.  The other two connection objects are left as
    they were. *)
Theorem relational_query_runs_at_most_once
    (env : Env) (q : string) (p : list pyval) (s : State) :
  let r := MySQL.execute_query env q p s in
  count_events is_mysql_connect (since s (snd r)) <= 1
  /\ count_events is_mysql_execute (since s (snd r)) <= 1
  /\ Forall (sends_only q p) (since s (snd r))
  /\ (forall rows,
        fst r = Ok (Some rows) ->
        count_events is_mysql_execute (since s (snd r)) = 1
        /\ exists t h, mysql_execute_result env t h q p = Ok rows)
  /\ mongodb_conn (snd r) = mongodb_conn s
  /\ neo4j_conn (snd r) = neo4j_conn s.
Proof.
  cbv zeta.
  split; [| split; [| split; [| split]]].
  - unfold_mysql. unfold_monad. simpl.
    repeat break_inner; since_simpl; unfold count_events; simpl; lia.
  - unfold_mysql. unfold_monad. simpl.
    repeat break_inner; since_simpl; unfold count_events; simpl; lia.
  - unfold_mysql. unfold_monad. simpl.
    repeat break_inner; since_simpl; repeat constructor.
  - intros rows H. split.
    + revert H. unfold_mysql. unfold_monad. simpl.
      repeat break_inner; intros H; try discriminate H; since_simpl; reflexivity.
    + exact (mysql_execute_query_rows env q p s rows H).
  - apply mysql_execute_query_frame.
Qed.

(** ** The relational widgets *)

(** X20: the relational widgets never connect (app.py 517-523, 606-612,
    679-685).  When the relational handle is absent, in whatever world,
    each of them answers "MySQL not connected" and leaves the state as it
    was: no event at all, so the lazy connect of the adapter
    (mysql_utils.py 78-80) is not reached, and a server that has come back
    is not noticed. *)
Theorem relational_widgets_never_connect
    (env : Env) (s : State) (keyword : string) (keywords : list string) :
  mysql_available s = false ->
  get_publications_by_keyword env keyword s = (Ok mysql_not_connected, s)
  /\ get_all_publications env s = (Ok mysql_not_connected, s)
  /\ get_keyword_comparison env keywords s = (Ok mysql_not_connected, s)
  /\ (forall l, mysql_publications env (s, l) = (Ok tt, (s, l))).
Proof.
  intros Ha. split; [| split; [| split]].
  - unfold get_publications_by_keyword. unfold_monad. rewrite Ha. reflexivity.
  - unfold get_all_publications. unfold_monad. rewrite Ha. reflexivity.
  - unfold get_keyword_comparison. unfold_monad. rewrite Ha. reflexivity.
  - intros l. unfold mysql_publications, global. unfold_monad. cbn [fst snd].
    rewrite Ha. reflexivity.
Qed.

Lemma relational_widgets_never_connect_witness :
  let s := started None None None in
  let env := relational_only (fun _ => Ok []) in
  get_publications_by_keyword env "AI" s = (Ok mysql_not_connected, s)
  /\ get_all_publications env s = (Ok mysql_not_connected, s)
  /\ get_keyword_comparison env ["AI"; "ML"] s = (Ok mysql_not_connected, s)
  /\ (forall l, mysql_publications env (s, l) = (Ok tt, (s, l))).
Proof.
  exact (relational_widgets_never_connect (relational_only (fun _ => Ok []))
           (started None None None) "AI" ["AI"; "ML"] eq_refl).
Defined.

(** ** The keyword comparison *)

Lemma mysql_execute_query_extends env q p s :
  exists evs,
    trace (snd (MySQL.execute_query env q p s)) = trace s ++ evs
    /\ count_events is_mysql_execute evs <= 1.
Proof.
  unfold_mysql. unfold_monad. simpl.
  repeat break_inner;
    (eexists; split;
     [cbn [trace record_event]; rewrite <- ?app_assoc;
      first [reflexivity | symmetry; apply app_nil_r]
     | unfold count_events; simpl; lia]).
Qed.

Lemma entry_of_row_keyword keyword r entry :
  entry_of_row keyword r = Ok entry -> ke_keyword entry = keyword.
Proof.
  unfold entry_of_row.
  repeat (match goal with
          | |- context [obind ?o _] => destruct o; cbn [obind]
          end; [| discriminate]).
  intros H. injection H as <-. reflexivity.
Qed.

Lemma keyword_statistics_run env keyword s :
  (forall entry, fst (keyword_statistics env keyword s) = Ok entry ->
                 ke_keyword entry = keyword)
  /\ exists evs,
       trace (snd (keyword_statistics env keyword s)) = trace s ++ evs
       /\ count_events is_mysql_execute evs <= 1.
Proof.
  unfold keyword_statistics. cbv zeta. unfold bind.
  match goal with
  | |- context [MySQL.execute_query ?e ?q ?p ?s0] =>
      pose proof (mysql_execute_query_extends e q p s0) as Hext;
      destruct (MySQL.execute_query e q p s0) as [[results|x] s1]
  end; cbn [fst snd] in *.
  - destruct (some_rows results) as [|r rows].
    + split; [| exact Hext]. unfold ret. cbn [fst].
      intros entry H. injection H as <-. reflexivity.
    + unfold lift_outcome. cbn [fst snd]. split; [| exact Hext].
      intros entry. apply entry_of_row_keyword.
  - split; [| exact Hext]. intros entry H. discriminate H.
Qed.

Lemma mapM_keyword_statistics env (keywords : list string) (s : State) :
  (forall data, fst (mapM (keyword_statistics env) keywords s) = Ok data ->
                map ke_keyword data = keywords)
  /\ exists evs,
       trace (snd (mapM (keyword_statistics env) keywords s)) = trace s ++ evs
       /\ count_events is_mysql_execute evs <= List.length keywords.
Proof.
  revert s. induction keywords as [|k ks IH]; intros s.
  - simpl. split.
    + intros data H. injection H as <-. reflexivity.
    + exists []. rewrite app_nil_r. split; [reflexivity | apply Nat.le_refl].
  - cbn [mapM]. unfold bind, ret.
    destruct (keyword_statistics_run env k s) as [Hk (evs1 & Ht1 & Hc1)].
    destruct (keyword_statistics env k s) as [[entry|x] s1]; cbn [fst snd] in *.
    + destruct (IH s1) as [Hks (evs2 & Ht2 & Hc2)].
      destruct (mapM (keyword_statistics env) ks s1) as [[data|x] s2];
        cbn [fst snd] in *.
      * split.
        -- intros data' H. injection H as <-. simpl.
           rewrite (Hk entry eq_refl), (Hks data eq_refl). reflexivity.
        -- exists (evs1 ++ evs2). rewrite Ht2, Ht1, <- app_assoc.
           split; [reflexivity |]. unfold count_events in *.
           rewrite filter_app, length_app. simpl. lia.
      * split; [intros data H; discriminate H |].
        exists (evs1 ++ evs2). rewrite Ht2, Ht1, <- app_assoc.
        split; [reflexivity |]. unfold count_events in *.
        rewrite filter_app, length_app. simpl. lia.
    + split; [intros data H; discriminate H |].
      exists evs1. split; [exact Ht1 |]. simpl. lia.
Qed.

Lemma since_extends (s s' : State) (evs : list event) :
  trace s' = trace s ++ evs -> since s s' = evs.
Proof. intros H. unfold since, time. rewrite H. apply skipn_length_app. Qed.

Lemma get_keyword_comparison_run env keywords s :
  exists fig sm s',
    get_keyword_comparison env keywords s = (Ok (fig, sm), s')
    /\ (forall data,
          fig = KeywordComparison data ->
          sm = ComparisonSummary data /\ map ke_keyword data = keywords)
    /\ (keywords <> [] ->
        fig <> Annotation [Lit "No data found for any keywords"])
    /\ count_events is_mysql_execute (since s s') <= List.length keywords.
Proof.
  unfold get_keyword_comparison. unfold try_except, bind, read.
  destruct (mysql_available s); cbn [negb].
  - destruct (mapM_keyword_statistics env keywords s) as [Hd (evs & Ht & Hc)].
    destruct (mapM (keyword_statistics env) keywords s) as [[data|x] s1];
      cbn [fst snd] in *.
    + destruct data as [|e0 data'].
      * eexists. eexists. eexists. unfold ret.
        split; [reflexivity |]. split; [intros d H; discriminate H |].
        split; [| rewrite (since_extends _ _ _ Ht); exact Hc].
        intros Hne _. apply Hne. rewrite <- (Hd [] eq_refl). reflexivity.
      * eexists. eexists. eexists. unfold ret.
        split; [reflexivity |]. split.
        -- intros d H. injection H as <-.
           split; [reflexivity | exact (Hd _ eq_refl)].
        -- split; [intros _; discriminate |].
           rewrite (since_extends _ _ _ Ht). exact Hc.
    + cbn [select_clause]. rewrite isinstance_Exception. unfold ret.
      eexists. eexists. eexists.
      split; [reflexivity |]. split; [intros d H; discriminate H |].
      split; [intros _; discriminate |].
      rewrite (since_extends _ _ _ Ht). exact Hc.
  - unfold ret. eexists. eexists. eexists.
    split; [reflexivity |]. split; [intros d H; discriminate H |].
    split; [intros _; discriminate |].
    rewrite (since_extends s s []) by (symmetry; apply app_nil_r).
    unfold count_events. simpl. lia.
Qed.

Lemma collect_keywords_stripped (inputs : list (option string)) :
  Forall (fun k => strip k = k /\ trimmed k = true /\ k <> "")
         (collect_keywords inputs)
  /\ List.length (collect_keywords inputs) <= List.length inputs.
Proof.
  unfold collect_keywords.
  induction inputs as [|kw inputs [IH1 IH2]];
    [split; [constructor | apply Nat.le_refl] |].
  cbn [flat_map]. split.
  - apply Forall_app. split; [| exact IH1].
    destruct kw as [w|]; [| constructor].
    destruct (negb (w =? "")%string && negb (strip w =? "")%string) eqn:E;
      [| constructor].
    constructor; [| constructor].
    split; [apply strip_idempotent |]. split; [apply strip_trimmed |].
    apply andb_prop in E. destruct E as [_ E].
    apply negb_true_iff, String.eqb_neq in E. exact E.
  - rewrite length_app. cbn [List.length].
    match goal with
    | |- List.length ?x + _ <= _ => assert (Hx : List.length x <= 1)
    end.
    { destruct kw as [w|]; [| simpl; lia].
      destruct (negb (w =? "")%string && negb (strip w =? "")%string);
        simpl; lia. }
    lia.
Qed.

(** X21: the keyword comparison (app.py 421-447 and 676-792).  In every
    world [compare_keywords] and [get_keyword_comparison] return a figure
    and a summary and raise nothing.  A comparison holds one entry for
    each keyword asked for, in the order asked, under that keyword; each
    keyword costs at most one query; and with at least one keyword the
    answer is never "No data found for any keywords", whose branch
    (731-736) only an empty list of keywords reaches.  From the callback
    the keywords are the inputs that are not blank, stripped of the white
    space of Unicode at both ends: between 2 and 5 of them. *)
Theorem keyword_comparison_entries (env : Env) (s : State) :
  (forall keywords,
     exists fig sm s',
       get_keyword_comparison env keywords s = (Ok (fig, sm), s')
       /\ (forall data,
             fig = KeywordComparison data ->
             sm = ComparisonSummary data /\ map ke_keyword data = keywords)
       /\ (keywords <> [] ->
           fig <> Annotation [Lit "No data found for any keywords"])
       /\ count_events is_mysql_execute (since s s') <= List.length keywords)
  /\ (forall n_clicks k1 k2 k3 k4 k5,
        exists fig sm s',
          compare_keywords env n_clicks k1 k2 k3 k4 k5 s = (Ok (fig, sm), s')
          /\ fig <> Annotation [Lit "No data found for any keywords"]
          /\ count_events is_mysql_execute (since s s') <= 5
          /\ forall data,
               fig = KeywordComparison data ->
               map ke_keyword data = collect_keywords [k1; k2; k3; k4; k5]
               /\ 2 <= List.length data <= 5
               /\ Forall (fun e => strip (ke_keyword e) = ke_keyword e
                                   /\ trimmed (ke_keyword e) = true
                                   /\ ke_keyword e <> "") data).
Proof.
  split; [intros keywords; apply get_keyword_comparison_run |].
  intros n_clicks k1 k2 k3 k4 k5. unfold compare_keywords.
  assert (Hnone : count_events is_mysql_execute (since s s) <= 5).
  { rewrite (since_extends s s []) by (symmetry; apply app_nil_r).
    unfold count_events. simpl. lia. }
  destruct (negb (truthy n_clicks)).
  { unfold ret. eexists. eexists. eexists. split; [reflexivity |].
    split; [discriminate |]. split; [exact Hnone |].
    intros data H. discriminate H. }
  destruct (collect_keywords_stripped [k1; k2; k3; k4; k5]) as [Hstrip Hlen].
  set (keywords := collect_keywords [k1; k2; k3; k4; k5]) in *.
  destruct (List.length keywords <? 2) eqn:E2.
  { unfold ret. eexists. eexists. eexists. split; [reflexivity |].
    split; [discriminate |]. split; [exact Hnone |].
    intros data H. discriminate H. }
  apply Nat.ltb_ge in E2.
  destruct (get_keyword_comparison_run env keywords s)
    as (fig & sm & s' & E & Hdata & Hnd & Hcount).
  exists fig, sm, s'. unfold try_except. rewrite E.
  split; [reflexivity |]. split.
  { apply Hnd. intros H. rewrite H in E2. simpl in E2. lia. }
  split; [simpl in Hlen; lia |].
  intros data Hfig. destruct (Hdata data Hfig) as [_ Hk].
  split; [exact Hk |]. split.
  - rewrite <- (length_map ke_keyword), Hk. simpl in Hlen. lia.
  - rewrite <- Hk in Hstrip. clear - Hstrip.
    induction data as [|e data IH]; [constructor |].
    inversion Hstrip; subst. constructor; [assumption | apply IH; assumption].
Qed.

(** ** The list of universities *)

Lemma omap_option_of_row (rows : list row) (options : list dropdown_option) :
  omap option_of_row rows = Ok options ->
  map (fun o => Some (label o)) options = map first_field rows
  /\ Forall (fun o => value o = label o) options.
Proof.
  revert options. induction rows as [|r rows IH]; intros options; simpl.
  - intros H. injection H as <-. split; [reflexivity | constructor].
  - unfold option_of_row at 1, getitem, first_field at 1.
    destruct (nth_error r 0) as [v|]; cbn [obind]; [| discriminate].
    destruct (omap option_of_row rows) as [os|]; cbn [obind]; [| discriminate].
    intros H. injection H as <-. destruct (IH os eq_refl) as [H1 H2].
    simpl. rewrite H1. split; [reflexivity |]. constructor; [reflexivity | exact H2].
Qed.

(** X22: the options of the university dropdown (app.py 454-461 and
    794-818).  In every world [populate_university_dropdown] returns a
    list and raises nothing.  Without a relational handle it returns no
    option, logs one warning and sends nothing to the server.  The options
    it returns are all or nothing: either one option for each row the
    server answered, in the server's order, with the first field of the
    row as both label and value, or no option at all: in particular a
    single row without a field empties the list. *)
Theorem university_options (env : Env) (n_clicks : pyval) (s : State) :
  exists options s',
    populate_university_dropdown env n_clicks s = (Ok options, s')
    /\ Forall (fun o => value o = label o) options
    /\ (mysql_available s = false ->
        options = []
        /\ since s s'
           = [Log app_log WARNING [Lit "MySQL not connected for university list"]])
    /\ (options = []
        \/ exists rows t h,
             mysql_execute_result env t h universities_query [] = Ok rows
             /\ map (fun o => Some (label o)) options = map first_field rows).
Proof.
  unfold populate_university_dropdown, get_available_universities.
  unfold try_except at 1 2. unfold bind at 1. unfold read at 1.
  destruct (mysql_available s) eqn:Ha.
  - unfold bind.
    pose proof (mysql_execute_query_rows env universities_query [] s) as Hrows.
    destruct (MySQL.execute_query env universities_query [] s)
      as [[results|x] s1]; cbn [fst snd] in *.
    + destruct (some_rows results) as [|r rows] eqn:Er.
      * unfold ret. exists [], s1. split; [reflexivity |].
        split; [constructor |]. split; [discriminate | left; reflexivity].
      * unfold lift_outcome.
        destruct (omap option_of_row (r :: rows)) as [options|x] eqn:Eo.
        -- exists options, s1. split; [reflexivity |].
           destruct (omap_option_of_row _ _ Eo) as [H1 H2].
           split; [exact H2 |]. split; [discriminate |]. right.
           destruct results as [l|]; [| discriminate Er]. simpl in Er. subst l.
           destruct (Hrows _ eq_refl) as (t & h & Hr).
           exists (r :: rows), t, h. split; assumption.
        -- cbn [select_clause]. rewrite isinstance_Exception.
           unfold log, ret. cbn [fst snd]. eexists. eexists.
           split; [reflexivity |]. split; [constructor |].
           split; [discriminate | left; reflexivity].
    + cbn [select_clause]. rewrite isinstance_Exception.
      unfold log, ret. cbn [fst snd]. eexists. eexists.
      split; [reflexivity |]. split; [constructor |].
      split; [discriminate | left; reflexivity].
  - unfold bind, log, ret. cbn [fst snd]. eexists. eexists.
    split; [reflexivity |]. split; [constructor |]. split; [| left; reflexivity].
    intros _. split; [reflexivity |]. since_simpl. reflexivity.
Qed.

(** ** Start-up *)

Lemma mysql_connect_keeps env s c :
  mysql_conn s = Some c ->
  exists r s1 c1,
    MySQL.connect env s = (r, s1)
    /\ mysql_conn s1 = Some c1 /\ my_database c1 = my_database c
    /\ mongodb_conn s1 = mongodb_conn s /\ neo4j_conn s1 = neo4j_conn s.
Proof.
  intros Hc. unfold MySQL.connect, MySQL.self, MySQL.is_connected,
    MySQL.set_connection. unfold_monad. simpl. rewrite Hc. simpl.
  repeat break_inner;
    repeat match goal with
           | H : Some _ = Some _ |- _ => injection H as H; subst
           end;
    do 3 eexists; (split; [reflexivity |]); simpl; rewrite ?Hc; simpl;
    repeat split; simpl; congruence.
Qed.

Lemma mongodb_connect_keeps env s c :
  mongodb_conn s = Some c ->
  exists r s1 c1,
    MongoDB.connect env s = (r, s1)
    /\ mongodb_conn s1 = Some c1 /\ database_name c1 = database_name c
    /\ mysql_conn s1 = mysql_conn s /\ neo4j_conn s1 = neo4j_conn s.
Proof.
  intros Hc. unfold MongoDB.connect, MongoDB.set_client, MongoDB.set_database,
    MongoDB.update, MongoDB.self. unfold_monad. simpl. rewrite Hc. simpl.
  repeat break_inner;
    repeat match goal with
           | H : Some _ = Some _ |- _ => injection H as H; subst
           end;
    do 3 eexists; (split; [reflexivity |]); simpl; rewrite ?Hc; simpl;
    repeat split; simpl; congruence.
Qed.

Lemma neo4j_connect_keeps env s c :
  neo4j_conn s = Some c ->
  exists r s1 c1,
    Neo4j.connect env s = (r, s1)
    /\ neo4j_conn s1 = Some c1 /\ uri c1 = uri c
    /\ mysql_conn s1 = mysql_conn s /\ mongodb_conn s1 = mongodb_conn s.
Proof.
  intros Hc. unfold Neo4j.connect, Neo4j.run, Neo4j.self, Neo4j.set_driver.
  unfold_monad. simpl. rewrite Hc. simpl.
  repeat break_inner;
    repeat match goal with
           | H : Some _ = Some _ |- _ => injection H as H; subst
           end;
    do 3 eexists; (split; [reflexivity |]); simpl; rewrite ?Hc; simpl;
    repeat split; simpl; congruence.
Qed.

Section StartupFacts.
Variable env : Env.
Variable getenv : string -> option string.
Variable py_int : string -> outcome Z.

Lemma connect_mysql_run (s : State) :
  exists s1,
    connect_mysql env getenv py_int s = (Ok tt, s1)
    /\ mongodb_conn s1 = mongodb_conn s /\ neo4j_conn s1 = neo4j_conn s
    /\ match py_int (getenv_default getenv "MYSQL_PORT" "3306") with
       | Ok _ =>
           exists c,
             mysql_conn s1 = Some c
             /\ my_database c
                = if forallb MongoDB.nonempty
                       [getenv "MYSQL_DATABASE"; getenv "MYSQL_USER";
                        getenv "MYSQL_PASSWORD"]
                  then text_of (getenv "MYSQL_DATABASE")
                  else VStr "academicworld"
       | Raise _ => mysql_conn s1 = mysql_conn s
       end.
Proof.
  unfold connect_mysql, create_mysql_connection, try_except. cbv [bind].
  unfold lift_outcome at 1.
  destruct (py_int (getenv_default getenv "MYSQL_PORT" "3306")) as [port|e].
  - destruct (forallb MongoDB.nonempty
                [getenv "MYSQL_DATABASE"; getenv "MYSQL_USER";
                 getenv "MYSQL_PASSWORD"]);
      cbn [negb]; unfold log, ret, set_mysql_conn; cbn [fst snd];
      match goal with
      | |- context [MySQL.connect env ?st] =>
          destruct (mysql_connect_keeps env st _ eq_refl)
            as (r & s1 & c1 & E & Hc1 & Hdb & Hmo & Hne);
          rewrite E
      end;
      (destruct r as [[|]|x]; cbn [select_clause];
       rewrite ?isinstance_Exception; eexists;
       (split; [reflexivity |]); cbn [record_event mongodb_conn neo4j_conn mysql_conn];
       (split; [exact Hmo |]); (split; [exact Hne |]);
       exists c1; (split; [exact Hc1 | exact Hdb])).
  - cbn [select_clause]. rewrite isinstance_Exception. unfold log.
    eexists. split; [reflexivity |]. repeat split.
Qed.

Lemma connect_mongodb_run (s : State) :
  exists s1,
    connect_mongodb env getenv py_int s = (Ok tt, s1)
    /\ mysql_conn s1 = mysql_conn s /\ neo4j_conn s1 = neo4j_conn s
    /\ match py_int (getenv_default getenv "MONGODB_PORT" "27017") with
       | Ok _ =>
           exists c,
             mongodb_conn s1 = Some c
             /\ database_name c
                = if MongoDB.nonempty (getenv "MONGODB_DATABASE")
                  then getenv "MONGODB_DATABASE"
                  else Some "admin"
       | Raise _ => mongodb_conn s1 = mongodb_conn s
       end.
Proof.
  unfold connect_mongodb, create_mongodb_connection, try_except. cbv [bind].
  unfold lift_outcome at 1.
  destruct (py_int (getenv_default getenv "MONGODB_PORT" "27017")) as [port|e].
  - destruct (MongoDB.nonempty (getenv "MONGODB_DATABASE"));
      cbn [negb]; unfold log, ret, set_mongodb_conn; cbn [fst snd];
      match goal with
      | |- context [MongoDB.connect env ?st] =>
          destruct (mongodb_connect_keeps env st _ eq_refl)
            as (r & s1 & c1 & E & Hc1 & Hdb & Hmy & Hne);
          rewrite E
      end;
      (destruct r as [[|]|x]; cbn [select_clause];
       rewrite ?isinstance_Exception; eexists;
       (split; [reflexivity |]); cbn [record_event mongodb_conn neo4j_conn mysql_conn];
       (split; [exact Hmy |]); (split; [exact Hne |]);
       exists c1; (split; [exact Hc1 | exact Hdb])).
  - cbn [select_clause]. rewrite isinstance_Exception. unfold log.
    eexists. split; [reflexivity |]. repeat split.
Qed.

Lemma connect_neo4j_run (s : State) :
  exists s1 c,
    connect_neo4j env getenv s = (Ok tt, s1)
    /\ mysql_conn s1 = mysql_conn s /\ mongodb_conn s1 = mongodb_conn s
    /\ neo4j_conn s1 = Some c
    /\ uri c
       = if MongoDB.nonempty (getenv "NEO4J_USERNAME")
            && MongoDB.nonempty (getenv "NEO4J_PASSWORD")
         then VStr (getenv_default getenv "NEO4J_URI" "bolt://localhost:7687")
         else VStr "bolt://localhost:7687".
Proof.
  unfold connect_neo4j, create_neo4j_connection, try_except. cbv [bind].
  destruct (MongoDB.nonempty (getenv "NEO4J_USERNAME"));
    destruct (MongoDB.nonempty (getenv "NEO4J_PASSWORD"));
    cbn [negb orb andb]; unfold log, ret, set_neo4j_conn; cbn [fst snd];
    match goal with
    | |- context [Neo4j.connect env ?st] =>
        destruct (neo4j_connect_keeps env st _ eq_refl)
          as (r & s1 & c1 & E & Hc1 & Huri & Hmy & Hmo);
        rewrite E
    end;
    (destruct r as [[|]|x]; cbn [select_clause];
     rewrite ?isinstance_Exception; eexists; exists c1;
     (split; [reflexivity |]); cbn [record_event mongodb_conn neo4j_conn mysql_conn];
     (split; [exact Hmy |]); (split; [exact Hmo |]);
     (split; [exact Hc1 | exact Huri])).
Qed.
End StartupFacts.

(** X23: start-up (app.py 28-97 with the three
    [create_connection_from_env]).  [initialize_database_connections]
    raises nothing, whatever the environment variables and the servers.
    The graph connection object always exists afterwards, built from the
    environment when both credentials are set and from the built-in
    defaults otherwise.  The relational and the document object exist
    afterwards when their port variable is a number, again from the
    environment or else from the defaults; but the port is converted
    before anything else is looked at (mysql_utils.py 242,
    mongodb_utils.py 437), so a port that is no number leaves the global as
    it was: no fallback is taken, and after a start from nothing the
    relational widgets answer "MySQL not connected" from then on. *)
Theorem startup_connections
    (env : Env) (getenv : string -> option string)
    (py_int : string -> outcome Z) (s : State) :
  exists s',
    initialize_database_connections env getenv py_int s = (Ok tt, s')
    /\ (exists c,
          neo4j_conn s' = Some c
          /\ uri c
             = if MongoDB.nonempty (getenv "NEO4J_USERNAME")
                  && MongoDB.nonempty (getenv "NEO4J_PASSWORD")
               then VStr (getenv_default getenv "NEO4J_URI" "bolt://localhost:7687")
               else VStr "bolt://localhost:7687")
    /\ match py_int (getenv_default getenv "MYSQL_PORT" "3306") with
       | Ok _ =>
           exists c,
             mysql_conn s' = Some c
             /\ my_database c
                = if forallb MongoDB.nonempty
                       [getenv "MYSQL_DATABASE"; getenv "MYSQL_USER";
                        getenv "MYSQL_PASSWORD"]
                  then text_of (getenv "MYSQL_DATABASE")
                  else VStr "academicworld"
       | Raise _ =>
           mysql_conn s' = mysql_conn s
           /\ (mysql_conn s = None ->
               forall env' keyword,
                 get_publications_by_keyword env' keyword s'
                 = (Ok mysql_not_connected, s')
                 /\ get_all_publications env' s' = (Ok mysql_not_connected, s'))
       end
    /\ match py_int (getenv_default getenv "MONGODB_PORT" "27017") with
       | Ok _ =>
           exists c,
             mongodb_conn s' = Some c
             /\ database_name c
                = if MongoDB.nonempty (getenv "MONGODB_DATABASE")
                  then getenv "MONGODB_DATABASE"
                  else Some "admin"
       | Raise _ => mongodb_conn s' = mongodb_conn s
       end.
Proof.
  destruct (connect_mysql_run env getenv py_int s) as (s1 & E1 & F1mo & F1ne & H1).
  destruct (connect_mongodb_run env getenv py_int s1)
    as (s2 & E2 & F2my & F2ne & H2).
  destruct (connect_neo4j_run env getenv s2)
    as (s3 & c3 & E3 & F3my & F3mo & Hc3 & Huri).
  exists s3. unfold initialize_database_connections. cbv [bind].
  rewrite E1, E2, E3. split; [reflexivity |].
  split; [exists c3; split; assumption |]. split.
  - rewrite F3my, F2my.
    destruct (py_int (getenv_default getenv "MYSQL_PORT" "3306")); [exact H1 |].
    split; [exact H1 |]. intros Hnone env' keyword.
    assert (Ha : mysql_available s3 = false).
    { unfold mysql_available. rewrite F3my, F2my, H1, Hnone. reflexivity. }
    split.
    + unfold get_publications_by_keyword. unfold_monad. rewrite Ha. reflexivity.
    + unfold get_all_publications. unfold_monad. rewrite Ha. reflexivity.
  - rewrite F3mo.
    destruct (py_int (getenv_default getenv "MONGODB_PORT" "27017"));
      [exact H2 |].
    rewrite H2. exact F1mo.
Qed.

Lemma startup_connections_witness :
  exists s',
    initialize_database_connections unreachable bad_port sample_int fresh
    = (Ok tt, s')
    /\ mysql_conn s' = None
    /\ get_all_publications (relational_only (fun _ => Ok [])) s'
       = (Ok mysql_not_connected, s').
Proof.
  destruct (startup_connections unreachable bad_port sample_int fresh)
    as (s' & E & _ & Hmy & _).
  assert (Hp : sample_int (getenv_default bad_port "MYSQL_PORT" "3306")
               = Raise (Exn ValueError "invalid literal for int() with base 10"))
    by reflexivity.
  rewrite Hp in Hmy. destruct Hmy as [Hconn Hwidgets].
  exists s'. split; [exact E |]. split; [exact Hconn |].
  exact (proj2 (Hwidgets eq_refl (relational_only (fun _ => Ok [])) "AI")).
Defined.

(** ** The H-index of a faculty member *)

Lemma filter_length_le {A} (p q : A -> bool) (l : list A) :
  (forall x, In x l -> p x = true -> q x = true) ->
  List.length (filter p l) <= List.length (filter q l).
Proof.
  induction l as [|x l IH]; intros H; simpl; [lia |].
  assert (IH' : List.length (filter p l) <= List.length (filter q l)).
  { apply IH. intros y Hy. apply H. right. exact Hy. }
  destruct (p x) eqn:Ep.
  - rewrite (H x (or_introl eq_refl) Ep). simpl. lia.
  - destruct (q x); simpl; lia.
Qed.

Lemma filter_length_le_or {A} (p q r : A -> bool) (l : list A) :
  (forall x, In x l -> p x = true -> q x = true \/ r x = true) ->
  List.length (filter p l)
  <= List.length (filter q l) + List.length (filter r l).
Proof.
  induction l as [|x l IH]; intros H; simpl; [lia |].
  assert (IH' : List.length (filter p l)
                <= List.length (filter q l) + List.length (filter r l)).
  { apply IH. intros y Hy. apply H. right. exact Hy. }
  destruct (p x) eqn:Ep.
  - destruct (H x (or_introl eq_refl) Ep) as [E | E]; rewrite E;
      destruct (q x), (r x); simpl; lia.
  - destruct (q x), (r x); simpl; lia.
Qed.

Lemma filter_length_add_le {A} (p q r : A -> bool) (l : list A) :
  (forall x, In x l -> p x = true -> r x = true) ->
  (forall x, In x l -> q x = true -> r x = true) ->
  (forall x, p x = true -> q x = true -> False) ->
  List.length (filter p l) + List.length (filter q l)
  <= List.length (filter r l).
Proof.
  intros Hp Hq Hpq. induction l as [|x l IH]; simpl; [lia |].
  assert (IH' : List.length (filter p l) + List.length (filter q l)
                <= List.length (filter r l)).
  { apply IH; intros y Hy; [apply Hp | apply Hq]; right; exact Hy. }
  destruct (p x) eqn:Ep, (q x) eqn:Eq.
  - exfalso. exact (Hpq x Ep Eq).
  - rewrite (Hp x (or_introl eq_refl) Ep). simpl. lia.
  - rewrite (Hq x (or_introl eq_refl) Eq). simpl. lia.
  - destruct (r x); simpl; lia.
Qed.

Lemma count_eq_absent (l : list Z) (c : Z) :
  ~ In c l -> List.length (filter (fun x => (x =? c)%Z) l) = 0.
Proof.
  induction l as [|y l IH]; simpl; [reflexivity |]. intros Hc.
  destruct (y =? c)%Z eqn:E.
  - apply Z.eqb_eq in E. subst y. exfalso. apply Hc. left. reflexivity.
  - apply IH. intros H. apply Hc. right. exact H.
Qed.

Lemma count_eq_NoDup (l : list Z) (c : Z) :
  NoDup l -> In c l -> List.length (filter (fun x => (x =? c)%Z) l) = 1.
Proof.
  induction 1 as [|x l Hx Hl IH]; simpl; [contradiction |].
  intros [-> | Hc].
  - rewrite Z.eqb_refl. simpl. rewrite (count_eq_absent l c Hx). reflexivity.
  - destruct (x =? c)%Z eqn:E; [| exact (IH Hc)].
    apply Z.eqb_eq in E. subst x. contradiction.
Qed.

Lemma minimum_exists (l : list Z) :
  l <> [] -> exists m, In m l /\ forall x, In x l -> (m <= x)%Z.
Proof.
  induction l as [|a l IH]; [contradiction |]. intros _.
  destruct l as [|b l'].
  - exists a. split; [left; reflexivity |]. intros x [<- | []]. lia.
  - destruct (IH ltac:(discriminate)) as (m & Hm & Hmin).
    destruct (Z.le_ge_cases a m) as [Hle | Hge].
    + exists a. split; [left; reflexivity |].
      intros x [<- | Hx]; [lia | specialize (Hmin x Hx); lia].
    + exists m. split; [right; exact Hm |].
      intros x [<- | Hx]; [lia | exact (Hmin x Hx)].
Qed.

Lemma maximal_exists (l : list Z) :
  l <> [] -> exists m, In m l /\ forall x, In x l -> (x <= m)%Z.
Proof.
  induction l as [|a l IH]; [contradiction |]. intros _.
  destruct l as [|b l'].
  - exists a. split; [left; reflexivity |]. intros x [<- | []]. lia.
  - destruct (IH ltac:(discriminate)) as (m & Hm & Hmax).
    destruct (Z.le_ge_cases a m) as [Hle | Hge].
    + exists m. split; [right; exact Hm |].
      intros x [<- | Hx]; [lia | exact (Hmax x Hx)].
    + exists a. split; [left; reflexivity |].
      intros x [<- | Hx]; [lia | specialize (Hmax x Hx); lia].
Qed.

Section HIndex.
Variable vals : list Z.
Hypothesis distinct_vals : NoDup vals.

(** With distinct values the rank of a value is one more than the number
    of values over it. *)
Lemma ranked_spec (c : Z) :
  In c vals ->
  (is_ranked vals c = true <-> (Z.of_nat (above_count vals c) + 1 <= c)%Z).
Proof.
  intros Hc. unfold is_ranked, rank2. fold (above_count vals c).
  rewrite (count_eq_NoDup vals c distinct_vals Hc), Z.leb_le. lia.
Qed.

Lemma above_lt (c c' : Z) :
  In c' vals -> (c < c')%Z -> above_count vals c' + 1 <= above_count vals c.
Proof.
  intros Hc' Hlt. unfold above_count.
  rewrite <- (count_eq_NoDup vals c' distinct_vals Hc').
  apply filter_length_add_le.
  - intros x _ Hx. apply Z.ltb_lt in Hx. apply Z.ltb_lt. lia.
  - intros x _ Hx. apply Z.eqb_eq in Hx. apply Z.ltb_lt. lia.
  - intros x H1 H2. apply Z.ltb_lt in H1. apply Z.eqb_eq in H2. lia.
Qed.

(** The values that are at least their rank are closed upwards. *)
Lemma ranked_up (c c' : Z) :
  In c vals -> In c' vals -> is_ranked vals c = true -> (c < c')%Z ->
  is_ranked vals c' = true.
Proof.
  intros Hc Hc' Hr Hlt. apply (ranked_spec c' Hc').
  apply (ranked_spec c Hc) in Hr.
  pose proof (above_lt c c' Hc' Hlt). lia.
Qed.

Lemma ranked_at_least_H (c : Z) :
  In c vals -> is_ranked vals c = true -> (Z.of_nat (ranked_count vals) <= c)%Z.
Proof.
  intros Hc Hr.
  destruct (minimum_exists (filter (is_ranked vals) vals)) as (m & Hm & Hmin).
  { intros E. assert (Hin : In c (filter (is_ranked vals) vals))
      by (apply filter_In; split; assumption).
    rewrite E in Hin. contradiction. }
  apply filter_In in Hm. destruct Hm as [Hmv Hmr].
  assert (Hcm : (m <= c)%Z) by (apply Hmin, filter_In; split; assumption).
  assert (HH : (ranked_count vals) <= above_count vals m + 1).
  { unfold ranked_count, above_count.
    rewrite <- (count_eq_NoDup vals m distinct_vals Hmv).
    apply filter_length_le_or. intros x Hx Hxr.
    assert (Hmx : (m <= x)%Z) by (apply Hmin, filter_In; split; assumption).
    destruct (Z.eq_dec x m) as [-> | Hne].
    - right. apply Z.eqb_refl.
    - left. apply Z.ltb_lt. lia. }
  apply (ranked_spec m Hmv) in Hmr. lia.
Qed.

Lemma unranked_at_most_H (c : Z) :
  In c vals -> is_ranked vals c = false -> (c <= Z.of_nat (ranked_count vals))%Z.
Proof.
  intros Hc Hr.
  destruct (maximal_exists (filter (fun x => negb (is_ranked vals x)) vals))
    as (m & Hm & Hmax).
  { intros E. assert (Hin : In c (filter (fun x => negb (is_ranked vals x)) vals))
      by (apply filter_In; split; [assumption | rewrite Hr; reflexivity]).
    rewrite E in Hin. contradiction. }
  apply filter_In in Hm. destruct Hm as [Hmv Hmr].
  apply negb_true_iff in Hmr.
  assert (Hcm : (c <= m)%Z).
  { apply Hmax, filter_In. split; [assumption | rewrite Hr; reflexivity]. }
  assert (HH : above_count vals m <= (ranked_count vals)).
  { unfold ranked_count, above_count. apply filter_length_le. intros x Hx Hxm.
    apply Z.ltb_lt in Hxm.
    destruct (is_ranked vals x) eqn:Ex; [reflexivity |].
    assert (Hxle : (x <= m)%Z).
    { apply Hmax, filter_In. split; [assumption | rewrite Ex; reflexivity]. }
    lia. }
  assert (Hm2 : ~ (Z.of_nat (above_count vals m) + 1 <= m)%Z).
  { intros Hle. apply (ranked_spec m Hmv) in Hle. congruence. }
  lia.
Qed.

Lemma ranked_count_is_h_index :
  (ranked_count vals) <= List.length (filter (fun c => (Z.of_nat (ranked_count vals) <=? c)%Z) vals)
  /\ List.length (filter (fun c => (Z.of_nat (S (ranked_count vals)) <=? c)%Z) vals) <= (ranked_count vals).
Proof.
  split.
  - unfold ranked_count at 1. apply filter_length_le. intros x Hx Hr.
    apply Z.leb_le. apply ranked_at_least_H; assumption.
  - unfold ranked_count at 2. apply filter_length_le. intros x Hx Hge.
    apply Z.leb_le in Hge.
    destruct (is_ranked vals x) eqn:Ex; [reflexivity |].
    pose proof (unranked_at_most_H x Hx Ex). lia.
Qed.
End HIndex.

Lemma at_least_antitone (citations : list (option Z)) (n m : nat) :
  n <= m -> at_least m citations <= at_least n citations.
Proof.
  intros Hnm. unfold at_least. apply filter_length_le.
  intros x _ Hx. apply Z.leb_le in Hx. apply Z.leb_le. lia.
Qed.

(** X24: the "H-index" of the faculty summary (app.py 1442), the number
    of publications whose citation count is at least its rank.  When the
    citation counts present are pairwise distinct it is the h-index: that
    many publications have at least that many citations each, there are
    not one more with one more each, and no other number has both
    properties.  Under equal counts the rank is the average place, and the
    number is not the h-index in general: three publications of 2
    citations give 3 (the h-index is 2), two publications of 1 citation
    give 0 (the h-index is 1). *)
Theorem h_index_of_distinct_counts (citations : list (option Z)) :
  (NoDup (present citations) ->
   is_h_index citations (h_index citations)
   /\ forall h, is_h_index citations h -> h = h_index citations)
  /\ (h_index [Some 2%Z; Some 2%Z; Some 2%Z] = 3
      /\ is_h_index [Some 2%Z; Some 2%Z; Some 2%Z] 2)
  /\ (h_index [Some 1%Z; Some 1%Z] = 0
      /\ is_h_index [Some 1%Z; Some 1%Z] 1).
Proof.
  split; [| split; [split; [reflexivity | split; vm_compute; lia]
                   | split; [reflexivity | split; vm_compute; lia]]].
  intros Hnd.
  assert (Hh : is_h_index citations (h_index citations))
    by exact (ranked_count_is_h_index (present citations) Hnd).
  split; [exact Hh |].
  intros h [H1 H2]. destruct Hh as [G1 G2].
  destruct (Nat.lt_trichotomy h (h_index citations)) as [Hlt | [Heq | Hgt]];
    [| exact Heq |].
  - pose proof (at_least_antitone citations (S h) (h_index citations) Hlt). lia.
  - pose proof (at_least_antitone citations (S (h_index citations)) h Hgt). lia.
Qed.

Lemma h_index_of_distinct_counts_witness :
  is_h_index [Some 10%Z; None; Some 3%Z; Some 5%Z; Some 1%Z]
             (h_index [Some 10%Z; None; Some 3%Z; Some 5%Z; Some 1%Z])
  /\ h_index [Some 10%Z; None; Some 3%Z; Some 5%Z; Some 1%Z] = 3.
Proof.
  split; [| reflexivity].
  apply (h_index_of_distinct_counts
           [Some 10%Z; None; Some 3%Z; Some 5%Z; Some 1%Z]).
  repeat constructor; simpl; intuition lia.
Defined.

(** ** The relational widgets over a server that is down *)

Lemma mysql_down_query env q p s c :
  mysql_down env -> mysql_conn s = Some c ->
  exists s',
    MySQL.execute_query env q p s = (Ok None, s')
    /\ mysql_conn s' = mysql_conn s.
Proof.
  intros [Hlive Hrefuse] Hc. unfold_mysql. unfold_monad. simpl.
  rewrite Hc. simpl.
  destruct (connection c) as [h|]; simpl; rewrite ?Hlive; simpl; rewrite ?Hc; simpl.
  - match goal with
    | |- context [mysql_connect_result env ?t] =>
        destruct (Hrefuse t) as (e & -> & Hcls)
    end.
    simpl. rewrite (isinstance_class _ _ Hcls). simpl.
    eexists. split; [reflexivity | simpl; exact Hc].
  - match goal with
    | |- context [mysql_connect_result env ?t] =>
        destruct (Hrefuse t) as (e & -> & Hcls)
    end.
    simpl. rewrite (isinstance_class _ _ Hcls). simpl.
    eexists. split; [reflexivity | simpl; exact Hc].
Qed.

Lemma mysql_down_statistics env keyword s c :
  mysql_down env -> mysql_conn s = Some c ->
  exists s',
    keyword_statistics env keyword s = (Ok (zero_entry keyword), s')
    /\ mysql_conn s' = mysql_conn s.
Proof.
  intros Hdown Hc. unfold keyword_statistics. cbv zeta. unfold bind.
  match goal with
  | |- context [MySQL.execute_query ?e ?q ?p ?s0] =>
      destruct (mysql_down_query e q p s0 c Hdown Hc) as (s' & -> & Hs')
  end.
  exists s'. split; [reflexivity | exact Hs'].
Qed.

Lemma mysql_down_comparison env (keywords : list string) s c :
  mysql_down env -> mysql_conn s = Some c ->
  exists s',
    mapM (keyword_statistics env) keywords s = (Ok (map zero_entry keywords), s').
Proof.
  intros Hdown. revert s c. induction keywords as [|k ks IH]; intros s c Hc.
  - exists s. reflexivity.
  - destruct (mysql_down_statistics env k s c Hdown Hc) as (s1 & E1 & H1).
    rewrite Hc in H1.
    destruct (IH s1 c H1) as (s2 & E2).
    exists s2. cbn [mapM map]. unfold bind. rewrite E1, E2. reflexivity.
Qed.

(** X25: a relational server that is down looks like an empty database
    (app.py 540-590, 622-663, 689-729, 805-811 over mysql_utils.py 78-91).
    With a handle in place but no connection alive and every reconnect
    refused, the adapter returns [None], which each widget reads as "no
    rows": the publication widgets answer "No publications found", not an
    error and not "MySQL not connected"; the keyword comparison draws every
    keyword with all its numbers 0; and the university list is empty. *)
Theorem dead_server_looks_empty
    (env : Env) (s : State) (keyword : string) (keywords : list string) :
  mysql_down env -> mysql_available s = true -> keywords <> [] ->
  fst (get_all_publications env s)
  = Ok (Annotation [Lit "No publications found in database"],
        Message [Lit "No publications found in database"])
  /\ fst (get_publications_by_keyword env keyword s)
     = Ok (Annotation [Lit "No publications found containing '";
                       Val (VStr keyword); Lit "'"],
           Message [Lit "No publications found for keyword: ";
                    Val (VStr keyword)])
  /\ fst (get_keyword_comparison env keywords s)
     = Ok (KeywordComparison (map zero_entry keywords),
           ComparisonSummary (map zero_entry keywords))
  /\ fst (get_available_universities env s) = Ok [].
Proof.
  intros Hdown Ha Hne.
  assert (Hc : exists c, mysql_conn s = Some c).
  { unfold mysql_available in Ha. destruct (mysql_conn s) as [c|];
      [eauto | discriminate Ha]. }
  destruct Hc as [c Hc].
  split; [| split; [| split]].
  - destruct (mysql_down_query env all_publications_query [] s c Hdown Hc)
      as (s' & E & _).
    rewrite (get_all_publications_empty env s None s' Ha E eq_refl). reflexivity.
  - match goal with
    | |- context [get_publications_by_keyword env ?k s] =>
        destruct (mysql_down_query env keyword_search_query
                    (let t := VStr ("%" ++ k ++ "%") in [t; t; t; t]) s c Hdown Hc)
          as (s' & E & _)
    end.
    rewrite (get_publications_by_keyword_empty env keyword s None s' Ha E eq_refl).
    reflexivity.
  - unfold get_keyword_comparison. unfold try_except, bind, read.
    rewrite Ha. cbn [negb].
    destruct (mysql_down_comparison env keywords s c Hdown Hc) as (s' & ->).
    destruct keywords as [|k ks]; [contradiction Hne; reflexivity |].
    reflexivity.
  - unfold get_available_universities. unfold try_except, bind, read.
    rewrite Ha.
    destruct (mysql_down_query env universities_query [] s c Hdown Hc)
      as (s' & -> & _).
    reflexivity.
Qed.

Lemma dead_server_looks_empty_witness :
  let s := started (Some 0) None None in
  fst (get_all_publications unreachable s)
  = Ok (Annotation [Lit "No publications found in database"],
        Message [Lit "No publications found in database"])
  /\ fst (get_publications_by_keyword unreachable "AI" s)
     = Ok (Annotation [Lit "No publications found containing '";
                       Val (VStr "AI"); Lit "'"],
           Message [Lit "No publications found for keyword: ";
                    Val (VStr "AI")])
  /\ fst (get_keyword_comparison unreachable ["AI"; "ML"] s)
     = Ok (KeywordComparison (map zero_entry ["AI"; "ML"]),
           ComparisonSummary (map zero_entry ["AI"; "ML"]))
  /\ fst (get_available_universities unreachable s) = Ok [].
Proof.
  apply (dead_server_looks_empty unreachable (started (Some 0) None None)
           "AI" ["AI"; "ML"]).
  - split; [reflexivity |]. intros t. eexists. split; reflexivity.
  - reflexivity.
  - discriminate.
Defined.
